(** * open_files: the SearXNG crawling and extraction engine

    A shallow embedding of [scraper/searxng_scraper.py]: the result record
    and its file classification, the page parser, the per-instance pager
    and the multi-instance orchestrator, followed by the properties the
    specification states about them.

    Conventions.
    - A Python [str] is a [string]; a character is a code point below 256
      (ASCII and the Latin-1 supplement), which is where the constants of
      the program live.
    - A [dict] whose keys are fixed by the program is a record; the
      per-instance statistics dictionary, keyed by a computed string, is a
      [gmap string InstanceStats]; a dictionary that is only built and
      handed to the transport is an association list in insertion order.
    - Python [float] is IEEE 754 binary64, that is [PrimFloat.float].
    - An asynchronous generator is run to exhaustion by its consumer and
      is modelled by the trace of what it does (requests, pauses, yields),
      the statistics it leaves and the exception that escapes, if any. *)

From Stdlib Require Import String Ascii List Arith Lia Bool NArith ZArith.
From Stdlib Require Import Numbers.DecimalString.
From Stdlib Require Import Floats.PrimFloat Numbers.Cyclic.Int63.Uint63.
From stdpp Require Import gmap strings list sorting.
From Equations Require Import Equations.

Local Open Scope string_scope.
Local Open Scope list_scope.

(** ** Python string operations *)

Module PyStr.

Definition code (c : ascii) : N := N_of_ascii c.

Definition between (lo hi : N) (c : ascii) : bool :=
  ((lo <=? code c) && (code c <=? hi))%N.

(** [str.lower] on one character: [A-Z], and the upper-case letters of
    the Latin-1 supplement (all of 0xC0..0xDE but the multiplication
    sign 0xD7), move 32 code points up. *)
Definition lower_char (c : ascii) : ascii :=
  if between 65 90 c then ascii_of_N (code c + 32)
  else if between 192 222 c && negb (code c =? 215)%N
       then ascii_of_N (code c + 32)
       else c.

Fixpoint lower (s : string) : string :=
  match s with
  | EmptyString => EmptyString
  | String c s' => String (lower_char c) (lower s')
  end.

(** [pat in s]. *)
Fixpoint contains (pat s : string) : bool :=
  if String.prefix pat s then true
  else match s with
       | EmptyString => false
       | String _ s' => contains pat s'
       end.

(** [str.isspace] on one character. *)
Definition isspace (c : ascii) : bool :=
  between 9 13 c || between 28 32 c || (code c =? 133)%N || (code c =? 160)%N.

Fixpoint lstrip (s : string) : string :=
  match s with
  | EmptyString => EmptyString
  | String c s' => if isspace c then lstrip s' else s
  end.

(** [rstrip] keeps a character when something that is not white space
    follows it, or when it is not white space itself. *)
Fixpoint rstrip (s : string) : string :=
  match s with
  | EmptyString => EmptyString
  | String c s' =>
      match rstrip s' with
      | EmptyString => if isspace c then EmptyString else String c EmptyString
      | r => String c r
      end
  end.

Definition strip (s : string) : string := rstrip (lstrip s).

(** Truth value of a string: the empty string is false. *)
Definition truthy (s : string) : bool :=
  match s with EmptyString => false | _ => true end.

(** [sep.join(l)]. *)
Fixpoint join (sep : string) (l : list string) : string :=
  match l with
  | [] => ""
  | [x] => x
  | x :: rest => x +:+ sep +:+ join sep rest
  end.

(** [str(n)] for a non-negative integer. *)
Definition of_nat (n : nat) : string := NilEmpty.string_of_uint (Nat.to_uint n).

(** The white-space separated words of a string ([str.split()]). *)
Fixpoint split_ws_aux (cur : string) (s : string) : list string :=
  match s with
  | EmptyString => if truthy cur then [cur] else []
  | String c s' =>
      if isspace c
      then (if truthy cur then [cur] else []) ++ split_ws_aux "" s'
      else split_ws_aux (cur +:+ String c "") s'
  end.

Definition split_ws (s : string) : list string := split_ws_aux "" s.

End PyStr.

(** ** The result record and its classification *)

(** [SearchResult], a dataclass.  The last six fields only ever hold
    their defaults in the scraper. *)
Module SearchResult.

Record t := mk {
  title : string;
  url : string;
  description : string;
  domain : string;
  engines : list string;
  cached_url : option string;
  position : nat;
  page_number : nat;
  is_file : bool;
  file_type : option string;
  is_google_doc : bool;
  is_google_drive : bool;
  score : float;
  category : string;
  engine : string;
  thumbnail : option string;
  publishedDate : option string;
  fileSize : option string
}.

(** The table of [SearchResult._identify_file_type], in insertion order. *)
Definition file_extensions : list (string * string) :=
  [ ("pdf", "PDF"); ("doc", "DOC"); ("docx", "DOCX");
    ("xls", "XLS"); ("xlsx", "XLSX"); ("ppt", "PPT"); ("pptx", "PPTX");
    ("txt", "TXT"); ("rtf", "RTF"); ("csv", "CSV");
    ("odt", "ODT"); ("ods", "ODS"); ("odp", "ODP");
    ("zip", "ZIP"); ("rar", "RAR"); ("7z", "7Z") ].

(** [for ext, file_type in table.items(): if test(f'.{ext}'): return file_type] *)
Fixpoint first_extension (table : list (string * string)) (test : string -> bool)
  : option string :=
  match table with
  | [] => None
  | (ext, file_type) :: rest =>
      if test ("." +:+ ext) then Some file_type else first_extension rest test
  end.

(** [SearchResult._identify_file_type(self)]; it reads the two cloud
    flags that [__post_init__] has just set. *)
Definition _identify_file_type (url title : string) (is_google_doc is_google_drive : bool)
  : bool * option string :=
  let url_lower := PyStr.lower url in
  let title_lower := PyStr.lower title in
  match first_extension file_extensions
          (fun tok => PyStr.contains tok url_lower || PyStr.contains tok title_lower) with
  | Some file_type => (true, Some file_type)
  | None =>
      let drive := if is_google_drive then (true, Some "Google Drive") else (false, None) in
      if is_google_doc then
        if PyStr.contains "/document/" url then (true, Some "Google Doc")
        else if PyStr.contains "/spreadsheets/" url then (true, Some "Google Sheets")
        else if PyStr.contains "/presentation/" url then (true, Some "Google Slides")
        else if PyStr.contains "/forms/" url then (true, Some "Google Forms")
        else drive
      else drive
  end.

(** Truth value of [Optional[str]]: [None] and [''] are false. *)
Definition truthy_opt (o : option string) : bool :=
  match o with None => false | Some s => PyStr.truthy s end.

(** The generated [__init__] with the keyword arguments the parser
    passes, followed by [__post_init__]. *)
Definition new (title url description domain : string) (engines : list string)
    (cached_url : option string) (position page_number : nat)
    (is_file : bool) (file_type : option string) : t :=
  let is_google_doc :=
    if PyStr.truthy url then PyStr.contains "docs.google.com" url else false in
  let is_google_drive :=
    if PyStr.truthy url
    then PyStr.contains "drive.google.com" url || PyStr.contains "docs.google.com" url
    else false in
  let '(is_file', file_type') :=
    if negb (truthy_opt file_type) && PyStr.truthy url
    then _identify_file_type url title is_google_doc is_google_drive
    else (is_file, file_type) in
  {| title := title; url := url; description := description; domain := domain;
     engines := engines; cached_url := cached_url;
     position := position; page_number := page_number;
     is_file := is_file'; file_type := file_type';
     is_google_doc := is_google_doc; is_google_drive := is_google_drive;
     score := 0%float; category := "general"; engine := "";
     thumbnail := None; publishedDate := None; fileSize := None |}.

End SearchResult.

(** ** The scraper's own file test *)

(** [self.file_extensions], in insertion order. *)
Definition file_extensions : list (string * string) :=
  [ ("pdf", "pdf");
    ("doc", "document"); ("docx", "document"); ("odt", "document");
    ("xls", "spreadsheet"); ("xlsx", "spreadsheet"); ("ods", "spreadsheet");
    ("ppt", "presentation"); ("pptx", "presentation"); ("odp", "presentation");
    ("txt", "text"); ("rtf", "text");
    ("zip", "archive"); ("rar", "archive"); ("7z", "archive");
    ("mp3", "audio"); ("wav", "audio"); ("flac", "audio");
    ("mp4", "video"); ("avi", "video"); ("mkv", "video");
    ("jpg", "image"); ("jpeg", "image"); ("png", "image"); ("gif", "image") ].

(** [self.google_patterns]: each regular expression is a literal host name
    with its dots escaped, so that [re.search(pattern, s)] is [host in s];
    the list holds the host names. *)
Definition google_patterns : list string :=
  [ "docs.google.com"; "drive.google.com"; "sheets.google.com";
    "slides.google.com"; "forms.google.com" ].

(** The [if]/[elif] chain inside the pattern loop. *)
Definition google_kind (url_lower : string) : option string :=
  if PyStr.contains "docs.google.com" url_lower then Some "google_doc"
  else if PyStr.contains "sheets.google.com" url_lower then Some "google_sheet"
  else if PyStr.contains "slides.google.com" url_lower then Some "google_slides"
  else if PyStr.contains "drive.google.com" url_lower then Some "google_drive"
  else if PyStr.contains "forms.google.com" url_lower then Some "google_form"
  else None.

(** [for pattern in self.google_patterns: if re.search(pattern, url_lower): ...];
    a pattern that matches without any branch of the chain returning lets
    the loop go on. *)
Fixpoint google_loop (patterns : list string) (url_lower : string) : option string :=
  match patterns with
  | [] => None
  | pattern :: rest =>
      if PyStr.contains pattern url_lower
      then match google_kind url_lower with
           | Some kind => Some kind
           | None => google_loop rest url_lower
           end
      else google_loop rest url_lower
  end.

Definition title_indicators : list string :=
  [ "[pdf]"; "[doc]"; "[xls]"; "filetype:"; "download" ].

(** [SearxngScraper._identify_file_type(url, title)]. *)
Definition _identify_file_type (url title : string) : bool * option string :=
  let url_lower := PyStr.lower url in
  match SearchResult.first_extension file_extensions
          (fun tok => PyStr.contains tok url_lower) with
  | Some file_type => (true, Some file_type)
  | None =>
      match google_loop google_patterns url_lower with
      | Some kind => (true, Some kind)
      | None =>
          let title_lower := PyStr.lower title in
          if existsb (fun word => PyStr.contains word title_lower) title_indicators
          then (true, Some "unknown")
          else (false, None)
      end
  end.

(** The classification a result ends up with: the parser calls
    [_identify_file_type] and hands its answer to the [SearchResult]
    constructor, which sets the cloud flags and, when the answer carries no
    kind, asks its own table. *)
Record Classification := {
  c_is_file : bool;
  c_file_kind : option string;
  c_is_cloud_doc : bool;
  c_is_cloud_drive : bool
}.

Definition classification_of (r : SearchResult.t) : Classification :=
  {| c_is_file := SearchResult.is_file r;
     c_file_kind := SearchResult.file_type r;
     c_is_cloud_doc := SearchResult.is_google_doc r;
     c_is_cloud_drive := SearchResult.is_google_drive r |}.

Definition classify (url title : string) : Classification :=
  let '(is_file, file_type) := _identify_file_type url title in
  classification_of
    (SearchResult.new title url "" "" [] None 0 1 is_file file_type).

(** ** The parsed page *)

(** The tree that [BeautifulSoup(html, 'html.parser')] builds: an element
    with its attributes and children, or a piece of text.  Building the
    tree from the text of the response is the library's work; a page is
    its root element. *)
#[warnings="-register-all"]
Inductive node : Type :=
| Tag (name : string) (attrs : list (string * string)) (children : list node)
| NavigableString (text : string).

Module Soup.

(** Everything below a node, in document order. *)
Fixpoint descendants (n : node) : list node :=
  match n with
  | Tag _ _ children =>
      (fix walk (l : list node) : list node :=
         match l with
         | [] => []
         | c :: rest => c :: descendants c ++ walk rest
         end) children
  | NavigableString _ => []
  end.

(** [tag.get(key, default)]. *)
Fixpoint lookup_attr (key : string) (attrs : list (string * string)) : option string :=
  match attrs with
  | [] => None
  | (k, v) :: rest => if String.eqb k key then Some v else lookup_attr key rest
  end.

Definition get (key : string) (n : node) : option string :=
  match n with
  | Tag _ attrs _ => lookup_attr key attrs
  | NavigableString _ => None
  end.

Definition is_tag (name : string) (n : node) : bool :=
  match n with
  | Tag name' _ _ => String.eqb name' name
  | NavigableString _ => false
  end.

(** [class_=c]: the attribute is a white-space separated list of class
    names, and one of them has to be [c]. *)
Definition has_class (c : string) (n : node) : bool :=
  match get "class" n with
  | Some v => existsb (String.eqb c) (PyStr.split_ws v)
  | None => false
  end.

Definition find_all (test : node -> bool) (n : node) : list node :=
  List.filter test (descendants n).

Definition find (test : node -> bool) (n : node) : option node :=
  List.head (find_all test n).

(** The text pieces of a node, itself included when it is text. *)
Definition strings (n : node) : list string :=
  match n with
  | NavigableString s => [s]
  | Tag _ _ _ =>
      flat_map (fun d => match d with NavigableString s => [s] | Tag _ _ _ => [] end)
               (descendants n)
  end.

(** [tag.get_text(strip=True)]: every piece stripped, the empty ones
    dropped, the rest concatenated. *)
Definition get_text_strip (n : node) : string :=
  PyStr.join "" (List.filter PyStr.truthy (List.map PyStr.strip (strings n))).

(** [tag.string]: the text of a node with a single text child, or of a
    single child element that has one, and [None] otherwise. *)
Fixpoint string_of (n : node) : option string :=
  match n with
  | NavigableString s => Some s
  | Tag _ _ [c] => string_of c
  | Tag _ _ _ => None
  end.

(** [re.compile(r'cached', re.I).search(s)]. *)
Definition matches_cached (s : string) : bool :=
  PyStr.contains "cached" (PyStr.lower s).

Definition is_cached_link (n : node) : bool :=
  is_tag "a" n &&
  match string_of n with Some s => matches_cached s | None => false end.

End Soup.

(** The authority of a URL as [urllib.parse.urlparse(url).netloc] cuts it
    out: an optional scheme (a letter, then letters, digits, [+], [-] and
    [.] up to the first colon), then [//], then everything up to the first
    [/], [?] or [#].  A bracket without its partner makes [urlparse] raise
    [ValueError], which the parser turns into the empty domain.  The
    cleaning of the text that [urlparse] does first (white space in front,
    tabs and line breaks inside) is outside this model. *)
Module Url.

Definition is_alpha (c : ascii) : bool :=
  PyStr.between 65 90 c || PyStr.between 97 122 c.

Definition is_scheme_char (c : ascii) : bool :=
  is_alpha c || PyStr.between 48 57 c
  || Ascii.eqb c "+" || Ascii.eqb c "-" || Ascii.eqb c ".".

(** What follows the first colon, when only scheme characters precede it. *)
Fixpoint after_colon (s : string) : option string :=
  match s with
  | EmptyString => None
  | String c s' =>
      if Ascii.eqb c ":" then Some s'
      else if is_scheme_char c then after_colon s' else None
  end.

Definition strip_scheme (url : string) : string :=
  match url with
  | String c _ =>
      if is_alpha c
      then match after_colon url with Some rest => rest | None => url end
      else url
  | EmptyString => url
  end.

Definition is_delimiter (c : ascii) : bool :=
  Ascii.eqb c "/" || Ascii.eqb c "?" || Ascii.eqb c "#".

Fixpoint take_until (stop : ascii -> bool) (s : string) : string :=
  match s with
  | EmptyString => EmptyString
  | String c s' => if stop c then EmptyString else String c (take_until stop s')
  end.

(** [s[n:]] *)
Fixpoint drop (n : nat) (s : string) : string :=
  match n, s with
  | S n', String _ s' => drop n' s'
  | _, _ => s
  end.

(** [None] stands for the [ValueError]. *)
Definition netloc (url : string) : option string :=
  let rest := strip_scheme url in
  if String.prefix "//" rest then
    let loc := take_until is_delimiter (drop 2 rest) in
    if xorb (PyStr.contains "[" loc) (PyStr.contains "]" loc)
    then None
    else Some loc
  else Some "".

(** [try: domain = urlparse(url).netloc  except: domain = ''] *)
Definition domain_of (url : string) : string :=
  match netloc url with Some d => d | None => "" end.

End Url.

(** ** The page parser *)

(** One turn of the loop of [_parse_results]: [None] is a [continue]. *)
Definition parse_article (position page_number : nat) (article : node)
  : option SearchResult.t :=
  match Soup.find (Soup.is_tag "h3") article with
  | None => None
  | Some title_link =>
      match Soup.find (Soup.is_tag "a") title_link with
      | None => None
      | Some link_element =>
          let title := Soup.get_text_strip link_element in
          let url := default "" (Soup.get "href" link_element) in
          if negb (PyStr.truthy title) || negb (PyStr.truthy url) then None
          else
            let description :=
              match Soup.find (Soup.is_tag "p") article with
              | Some description_element => Soup.get_text_strip description_element
              | None => ""
              end in
            let domain := Url.domain_of url in
            let engines :=
              match Soup.find (fun n => Soup.is_tag "div" n && Soup.has_class "engines" n)
                              article with
              | Some engines_element =>
                  List.map Soup.get_text_strip
                           (Soup.find_all (Soup.is_tag "span") engines_element)
              | None => []
              end in
            let cached_url :=
              match Soup.find Soup.is_cached_link article with
              | Some cached_link => Soup.get "href" cached_link
              | None => None
              end in
            let '(is_file, file_type) := _identify_file_type url title in
            Some (SearchResult.new title url description domain engines cached_url
                                   position page_number is_file file_type)
      end
  end.

(** [for position, article in enumerate(result_articles, 1)]: the counter
    advances with every article, appended or skipped. *)
Fixpoint parse_loop (position page_number : nat) (result_articles : list node)
    (results : list SearchResult.t) : list SearchResult.t :=
  match result_articles with
  | [] => results
  | article :: rest =>
      match parse_article position page_number article with
      | Some result => parse_loop (S position) page_number rest (results ++ [result])
      | None => parse_loop (S position) page_number rest results
      end
  end.

Definition is_result_article (n : node) : bool :=
  Soup.is_tag "article" n && Soup.has_class "result" n.

(** [SearxngScraper._parse_results(html, page_number)], on the parsed page. *)
Definition _parse_results (soup : node) (page_number : nat) : list SearchResult.t :=
  let result_articles := Soup.find_all is_result_article soup in
  parse_loop 1 page_number result_articles [].

(** Sample pages. *)
Definition link (href text : string) : node :=
  Tag "a" [("href", href)] [NavigableString text].

Definition well_formed_article (href text : string) : node :=
  Tag "article" [("class", "result result-default")]
    [ Tag "h3" [] [link href text];
      Tag "p" [("class", "content")] [NavigableString " some text "];
      Tag "div" [("class", "engines")]
        [Tag "span" [] [NavigableString "google"]; Tag "span" [] [NavigableString "bing"]];
      Tag "a" [("href", "https://cache.example/1")] [NavigableString "Cached"] ].

(** A result block whose heading holds no link. *)
Definition malformed_article : node :=
  Tag "article" [("class", "result")]
    [ Tag "h3" [] [NavigableString "no link here"];
      Tag "p" [] [NavigableString "text"] ].

Definition page_of (articles : list node) : node :=
  Tag "[document]" [] [Tag "html" [] [Tag "body" [] [Tag "div" [("id", "results")] articles]]].

(** ** Queries, instances and statistics *)

Module SearchQuery.

Record t := mk {
  query : string;
  language : string;
  safesearch : nat;
  time_range : option string;
  categories : option (list string);
  engines : option (list string);
  format : string;
  pageno : nat
}.

Definition with_pageno (q : t) (page : nat) : t :=
  {| query := query q; language := language q; safesearch := safesearch q;
     time_range := time_range q; categories := categories q; engines := engines q;
     format := format q; pageno := page |}.

(** Truth value of an optional list: [None] and [[]] are false. *)
Definition nonempty (o : option (list string)) : option (list string) :=
  match o with Some (x :: l) => Some (x :: l) | _ => None end.

Definition to_params (q : t) : list (string * string) :=
  [ ("q", query q); ("language", language q);
    ("safesearch", PyStr.of_nat (safesearch q));
    ("pageno", PyStr.of_nat (pageno q));
    ("time_range", if SearchResult.truthy_opt (time_range q)
                   then default "" (time_range q) else "");
    ("category_general", "1");
    ("theme", "simple") ]
  ++ match nonempty (categories q) with
     | Some l => [("categories", PyStr.join "," l)]
     | None => []
     end
  ++ match nonempty (engines q) with
     | Some l => [("engines", PyStr.join "," l)]
     | None => []
     end.

Definition to_form_data (q : t) : list (string * string) :=
  [ ("q", query q); ("category_general", "1");
    ("pageno", PyStr.of_nat (pageno q));
    ("language", language q);
    ("time_range", if SearchResult.truthy_opt (time_range q)
                   then default "" (time_range q) else "");
    ("safesearch", PyStr.of_nat (safesearch q));
    ("theme", "simple") ].

End SearchQuery.

Module SearxngInstanceConfig.

Record t := mk {
  name : string;
  url : string;
  is_active : bool;
  timeout : nat;
  rate_limit_delay : float
}.

End SearxngInstanceConfig.

(** One entry of [stats['instance_stats']]. *)
Record InstanceStats := {
  queries : nat;
  results : nat;
  errors : nat;
  avg_response_time : float
}.

(** [self.stats]; [last_reset] is a time stamp nothing here reads. *)
Record Stats := {
  total_queries : nat;
  successful_queries : nat;
  failed_queries : nat;
  total_results : nat;
  instance_stats : gmap string InstanceStats
}.

Definition new_instance_stats : InstanceStats :=
  {| queries := 0; results := 0; errors := 0; avg_response_time := 0%float |}.

Definition initial_stats : Stats :=
  {| total_queries := 0; successful_queries := 0; failed_queries := 0;
     total_results := 0; instance_stats := ∅ |}.

Definition with_instance_stats (st : Stats) (m : gmap string InstanceStats) : Stats :=
  {| total_queries := total_queries st; successful_queries := successful_queries st;
     failed_queries := failed_queries st; total_results := total_results st;
     instance_stats := m |}.

(** [stats['instance_stats'][key][field] op= ...] *)
Definition update_instance (key : string) (f : InstanceStats -> InstanceStats) (st : Stats)
  : Stats :=
  with_instance_stats st (alter f key (instance_stats st)).

(** [int] to [float], as in [current_avg * (queries_count - 1)]. *)
Definition float_of_nat (n : nat) : float :=
  PrimFloat.of_uint63 (Uint63.of_Z (Z.of_nat n)).

(** [stats[...]['errors'] += 1] *)
Definition count_error (s : InstanceStats) : InstanceStats :=
  {| queries := queries s; results := results s; errors := errors s + 1;
     avg_response_time := avg_response_time s |}.

(** The block under [# Update stats]: the request is counted, then the
    response time is folded into the average. *)
Definition count_query (response_time : float) (s : InstanceStats) : InstanceStats :=
  let current_avg := avg_response_time s in
  let queries_count := queries s + 1 in
  {| queries := queries_count; results := results s; errors := errors s;
     avg_response_time :=
       ((current_avg * float_of_nat (queries_count - 1) + response_time)
        / float_of_nat queries_count)%float |}.

(** [stats[...]['results'] += 1], once for each result handed out. *)
Definition count_results (n : nat) (s : InstanceStats) : InstanceStats :=
  {| queries := queries s; results := results s + n; errors := errors s;
     avg_response_time := avg_response_time s |}.

Definition add_total_results (n : nat) (st : Stats) : Stats :=
  {| total_queries := total_queries st; successful_queries := successful_queries st;
     failed_queries := failed_queries st; total_results := total_results st + n;
     instance_stats := instance_stats st |}.

(** [self.stats['total_queries'] += 1] *)
Definition add_total_query (st : Stats) : Stats :=
  {| total_queries := total_queries st + 1; successful_queries := successful_queries st;
     failed_queries := failed_queries st; total_results := total_results st;
     instance_stats := instance_stats st |}.

(** The entry of an instance, all zero when there is none. *)
Definition stats_of (key : string) (st : Stats) : InstanceStats :=
  default new_instance_stats (instance_stats st !! key).

(** ** The per-instance pager *)

(** The exceptions that matter to the control flow.  [TimeoutError],
    [ClientError] and [TypeError] derive from [Exception];
    [CancelledError] derives from [BaseException] only. *)
Inductive py_exception := TimeoutError | ClientError | TypeError | CancelledError.

Definition is_Exception (e : py_exception) : bool :=
  match e with CancelledError => false | _ => true end.

(** What one request comes back with: a status line, the body (parsed)
    and the time it took, or an exception raised while waiting. *)
Inductive reply :=
| Reply (status : nat) (html : node) (response_time : float)
| Failure (e : py_exception).

(** What the pager does that the outside can see.  [Get] and [Post] go to
    [urljoin(instance.url, '/search')] and carry the query parameters and
    the form fields. *)
Inductive event :=
| Get (instance_url : string) (params : list (string * string))
| Post (instance_url : string) (form_fields : list (string * string))
| Sleep (delay : float)
| Yield (result : SearchResult.t).

Record Outcome := {
  trace : list event;
  stats : Stats;
  raised : option py_exception
}.

Definition emit (evs : list event) (o : Outcome) : Outcome :=
  {| trace := evs ++ trace o; stats := stats o; raised := raised o |}.

Definition yields (tr : list event) : list SearchResult.t :=
  omap (fun ev => match ev with Yield r => Some r | _ => None end) tr.

(** The number of requests in a trace. *)
Definition requests (tr : list event) : nat :=
  length (List.filter (fun ev => match ev with Get _ _ | Post _ _ => true | _ => false end) tr).

(** The value of the [pageno] field of each request, in order. *)
Definition requested_pagenos (tr : list event) : list string :=
  omap (fun ev => match ev with
                  | Get _ fields | Post _ fields => Soup.lookup_attr "pageno" fields
                  | _ => None
                  end) tr.

Definition instance_key (instance : SearxngInstanceConfig.t) : string :=
  SearxngInstanceConfig.name instance +:+ "_" +:+ SearxngInstanceConfig.url instance.

(** [max_pages or self.config.scraper.max_pages]: [None] and [0] are false. *)
Definition effective_max_pages (max_pages : option nat) (config_max_pages : nat) : nat :=
  match max_pages with
  | Some (S n) => S n
  | _ => config_max_pages
  end.

Section Pager.

Variable instance : SearxngInstanceConfig.t.
(** The answer of the instance to the request for each page. *)
Variable fetch : nat -> reply.
Variable query : SearchQuery.t.
Variable max_pages : nat.

Let key := instance_key instance.

Definition request_for (page : nat) : event :=
  let q := SearchQuery.with_pageno query page in
  if Nat.eqb page 1
  then Get (SearxngInstanceConfig.url instance) (SearchQuery.to_params q)
  else Post (SearxngInstanceConfig.url instance) (SearchQuery.to_form_data q).

(** One turn of [while page <= max_pages]: the loop is left ([Break])
    or goes on with the next page ([Continue]). *)
Inductive turn :=
| Break (o : Outcome)
| Continue (evs : list event) (st : Stats).

Definition page_turn (page : nat) (st : Stats) : turn :=
  match fetch page with
  | Failure e =>
      if is_Exception e
      then Break {| trace := [request_for page];
                    stats := update_instance key count_error st;
                    raised := None |}
      else Break {| trace := [request_for page]; stats := st; raised := Some e |}
  | Reply status html response_time =>
      if negb (Nat.eqb status 200)
      then Break {| trace := [request_for page];
                    stats := update_instance key count_error st;
                    raised := None |}
      else
        let st1 := update_instance key (count_query response_time) st in
        match _parse_results html page with
        | [] => Break {| trace := [request_for page]; stats := st1; raised := None |}
        | results =>
            let st2 := update_instance key (count_results (length results))
                         (add_total_results (length results) st1) in
            Continue
              ([request_for page] ++ List.map Yield results
               ++ (if Nat.leb (page + 1) max_pages
                   then [Sleep (SearxngInstanceConfig.rate_limit_delay instance)]
                   else []))
              st2
        end
  end.

(** [page = 1; while page <= max_pages: ...] *)
Equations? search_loop (page : nat) (st : Stats) : Outcome
  by wf (S max_pages - page) lt :=
search_loop page st with le_dec page max_pages => {
  | right _ => {| trace := []; stats := st; raised := None |}
  | left _ with page_turn page st => {
      | Break o => o
      | Continue evs st' => emit evs (search_loop (page + 1) st') } }.
Proof. lia. Qed.

End Pager.

(** [SearxngScraper.search_instance(instance, query, max_pages)], with the
    configured page limit and the statistics it starts from.  The
    transport session is taken as started. *)
Definition search_instance (config_max_pages : nat) (instance : SearxngInstanceConfig.t)
    (fetch : nat -> reply) (query : SearchQuery.t) (max_pages : option nat) (st : Stats)
  : Outcome :=
  if negb (SearxngInstanceConfig.is_active instance)
  then {| trace := []; stats := st; raised := None |}
  else
    let max_pages := effective_max_pages max_pages config_max_pages in
    let key := instance_key instance in
    let st0 :=
      match instance_stats st !! key with
      | Some _ => st
      | None => with_instance_stats st (<[key := new_instance_stats]> (instance_stats st))
      end in
    search_loop instance fetch query max_pages 1 st0.

(** ** The multi-instance orchestrator *)

(** [asyncio.as_completed] changed shape with Python 3.13. *)
Inductive python := Python_3_12_or_older | Python_3_13_or_newer.

(** An asynchronous generator object: the body it will run once somebody
    iterates it, and nothing run yet. *)
Record async_generator := { body : Stats -> Outcome }.

Section Orchestrator.

Variable py : python.
Variable config_max_pages : nat.
(** The answer of each instance to the request for each page. *)
Variable network : SearxngInstanceConfig.t -> nat -> reply.

(** [search_with_semaphore(instance)].  The function is declared
    [async def] and holds a [yield]: calling it builds an asynchronous
    generator object and runs none of its body. *)
Definition search_with_semaphore (query : SearchQuery.t) (max_pages : option nat)
    (instance : SearxngInstanceConfig.t) : async_generator :=
  {| body := search_instance config_max_pages instance (network instance) query max_pages |}.

(** [async for task in asyncio.as_completed(tasks)], up to the point
    where the first turn of the loop would start: the exception raised
    there, or [None] when the iteration can begin.
    - Up to Python 3.12 [as_completed] is a generator function; the call
      runs none of it and returns a plain generator, which has no
      [__aiter__], so [async for] raises [TypeError].
    - From Python 3.13 [as_completed] returns an object that [async for]
      accepts, after passing every element to [ensure_future], which
      raises [TypeError] for anything that is not a coroutine, a future
      or an awaitable; an asynchronous generator object is none of
      these. *)
Definition async_for_as_completed (tasks : list async_generator) : option py_exception :=
  match py, tasks with
  | Python_3_13_or_newer, [] => None
  | _, _ => Some TypeError
  end.

(** [SearxngScraper.search_multiple_instances(instances, query, max_pages)]. *)
Definition search_multiple_instances (instances : list SearxngInstanceConfig.t)
    (query : SearchQuery.t) (max_pages : option nat) (st : Stats) : Outcome :=
  let active_instances := List.filter SearxngInstanceConfig.is_active instances in
  match active_instances with
  | [] => {| trace := []; stats := st; raised := None |}
  | _ :: _ =>
      let tasks := List.map (search_with_semaphore query max_pages) active_instances in
      match async_for_as_completed tasks with
      | Some e => {| trace := []; stats := st; raised := Some e |}
      | None =>
          (* no task: the loop body never runs *)
          {| trace := []; stats := add_total_query st; raised := None |}
      end
  end.

End Orchestrator.

(** ** Sample runs *)

Definition sample_query : SearchQuery.t :=
  SearchQuery.mk "open directory listing" "en" 1 None None None "html" 1.

Definition instance_A : SearxngInstanceConfig.t :=
  SearxngInstanceConfig.mk "A" "https://a.example" true 30 1%float.

Definition instance_B : SearxngInstanceConfig.t :=
  SearxngInstanceConfig.mk "B" "https://b.example" true 30 1%float.

Definition inactive_instance : SearxngInstanceConfig.t :=
  SearxngInstanceConfig.mk "C" "https://c.example" false 30 1%float.

(** A page of [n] well-formed results. *)
Definition results_page (n : nat) : node :=
  page_of (List.map (fun i => well_formed_article
                                ("https://example.org/item/" +:+ PyStr.of_nat i)
                                ("Item " +:+ PyStr.of_nat i))
                    (seq 0 n)).

(** Instance A: two pages of ten results, then an empty page. *)
Definition fetch_A (page : nat) : reply :=
  match page with
  | 1 | 2 => Reply 200 (results_page 10) 1%float
  | _ => Reply 200 (results_page 0) 1%float
  end.

(** Instance B: one page of three results, then an empty page. *)
Definition fetch_B (page : nat) : reply :=
  match page with
  | 1 => Reply 200 (results_page 3) 1%float
  | _ => Reply 200 (results_page 0) 1%float
  end.

Definition sample_network (instance : SearxngInstanceConfig.t) : nat -> reply :=
  if String.eqb (SearxngInstanceConfig.name instance) "A" then fetch_A else fetch_B.


(** Page 1 with four results, page 2 answered with HTTP 500. *)
Definition fetch_500_on_page_2 (page : nat) : reply :=
  match page with
  | 1 => Reply 200 (results_page 4) 1%float
  | _ => Reply 500 (results_page 4) 1%float
  end.


(** ** Vocabulary of the properties *)

(** The tests that [_identify_file_type] and the constructor make, named. *)
Definition url_extension (url : string) : option string :=
  SearchResult.first_extension file_extensions
    (fun tok => PyStr.contains tok (PyStr.lower url)).

Definition cloud_kind (url : string) : option string :=
  google_kind (PyStr.lower url).

Definition has_title_indicator (title : string) : bool :=
  existsb (fun word => PyStr.contains word (PyStr.lower title)) title_indicators.

Definition constructor_extension (url title : string) : option string :=
  SearchResult.first_extension SearchResult.file_extensions
    (fun tok => PyStr.contains tok (PyStr.lower url)
                || PyStr.contains tok (PyStr.lower title)).

(** The title and the URL a result block yields: the stripped text and the
    [href] of the first link inside its first heading, both non-empty. *)
Definition title_and_url (article : node) : option (string * string) :=
  match Soup.find (Soup.is_tag "h3") article with
  | None => None
  | Some title_link =>
      match Soup.find (Soup.is_tag "a") title_link with
      | None => None
      | Some link_element =>
          let title := Soup.get_text_strip link_element in
          let url := default "" (Soup.get "href" link_element) in
          if negb (PyStr.truthy title) || negb (PyStr.truthy url) then None
          else Some (title, url)
      end
  end.

Definition has_title_and_url (article : node) : bool :=
  match title_and_url article with Some _ => true | None => false end.

Section PagerVocabulary.

Variable instance : SearxngInstanceConfig.t.
Variable fetch : nat -> reply.
Variable query : SearchQuery.t.
Variable max_pages : nat.

Let key := instance_key instance.
Let request := request_for instance query.

(** What the parser makes of the answer to a page. *)
Definition parsed (page : nat) : list SearchResult.t :=
  match fetch page with
  | Reply _ html _ => _parse_results html page
  | Failure _ => []
  end.

(** A page that came back with status 200 and at least one result. *)
Definition page_ok (page : nat) : bool :=
  match fetch page with
  | Reply status html _ =>
      Nat.eqb status 200
      && match _parse_results html page with [] => false | _ :: _ => true end
  | Failure _ => false
  end.

(** A page that came back with another status, or timed out. *)
Definition page_fails (page : nat) : bool :=
  match fetch page with
  | Reply status _ _ => negb (Nat.eqb status 200)
  | Failure TimeoutError => true
  | Failure _ => false
  end.

(** The statistics once a good page has been handed out. *)
Definition after_page (page : nat) (st : Stats) : Stats :=
  match fetch page with
  | Reply _ html response_time =>
      let n := length (_parse_results html page) in
      update_instance key (count_results n)
        (add_total_results n (update_instance key (count_query response_time) st))
  | Failure _ => st
  end.

Fixpoint after_pages (first n : nat) (st : Stats) : Stats :=
  match n with
  | 0 => st
  | S n' => after_pages (S first) n' (after_page first st)
  end.

(** What a good page adds to the trace. *)
Definition page_events (page : nat) : list event :=
  [request page] ++ List.map Yield (parsed page)
  ++ (if Nat.leb (page + 1) max_pages
      then [Sleep (SearxngInstanceConfig.rate_limit_delay instance)]
      else []).

Definition pages_events (first n : nat) : list event :=
  flat_map page_events (seq first n).



End PagerVocabulary.

(** The statistics the loop starts from: the entry of the instance is
    created when it is not there yet. *)
Definition start_stats (key : string) (st : Stats) : Stats :=
  match instance_stats st !! key with
  | Some _ => st
  | None => with_instance_stats st (<[key := new_instance_stats]> (instance_stats st))
  end.

(** The generators of a list of tasks, iterated to the end one after the
    other: what the loop over the tasks is written to collect. *)
Fixpoint drain (tasks : list async_generator) (st : Stats) : Outcome :=
  match tasks with
  | [] => {| trace := []; stats := st; raised := None |}
  | task :: rest =>
      let o := body task st in
      match raised o with
      | Some e => o
      | None => emit (trace o) (drain rest (stats o))
      end
  end.

(** ** Further vocabulary: the pager in closed form *)


(** The requests of a trace, in order. *)
Definition request_events (tr : list event) : list event :=
  List.filter (fun ev => match ev with Get _ _ | Post _ _ => true | _ => false end) tr.

Section PagerClosedForm.

Variable instance : SearxngInstanceConfig.t.
Variable fetch : nat -> reply.
Variable query : SearchQuery.t.
Variable max_pages : nat.

(** The number of good pages in a row from [page] on, [fuel] at most. *)
Fixpoint good_run (fuel page : nat) : nat :=
  match fuel with
  | 0 => 0
  | S fuel' => if page_ok fetch page then S (good_run fuel' (S page)) else 0
  end.

(** How the loop is left on a page that is not good. *)
Definition stop_outcome (page : nat) (st : Stats) : Outcome :=
  match fetch page with
  | Failure e =>
      if is_Exception e
      then {| trace := [request_for instance query page];
              stats := update_instance (instance_key instance) count_error st;
              raised := None |}
      else {| trace := [request_for instance query page]; stats := st; raised := Some e |}
  | Reply status _ response_time =>
      if negb (Nat.eqb status 200)
      then {| trace := [request_for instance query page];
              stats := update_instance (instance_key instance) count_error st;
              raised := None |}
      else {| trace := [request_for instance query page];
              stats := update_instance (instance_key instance)
                         (count_query response_time) st;
              raised := None |}
  end.

(** The whole loop from [page] on: the good pages in a row, then the page
    that stops it, if the limit leaves room for one. *)
Definition loop_closed_form (page : nat) (st : Stats) : Outcome :=
  let n := good_run (max_pages + 1 - page) page in
  let st' := after_pages instance fetch page n st in
  emit (pages_events instance fetch query max_pages page n)
       (if Nat.leb (page + n) max_pages
        then stop_outcome (page + n) st'
        else {| trace := []; stats := st'; raised := None |}).

(** A page answered with status 200, with or without results. *)
Definition answered_200 (page : nat) : bool :=
  match fetch page with
  | Reply status _ _ => Nat.eqb status 200
  | Failure _ => false
  end.

(** A page that counts as an error: another status, or an exception that
    derives from [Exception]. *)
Definition page_errors (page : nat) : bool :=
  match fetch page with
  | Reply status _ _ => negb (Nat.eqb status 200)
  | Failure e => is_Exception e
  end.

End PagerClosedForm.

(** Page 1 with two results, page 2 cancelled while waiting. *)
Definition fetch_cancelled_on_page_2 (page : nat) : reply :=
  match page with
  | 1 => Reply 200 (results_page 2) 1%float
  | _ => Failure CancelledError
  end.

(** Page 1 with two results, then the connection fails. *)
Definition fetch_connection_lost_on_page_2 (page : nat) : reply :=
  match page with
  | 1 => Reply 200 (results_page 2) 1%float
  | _ => Failure ClientError
  end.

(** Two states of the statistics that differ at most in the entry of one
    instance and in the total of results. *)
Definition same_elsewhere (key : string) (st st' : Stats) : Prop :=
  delete key (instance_stats st') = delete key (instance_stats st)
  /\ total_queries st' = total_queries st
  /\ successful_queries st' = successful_queries st
  /\ failed_queries st' = failed_queries st.

(** Either a file with a kind that is not the empty string, or no file
    and no kind. *)
Definition kind_matches_flag (is_file : bool) (file_type : option string) : Prop :=
  (is_file = true /\ exists kind, file_type = Some kind /\ kind <> "")
  \/ (is_file = false /\ file_type = None).

(** ** The search endpoint of the API ([api/main.py]) *)

(** An instance as the endpoint holds it: a dictionary with these keys. *)
Module InstanceData.

Record t := mk {
  id : string;
  name : string;
  url : string;
  is_active : bool
}.

End InstanceData.

(** The dictionary the endpoint makes of each result. *)
Module ProcessedResult.

Record t := mk {
  id : string;
  title : string;
  url : string;
  description : string;
  domain : string;
  engines : list string;
  position : nat;
  page_number : nat;
  instance : string;
  file_type : option string;
  is_google_doc : bool;
  is_google_drive : bool;
  cached_url : option string;
  created_at : string
}.

End ProcessedResult.

Record SearchRequest := {
  rq_query : string;
  rq_instance_ids : option (list string);
  rq_max_pages : nat;
  rq_language : string;
  rq_time_range : string;
  rq_safesearch : nat
}.

Record SearchResponse := {
  query_id : string;
  status : string;
  message : string;
  response_results : list ProcessedResult.t
}.

(** What a call of the endpoint comes to: the response, or the exception
    that escapes it, and the statistics of the scraper afterwards. *)
Record ApiOutcome := {
  response : option SearchResponse;
  api_stats : Stats;
  api_raised : option py_exception
}.

Section Api.

(** [str(uuid.uuid4())] and [datetime.now().isoformat()], by the number of
    the call. *)
Variable uuid4 : nat -> string.
Variable now : nat -> string.
Variable config_max_pages : nat.
Variable network : SearxngInstanceConfig.t -> nat -> reply.

(** [SearxngInstanceConfig(name=..., url=..., is_active=..., timeout=30,
    rate_limit_delay=1.0)] *)
Definition instance_config (instance_data : InstanceData.t) : SearxngInstanceConfig.t :=
  SearxngInstanceConfig.mk (InstanceData.name instance_data)
                           (InstanceData.url instance_data)
                           (InstanceData.is_active instance_data) 30 1%float.

(** The dictionary [processed_result]; [result.description or ""] is the
    description itself. *)
Definition process (call : nat) (instance_name : string) (result : SearchResult.t)
  : ProcessedResult.t :=
  {| ProcessedResult.id := uuid4 call;
     ProcessedResult.title := SearchResult.title result;
     ProcessedResult.url := SearchResult.url result;
     ProcessedResult.description :=
       if PyStr.truthy (SearchResult.description result)
       then SearchResult.description result else "";
     ProcessedResult.domain := SearchResult.domain result;
     ProcessedResult.engines := SearchResult.engines result;
     ProcessedResult.position := SearchResult.position result;
     ProcessedResult.page_number := SearchResult.page_number result;
     ProcessedResult.instance := instance_name;
     ProcessedResult.file_type := SearchResult.file_type result;
     ProcessedResult.is_google_doc := SearchResult.is_google_doc result;
     ProcessedResult.is_google_drive := SearchResult.is_google_drive result;
     ProcessedResult.cached_url := SearchResult.cached_url result;
     ProcessedResult.created_at := now call |}.

(** The [SearchResult] the endpoint builds again from a dictionary before
    it stores it: [is_file=result.get('file_type') is not None]. *)
Definition rebuild (p : ProcessedResult.t) : SearchResult.t :=
  SearchResult.new (ProcessedResult.title p) (ProcessedResult.url p)
                   (ProcessedResult.description p) (ProcessedResult.domain p)
                   (ProcessedResult.engines p) (ProcessedResult.cached_url p)
                   (ProcessedResult.position p) (ProcessedResult.page_number p)
                   (match ProcessedResult.file_type p with Some _ => true | None => false end)
                   (ProcessedResult.file_type p).

(** The choice of the instances to search.  [db_instances] is what
    [db.get_active_instances()] returns when a database is connected. *)
Definition select_instances (db_instances : option (list InstanceData.t))
    (searxng_instances : list InstanceData.t) (instance_ids : option (list string))
  : list InstanceData.t :=
  match db_instances with
  | Some (d :: ds) => d :: ds
  | Some [] => List.filter InstanceData.is_active searxng_instances
  | None =>
      match instance_ids with
      | Some (i :: ids) =>
          List.filter (fun inst =>
                         existsb (String.eqb (InstanceData.id inst)) (i :: ids)
                         && InstanceData.is_active inst)
                      searxng_instances
      | _ => List.filter InstanceData.is_active searxng_instances
      end
  end.

(** The results of one run, appended to [all_results] as they come. *)
Fixpoint append_processed (instance_name : string) (rs : list SearchResult.t)
    (all_results : list ProcessedResult.t) : list ProcessedResult.t :=
  match rs with
  | [] => all_results
  | r :: rest =>
      append_processed instance_name rest
        (all_results ++ [process (1 + length all_results) instance_name r])
  end.

(** [for instance_data in active_instances: try: ... except Exception:
    continue].  An exception that does not derive from [Exception]
    leaves the loop and the endpoint. *)
Fixpoint search_each (active_instances : list InstanceData.t) (search_query : SearchQuery.t)
    (max_pages : nat) (all_results : list ProcessedResult.t) (st : Stats)
  : list ProcessedResult.t * Stats * option py_exception :=
  match active_instances with
  | [] => (all_results, st, None)
  | instance_data :: rest =>
      let instance := instance_config instance_data in
      let o := search_instance config_max_pages instance (network instance) search_query
                               (Some max_pages) st in
      let all_results' :=
        append_processed (SearxngInstanceConfig.name instance) (yields (trace o))
                         all_results in
      match raised o with
      | Some e =>
          if is_Exception e
          then search_each rest search_query max_pages all_results' (stats o)
          else (all_results', stats o, Some e)
      | None => search_each rest search_query max_pages all_results' (stats o)
      end
  end.

(** [SearchQuery(query=..., language=..., safesearch=..., time_range=...)];
    the other fields take their defaults. *)
Definition search_query_of (search_request : SearchRequest) : SearchQuery.t :=
  SearchQuery.mk (rq_query search_request) (rq_language search_request)
                 (rq_safesearch search_request)
                 (Some (rq_time_range search_request)) None None "html" 1.

(** [search(search_request)], without the storing of the results. *)
Definition api_search (db_instances : option (list InstanceData.t))
    (searxng_instances : list InstanceData.t) (search_request : SearchRequest) (st : Stats)
  : ApiOutcome :=
  let query_id := uuid4 0 in
  let active_instances :=
    select_instances db_instances searxng_instances (rq_instance_ids search_request) in
  match active_instances with
  | [] =>
      {| response := Some {| query_id := query_id; status := "error";
                             message := "No active SearXNG instances available";
                             response_results := [] |};
         api_stats := st; api_raised := None |}
  | _ :: _ =>
      let search_query := search_query_of search_request in
      match search_each active_instances search_query (rq_max_pages search_request) [] st with
      | (all_results, st', Some e) =>
          {| response := None; api_stats := st'; api_raised := Some e |}
      | (all_results, st', None) =>
          {| response :=
               Some {| query_id := query_id; status := "completed";
                       message := "Found " +:+ PyStr.of_nat (length all_results)
                                  +:+ " results from "
                                  +:+ PyStr.of_nat (length active_instances)
                                  +:+ " instances";
                       response_results := all_results |};
             api_stats := st'; api_raised := None |}
      end
  end.

(** The run of one instance for a request, on its own: from fresh
    statistics. *)
Definition own_run (search_request : SearchRequest) (instance_data : InstanceData.t)
  : Outcome :=
  search_instance config_max_pages (instance_config instance_data)
                  (network (instance_config instance_data))
                  (search_query_of search_request)
                  (Some (rq_max_pages search_request)) initial_stats.

End Api.

(** The instances the endpoint starts with. *)
Definition searxng_instances : list InstanceData.t :=
  [ InstanceData.mk "1" "search_inetol" "https://search.inetol.net" true;
    InstanceData.mk "2" "search_rhscz" "https://search.rhscz.eu" true ].

(** Two instances as the endpoint holds them, answering like A and B. *)
Definition instance_data_A : InstanceData.t :=
  InstanceData.mk "1" "A" "https://a.example" true.

Definition instance_data_B : InstanceData.t :=
  InstanceData.mk "2" "B" "https://b.example" true.

Definition sample_request : SearchRequest :=
  {| rq_query := "open directory listing"; rq_instance_ids := None; rq_max_pages := 5;
     rq_language := "en"; rq_time_range := ""; rq_safesearch := 1 |}.

(** What a stored dictionary says: the instance it came from and the
    result it stands for. *)
Definition stored_view (p : ProcessedResult.t) : string * SearchResult.t :=
  (ProcessedResult.instance p, rebuild p).

(** Identifiers and time stamps for the sample runs. *)
Definition sample_uuid4 (call : nat) : string := "id-" +:+ PyStr.of_nat call.

Definition sample_now (call : nat) : string := "2025-01-01T00:00:00".

(** Instance A answers as before; every other instance is cancelled on
    page 2. *)
Definition cancelling_network (instance : SearxngInstanceConfig.t) : nat -> reply :=
  if String.eqb (SearxngInstanceConfig.name instance) "A"
  then fetch_A else fetch_cancelled_on_page_2.

(** ** Storing the results ([database/db_operations.py]) *)

(** A row of the table [search_results], as [store_search_results] builds
    it. *)
Module ResultRow.

Record t := mk {
  query_id : string;
  title : string;
  url : string;
  description : string;
  domain : string;
  engines : list string;
  cached_url : option string;
  position : nat;
  page_number : nat;
  is_file : bool;
  file_type : option string
}.

End ResultRow.

Definition result_dict (query_id : string) (result : SearchResult.t) : ResultRow.t :=
  {| ResultRow.query_id := query_id;
     ResultRow.title := SearchResult.title result;
     ResultRow.url := SearchResult.url result;
     ResultRow.description := SearchResult.description result;
     ResultRow.domain := SearchResult.domain result;
     ResultRow.engines := SearchResult.engines result;
     ResultRow.cached_url := SearchResult.cached_url result;
     ResultRow.position := SearchResult.position result;
     ResultRow.page_number := SearchResult.page_number result;
     ResultRow.is_file := SearchResult.is_file result;
     ResultRow.file_type := SearchResult.file_type result |}.

(** [range(start, stop, step)] for a step of at least 1: the numbers
    [start], [start + step], ... below [stop]. *)
Fixpoint range_from (fuel start stop step : nat) : list nat :=
  match fuel with
  | 0 => []
  | S fuel' =>
      if Nat.ltb start stop
      then start :: range_from fuel' (start + step) stop step
      else []
  end.

(** From 0 on there are at most [stop] such numbers. *)
Definition range (stop step : nat) : list nat := range_from stop 0 stop step.

(** [l[i:j]] for [0 <= i]. *)
Definition slice {A : Type} (l : list A) (i j : nat) : list A :=
  firstn (j - i) (skipn i l).

Definition batch_size : nat := 100.

(** The batches [data_to_insert[i:i + batch_size]], in the order of the
    loop. *)
Definition batches {A : Type} (data_to_insert : list A) : list (list A) :=
  List.map (fun i => slice data_to_insert i (i + batch_size))
           (range (length data_to_insert) batch_size).

(** What [store_search_results] comes to: the table afterwards, the
    number of [insert] calls made, and the value returned or the
    exception that escapes. *)
Record StoreOutcome := {
  db_table : list ResultRow.t;
  db_calls : nat;
  db_returned : option bool;
  db_raised : option py_exception
}.

Section Store.

(** [self.supabase.table('search_results').insert(batch).execute()], by
    the number of the call: [None] when the rows are stored, or the
    exception it raises, the table unchanged. *)
Variable insert : nat -> list ResultRow.t -> option py_exception.

Fixpoint insert_each (bs : list (list ResultRow.t)) (call : nat) (table : list ResultRow.t)
  : list ResultRow.t * nat * option py_exception :=
  match bs with
  | [] => (table, call, None)
  | batch :: rest =>
      match insert call batch with
      | None => insert_each rest (S call) (table ++ batch)
      | Some e => (table, S call, Some e)
      end
  end.

Definition store_search_results (query_id : string) (results : list SearchResult.t)
    (table : list ResultRow.t) : StoreOutcome :=
  let data_to_insert := List.map (result_dict query_id) results in
  match insert_each (batches data_to_insert) 0 table with
  | (table', calls, None) =>
      {| db_table := table'; db_calls := calls; db_returned := Some true;
         db_raised := None |}
  | (table', calls, Some e) =>
      if is_Exception e
      then {| db_table := table'; db_calls := calls; db_returned := Some false;
              db_raised := None |}
      else {| db_table := table'; db_calls := calls; db_returned := None;
              db_raised := Some e |}
  end.

End Store.

(** The batches taken off the front of a list, one for each unit of
    [fuel]. *)
Fixpoint chunks {A : Type} (fuel : nat) (l : list A) : list (list A) :=
  match fuel with
  | 0 => []
  | S fuel' =>
      match l with
      | [] => []
      | _ :: _ => firstn batch_size l :: chunks fuel' (skipn batch_size l)
      end
  end.

(** Every insert succeeds. *)
Definition insert_ok (call : nat) (batch : list ResultRow.t) : option py_exception := None.

(** The third insert is refused by the server. *)
Definition insert_fails_on_third (call : nat) (batch : list ResultRow.t)
  : option py_exception :=
  if Nat.eqb call 2 then Some ClientError else None.

(** [n] results of one page. *)
Definition many_results (n : nat) : list SearchResult.t :=
  List.map (fun i => SearchResult.new ("Item " +:+ PyStr.of_nat i)
                       ("https://example.org/item/" +:+ PyStr.of_nat i)
                       "" "example.org" [] None (S i) 1 false None)
           (seq 0 n).

(** ** The configuration ([config/settings.py]) *)

Module Settings.

(** An instance as the configuration holds it, after [__post_init__] has
    put an empty dictionary and an empty list for missing
    [custom_headers] and [tags]. *)
Module SearxngInstanceConfig.

Record t := mk {
  name : string;
  url : string;
  is_active : bool;
  description : option string;
  timeout : Z;
  max_retries : Z;
  rate_limit_delay : float;
  custom_headers : list (string * string);
  priority : Z;
  tags : list string
}.

Definition new (name url : string) (is_active : bool) (description : option string)
    (timeout max_retries : Z) (rate_limit_delay : float)
    (custom_headers : option (list (string * string))) (priority : Z)
    (tags : option (list string)) : t :=
  mk name url is_active description timeout max_retries rate_limit_delay
     (default [] custom_headers) priority (default [] tags).

End SearxngInstanceConfig.

Record ScraperConfig := {
  default_delay : float;
  max_pages : Z;
  default_language : string;
  default_safesearch : Z;
  scraper_timeout : Z;
  scraper_max_retries : Z;
  user_agent : string;
  concurrent_requests : Z;
  respect_robots_txt : bool
}.

Record DatabaseConfig := {
  cleanup_days : Z;
  max_results_per_page : Z;
  db_batch_size : Z;
  connection_pool_size : Z;
  query_timeout : Z;
  enable_fulltext_search : bool
}.

Record APIConfig := {
  host : string;
  port : Z;
  reload : bool;
  workers : Z;
  cors_origins : list string;
  rate_limit_requests : Z;
  rate_limit_window : Z;
  enable_docs : bool
}.

(** What [ConfigManager] holds and [validate_config] reads; the logging
    configuration and the path of the file are left out. *)
Record ConfigManager := {
  scraper : ScraperConfig;
  database : DatabaseConfig;
  api : APIConfig;
  instances : list SearxngInstanceConfig.t
}.

(** [ScraperConfig()], [DatabaseConfig()] and [APIConfig()]. *)
Definition default_scraper : ScraperConfig :=
  {| default_delay := 1%float; max_pages := 5; default_language := "en";
     default_safesearch := 1; scraper_timeout := 30; scraper_max_retries := 3;
     user_agent := "Mozilla/5.0 (Windows NT 10.0; Win64; x64) AppleWebKit/537.36";
     concurrent_requests := 3; respect_robots_txt := true |}.

Definition default_database : DatabaseConfig :=
  {| cleanup_days := 30; max_results_per_page := 50; db_batch_size := 100;
     connection_pool_size := 10; query_timeout := 30; enable_fulltext_search := true |}.

Definition default_api : APIConfig :=
  {| host := "localhost"; port := 8000; reload := false; workers := 1;
     cors_origins := ["http://localhost:3000"]; rate_limit_requests := 100;
     rate_limit_window := 60; enable_docs := true |}.

(** [reset_to_defaults]; the file it then writes is not modelled. *)
Definition reset_to_defaults (cm : ConfigManager) : ConfigManager :=
  {| scraper := default_scraper; database := default_database; api := default_api;
     instances := [] |}.

(** The methods below act on [self.instances]; [save_config], which they
    call after a change, writes the file, keeps any exception to itself
    and leaves the object as it is. *)

(** [add_instance]: the message of the [ValueError], or the list with the
    instance appended. *)
Fixpoint url_taken (existing : list SearxngInstanceConfig.t) (url : string) : bool :=
  match existing with
  | [] => false
  | e :: rest =>
      if String.eqb (SearxngInstanceConfig.url e) url then true else url_taken rest url
  end.

Definition add_instance (instances : list SearxngInstanceConfig.t)
    (instance : SearxngInstanceConfig.t) : string + list SearxngInstanceConfig.t :=
  if url_taken instances (SearxngInstanceConfig.url instance)
  then inl ("Instance with URL " +:+ SearxngInstanceConfig.url instance
            +:+ " already exists")
  else inr (instances ++ [instance]).

(** [remove_instance]: the first instance with the URL is popped. *)
Fixpoint remove_instance (instances : list SearxngInstanceConfig.t) (url : string)
  : list SearxngInstanceConfig.t * bool :=
  match instances with
  | [] => ([], false)
  | instance :: rest =>
      if String.eqb (SearxngInstanceConfig.url instance) url
      then (rest, true)
      else let '(rest', found) := remove_instance rest url in (instance :: rest', found)
  end.

Definition get_active_instances (instances : list SearxngInstanceConfig.t)
  : list SearxngInstanceConfig.t :=
  List.filter SearxngInstanceConfig.is_active instances.

Fixpoint get_instance_by_url (instances : list SearxngInstanceConfig.t) (url : string)
  : option SearxngInstanceConfig.t :=
  match instances with
  | [] => None
  | instance :: rest =>
      if String.eqb (SearxngInstanceConfig.url instance) url
      then Some instance
      else get_instance_by_url rest url
  end.

(** One turn of the loop over the instances in [validate_config]: the set
    [urls] and the list [issues] before and after. *)
Definition validate_instance (state : gset string * list string)
    (instance : SearxngInstanceConfig.t) : gset string * list string :=
  let '(urls, issues) := state in
  let '(urls, issues) :=
    if negb (PyStr.truthy (SearxngInstanceConfig.url instance))
    then (urls, issues ++ ["Instance '" +:+ SearxngInstanceConfig.name instance
                           +:+ "' has no URL"])
    else if bool_decide (SearxngInstanceConfig.url instance ∈ urls)
         then (urls, issues ++ ["Duplicate instance URL: "
                                +:+ SearxngInstanceConfig.url instance])
         else ({[SearxngInstanceConfig.url instance]} ∪ urls, issues) in
  if negb (PyStr.truthy (SearxngInstanceConfig.name instance))
  then (urls, issues ++ ["Instance with URL '" +:+ SearxngInstanceConfig.url instance
                         +:+ "' has no name"])
  else (urls, issues).

(** [issues.append(message)] when the test holds. *)
Definition issue_if (test : bool) (message : string) (issues : list string) : list string :=
  if test then issues ++ [message] else issues.

Definition validate_config (cm : ConfigManager) : list string :=
  let issues := [] in
  let issues := issue_if (PrimFloat.ltb (default_delay (scraper cm)) 0%float)
                         "Scraper delay cannot be negative" issues in
  let issues := issue_if (max_pages (scraper cm) <? 1)%Z
                         "Max pages must be at least 1" issues in
  let issues := issue_if (scraper_timeout (scraper cm) <? 1)%Z
                         "Timeout must be at least 1 second" issues in
  let issues := issue_if (cleanup_days (database cm) <? 1)%Z
                         "Cleanup days must be at least 1" issues in
  let issues := issue_if (max_results_per_page (database cm) <? 1)%Z
                         "Max results per page must be at least 1" issues in
  let issues := issue_if (negb ((1 <=? port (api cm)) && (port (api cm) <=? 65535)))%Z
                         "API port must be between 1 and 65535" issues in
  let issues := issue_if (workers (api cm) <? 1)%Z
                         "API workers must be at least 1" issues in
  snd (fold_left validate_instance (instances cm) (∅, issues)).

(** The URLs of the instances, in their order. *)
Definition urls_of (instances : list SearxngInstanceConfig.t) : list string :=
  List.map SearxngInstanceConfig.url instances.

(** What [validate_config] asks of a configuration. *)
Definition sound (cm : ConfigManager) : Prop :=
  PrimFloat.ltb (default_delay (scraper cm)) 0%float = false
  /\ (1 <= max_pages (scraper cm))%Z
  /\ (1 <= scraper_timeout (scraper cm))%Z
  /\ (1 <= cleanup_days (database cm))%Z
  /\ (1 <= max_results_per_page (database cm))%Z
  /\ (1 <= port (api cm) <= 65535)%Z
  /\ (1 <= workers (api cm))%Z
  /\ Forall (fun instance => SearxngInstanceConfig.url instance <> ""
                             /\ SearxngInstanceConfig.name instance <> "")
            (instances cm)
  /\ NoDup (urls_of (instances cm)).

Definition sample_instance (name url : string) : SearxngInstanceConfig.t :=
  SearxngInstanceConfig.new name url true None 30 3 1%float None 1 None.

End Settings.

(** * Properties *)

(** ** The operations on sample inputs *)

Example lower_ex : PyStr.lower "HTTPS://Docs.Google.COM/a.PDF" = "https://docs.google.com/a.pdf".
Proof. reflexivity. Qed.

Example contains_ex :
  PyStr.contains ".pdf" "http://x/a.pdf?y" = true /\ PyStr.contains ".pdf" "http://x/a.pd" = false.
Proof. split; reflexivity. Qed.

Example strip_ex : PyStr.strip "  a b  " = "a b" /\ PyStr.strip "   " = "".
Proof. split; reflexivity. Qed.

Example split_ws_ex : PyStr.split_ws " result  result-default " = ["result"; "result-default"].
Proof. reflexivity. Qed.

Example of_nat_ex : PyStr.of_nat 0 = "0" /\ PyStr.of_nat 12 = "12".
Proof. split; reflexivity. Qed.

Example classify_pdf :
  classify "https://example.org/paper.PDF" "A paper"
  = {| c_is_file := true; c_file_kind := Some "pdf";
       c_is_cloud_doc := false; c_is_cloud_drive := false |}.
Proof. reflexivity. Qed.

Example classify_docs :
  classify "https://docs.google.com/document/d/1" "report.pdf"
  = {| c_is_file := true; c_file_kind := Some "google_doc";
       c_is_cloud_doc := true; c_is_cloud_drive := true |}.
Proof. reflexivity. Qed.

Example classify_title_ext :
  classify "https://example.org/get?id=7" "budget.xlsx"
  = {| c_is_file := true; c_file_kind := Some "XLS";
       c_is_cloud_doc := false; c_is_cloud_drive := false |}.
Proof. reflexivity. Qed.

Example classify_plain :
  classify "https://example.org/about" "About us"
  = {| c_is_file := false; c_file_kind := None;
       c_is_cloud_doc := false; c_is_cloud_drive := false |}.
Proof. reflexivity. Qed.

Example netloc_ex :
  Url.netloc "https://docs.google.com/document/d/1" = Some "docs.google.com"
  /\ Url.netloc "/relative/path" = Some ""
  /\ Url.netloc "http://[::1/x" = None
  /\ Url.netloc "//host:8080?q" = Some "host:8080".
Proof. repeat split; reflexivity. Qed.

Example parse_one_ex :
  _parse_results (page_of [well_formed_article "https://example.org/a.pdf" " A "]) 2
  = [ SearchResult.mk "A" "https://example.org/a.pdf" "some text" "example.org"
        ["google"; "bing"] (Some "https://cache.example/1") 1 2
        true (Some "pdf") false false 0%float "general" "" None None None ].
Proof. reflexivity. Qed.


(** ** Substrings *)

Module PyStrFacts.
Import PyStr.

Lemma append_cons (c : ascii) (a b : string) : String c a +:+ b = String c (a +:+ b).
Proof. reflexivity. Qed.

Lemma append_nil (b : string) : "" +:+ b = b.
Proof. reflexivity. Qed.

Lemma prefix_app (p b : string) : String.prefix p (p +:+ b) = true.
Proof.
  induction p as [|c p IH]; simpl.
  - now destruct b.
  - destruct (ascii_dec c c); [exact IH | congruence].
Qed.

Lemma prefix_elim (p s : string) :
  String.prefix p s = true -> exists b, s = p +:+ b.
Proof.
  revert s; induction p as [|c p IH]; intros s H.
  - now exists s.
  - destruct s as [|d s]; simpl in H; [discriminate|].
    destruct (ascii_dec c d) as [->|]; [|discriminate].
    destruct (IH _ H) as [b ->]. now exists b.
Qed.

Lemma contains_prefix (p s : string) :
  String.prefix p s = true -> contains p s = true.
Proof. intros H. destruct s; cbn [contains]; now rewrite H. Qed.

Lemma contains_cons (p : string) (c : ascii) (s : string) :
  contains p s = true -> contains p (String c s) = true.
Proof.
  intros H. cbn [contains].
  destruct (String.prefix p (String c s)); [reflexivity | exact H].
Qed.

(** A string contains what stands anywhere inside it. *)
Lemma contains_app (p a b : string) : contains p (a +:+ p +:+ b) = true.
Proof.
  induction a as [|c a IH].
  - change ("" +:+ p +:+ b) with (p +:+ b). apply contains_prefix, prefix_app.
  - change (String c a +:+ p +:+ b) with (String c (a +:+ p +:+ b)).
    now apply contains_cons.
Qed.

Lemma contains_elim (p s : string) :
  contains p s = true -> exists a b, s = a +:+ p +:+ b.
Proof.
  induction s as [|c s IH]; intros H.
  - destruct p; [now exists "", "" | discriminate].
  - cbn [contains] in H. destruct (String.prefix p (String c s)) eqn:E.
    + destruct (prefix_elim _ _ E) as [b ->]. now exists "", b.
    + destruct (IH H) as (a & b & ->). now exists (String c a), b.
Qed.

Lemma lower_app (a b : string) : lower (a +:+ b) = lower a +:+ lower b.
Proof. induction a as [|c a IH]; simpl; [reflexivity | now rewrite IH]. Qed.

(** Lower-casing keeps a substring that is already in lower case. *)
Lemma contains_lower (p s : string) :
  lower p = p -> contains p s = true -> contains p (lower s) = true.
Proof.
  intros Hp H. destruct (contains_elim _ _ H) as (a & b & ->).
  rewrite !lower_app, Hp. apply contains_app.
Qed.

Lemma contains_lower_false (p s : string) :
  lower p = p -> contains p (lower s) = false -> contains p s = false.
Proof.
  intros Hp H. destruct (contains p s) eqn:E; [|reflexivity].
  now rewrite (contains_lower _ _ Hp E) in H.
Qed.

Lemma contains_empty (p : string) : contains p "" = true -> p = "".
Proof. destruct p; simpl; [reflexivity | discriminate]. Qed.

End PyStrFacts.

(** ** The authority is a piece of the URL *)

Module UrlFacts.
Import PyStr PyStrFacts Url.




Lemma append_assoc (a b c : string) : (a +:+ b) +:+ c = a +:+ b +:+ c.
Proof.
  induction a as [|x a IH]; [reflexivity|].
  rewrite !append_cons. now f_equal.
Qed.


End UrlFacts.

(** ** Classification *)

Section ClassificationFacts.
Import PyStr PyStrFacts.

(** The pattern loop returns what the chain inside it returns. *)
Lemma google_loop_kind (url_lower : string) :
  google_loop google_patterns url_lower = google_kind url_lower.
Proof.
  unfold google_patterns, google_loop, google_kind.
  destruct (contains "docs.google.com" url_lower),
           (contains "drive.google.com" url_lower),
           (contains "sheets.google.com" url_lower),
           (contains "slides.google.com" url_lower),
           (contains "forms.google.com" url_lower); reflexivity.
Qed.

Lemma google_kind_truthy (url_lower kind : string) :
  google_kind url_lower = Some kind -> truthy kind = true.
Proof.
  unfold google_kind.
  repeat (match goal with |- context [if ?b then _ else _] => destruct b end);
    intros [= <-]; reflexivity.
Qed.

Lemma scraper_extension_truthy (test : string -> bool) (kind : string) :
  SearchResult.first_extension file_extensions test = Some kind -> truthy kind = true.
Proof.
  unfold file_extensions. cbn [SearchResult.first_extension].
  repeat (match goal with |- context [if ?b then _ else _] => destruct b end);
    intros [= <-]; reflexivity.
Qed.

(** Without a cloud kind in the lower-cased URL, neither cloud flag is set. *)
Lemma no_cloud_kind_no_flags (url : string) :
  cloud_kind url = None ->
  contains "docs.google.com" url = false /\ contains "drive.google.com" url = false.
Proof.
  unfold cloud_kind, google_kind. intros H.
  split; apply contains_lower_false; try reflexivity.
  - destruct (contains "docs.google.com" (lower url)); [discriminate | reflexivity].
  - destruct (contains "drive.google.com" (lower url)); [|reflexivity].
    repeat (match type of H with context [if ?b then _ else _] => destruct b end);
      discriminate.
Qed.

(** What the scraper's test answers, case by case. *)
Lemma identify_file_type_cases (url title : string) :
  _identify_file_type url title =
  match url_extension url with
  | Some kind => (true, Some kind)
  | None =>
      match cloud_kind url with
      | Some kind => (true, Some kind)
      | None => if has_title_indicator title then (true, Some "unknown") else (false, None)
      end
  end.
Proof.
  unfold _identify_file_type, url_extension, cloud_kind, has_title_indicator.
  now rewrite google_loop_kind.
Qed.

(** The two cloud flags of a constructed result. *)
Lemma new_flags title url description domain engines cached_url position page_number
      is_file file_type :
  let r := SearchResult.new title url description domain engines cached_url
                            position page_number is_file file_type in
  SearchResult.is_google_doc r = contains "docs.google.com" url
  /\ SearchResult.is_google_drive r
     = (contains "drive.google.com" url || contains "docs.google.com" url).
Proof.
  unfold SearchResult.new.
  destruct (if negb _ && _ then _ else _) as [f k].
  destruct url; split; reflexivity.
Qed.

(** The classification of a pair, as one decision tree. *)
Lemma classify_cases (url title : string) :
  (c_is_file (classify url title), c_file_kind (classify url title)) =
  match url_extension url with
  | Some kind => (true, Some kind)
  | None =>
      match cloud_kind url with
      | Some kind => (true, Some kind)
      | None =>
          if has_title_indicator title then (true, Some "unknown")
          else if truthy url
               then match constructor_extension url title with
                    | Some kind => (true, Some kind)
                    | None => (false, None)
                    end
               else (false, None)
      end
  end.
Proof.
  unfold classify. rewrite identify_file_type_cases.
  destruct (url_extension url) as [kind|] eqn:Eext.
  { unfold SearchResult.new, classification_of, SearchResult.truthy_opt.
    rewrite (scraper_extension_truthy _ _ Eext). reflexivity. }
  destruct (cloud_kind url) as [kind|] eqn:Ecloud.
  { unfold SearchResult.new, classification_of, SearchResult.truthy_opt.
    rewrite (google_kind_truthy _ _ Ecloud). reflexivity. }
  destruct (has_title_indicator title); [reflexivity|].
  destruct (no_cloud_kind_no_flags _ Ecloud) as [Hdocs Hdrive].
  unfold SearchResult.new, classification_of, SearchResult.truthy_opt.
  destruct (truthy url) eqn:Eurl; [|reflexivity].
  cbn [negb andb]. rewrite Hdocs, Hdrive. cbn [orb].
  unfold SearchResult._identify_file_type. fold (constructor_extension url title).
  destruct (constructor_extension url title); reflexivity.
Qed.

(** A table entry whose token passes the test makes [first_extension]
    answer, with the kind of the first entry that passes. *)
Lemma first_extension_some table test ext kind :
  In (ext, kind) table -> test ("." +:+ ext) = true ->
  exists ext' kind', In (ext', kind') table /\ test ("." +:+ ext') = true
                     /\ SearchResult.first_extension table test = Some kind'.
Proof.
  induction table as [|[e k] table IH]; intros Hin Ht; [destruct Hin|].
  cbn [SearchResult.first_extension].
  destruct (test ("." +:+ e)) eqn:E.
  - exists e, k. repeat split; [now left | assumption].
  - destruct Hin as [[= -> ->]|Hin]; [congruence|].
    destruct (IH Hin Ht) as (e' & k' & Hin' & Ht' & Hf).
    exists e', k'. repeat split; [now right | assumption | assumption].
Qed.

Lemma first_extension_none table test :
  SearchResult.first_extension table test = None ->
  forall ext kind, In (ext, kind) table -> test ("." +:+ ext) = false.
Proof.
  induction table as [|[e k] table IH]; intros H ext kind Hin; [destruct Hin|].
  cbn [SearchResult.first_extension] in H.
  destruct (test ("." +:+ e)) eqn:E; [discriminate|].
  destruct Hin as [[= -> ->]|Hin]; [assumption | exact (IH H _ _ Hin)].
Qed.

End ClassificationFacts.

(** C2, as stated, fails twice.  A cloud link without any extension
    token and with a title free of indicator tokens is still a file; and
    an extension in the title does not precede the cloud-host test: the
    scraper's table is tried on the URL alone. *)
Lemma classify_title_before_cloud_counterexample :
  (url_extension "https://drive.google.com/file/d/1" = None
   /\ constructor_extension "https://drive.google.com/file/d/1" "notes" = None
   /\ has_title_indicator "notes" = false
   /\ c_is_file (classify "https://drive.google.com/file/d/1" "notes") = true)
  /\ (SearchResult.first_extension file_extensions
        (fun tok => PyStr.contains tok (PyStr.lower "report.pdf")) = Some "pdf"
      /\ c_file_kind (classify "https://docs.google.com/document/d/1" "report.pdf")
         = Some "google_doc").
Proof. repeat split; reflexivity. Qed.

(** C2, amended.  [classify] tries the scraper's extension table as the
    literal substring [.ext] on the lower-cased URL only, before the
    cloud-host test and the title-token test, and the first entry of the
    table that occurs decides the kind: every URL with a recognised
    extension token is a file of that kind.  The title is searched for an
    extension last of all, by the constructor's own table, once the
    cloud-host and title-token tests have found nothing.  A pair without
    an extension token in URL or title, without a cloud host in the URL and
    without an indicator token in the title is not a file. *)
Theorem classify_extension_first (url title : string) :
  (c_is_file (classify url title), c_file_kind (classify url title)) =
    match url_extension url with
    | Some kind => (true, Some kind)
    | None =>
        match cloud_kind url with
        | Some kind => (true, Some kind)
        | None =>
            if has_title_indicator title then (true, Some "unknown")
            else if PyStr.truthy url
                 then match constructor_extension url title with
                      | Some kind => (true, Some kind)
                      | None => (false, None)
                      end
                 else (false, None)
        end
    end
  /\ (forall ext kind,
        In (ext, kind) file_extensions ->
        PyStr.contains ("." +:+ ext) (PyStr.lower url) = true ->
        c_is_file (classify url title) = true
        /\ exists ext' kind',
             In (ext', kind') file_extensions
             /\ PyStr.contains ("." +:+ ext') (PyStr.lower url) = true
             /\ c_file_kind (classify url title) = Some kind')
  /\ (url_extension url = None -> cloud_kind url = None ->
      has_title_indicator title = false -> constructor_extension url title = None ->
      c_is_file (classify url title) = false).
Proof.
  pose proof (classify_cases url title) as Hc.
  split; [exact Hc|]. split.
  - intros ext kind Hin Ht.
    destruct (first_extension_some file_extensions
                (fun tok => PyStr.contains tok (PyStr.lower url)) ext kind Hin Ht)
      as (ext' & kind' & Hin' & Ht' & Hf).
    fold (url_extension url) in Hf. rewrite Hf in Hc.
    injection Hc as Hfile Hkind.
    split; [exact Hfile|]. exists ext', kind'. auto.
  - intros H1 H2 H3 H4. rewrite H1, H2, H3, H4 in Hc.
    destruct (PyStr.truthy url); now injection Hc.
Qed.

Lemma classify_extension_first_witness :
  c_is_file (classify "https://example.org/paper.PDF" "A paper") = true
  /\ c_is_file (classify "https://example.org/about" "About us") = false.
Proof.
  split.
  - exact (proj1 (proj1 (proj2 (classify_extension_first
             "https://example.org/paper.PDF" "A paper"))
             "pdf" "pdf" (or_introl eq_refl) eq_refl)).
  - exact (proj2 (proj2 (classify_extension_first "https://example.org/about" "About us"))
             eq_refl eq_refl eq_refl eq_refl).
Defined.




(** C9.  The two cloud flags of a constructed result are case-sensitive
    substring tests on the whole raw URL, not on its host: the host name
    [docs.google.com] anywhere in the text sets both, for instance in the
    query of an unrelated host, and a host spelled [DOCS.GOOGLE.COM] sets
    neither: behind such a host the flags are the tests on what follows
    it. *)
Theorem cloud_flags_are_raw_substring_tests
    title url description domain engines cached_url position page_number is_file file_type :
  let new url := SearchResult.new title url description domain engines cached_url
                                  position page_number is_file file_type in
  (SearchResult.is_google_doc (new url) = PyStr.contains "docs.google.com" url
   /\ SearchResult.is_google_drive (new url)
      = (PyStr.contains "drive.google.com" url || PyStr.contains "docs.google.com" url))
  /\ (forall before after,
        SearchResult.is_google_doc (new (before +:+ "docs.google.com" +:+ after)) = true
        /\ SearchResult.is_google_drive (new (before +:+ "docs.google.com" +:+ after)) = true)
  /\ (Url.netloc "https://example.org/r?to=docs.google.com/d/1" = Some "example.org"
      /\ SearchResult.is_google_doc (new "https://example.org/r?to=docs.google.com/d/1") = true
      /\ SearchResult.is_google_drive (new "https://example.org/r?to=docs.google.com/d/1") = true)
  /\ (Url.netloc "https://DOCS.GOOGLE.COM/document/d/1" = Some "DOCS.GOOGLE.COM"
      /\ SearchResult.is_google_doc (new "https://DOCS.GOOGLE.COM/document/d/1") = false
      /\ SearchResult.is_google_drive (new "https://DOCS.GOOGLE.COM/document/d/1") = false)
  /\ (forall rest,
        SearchResult.is_google_doc (new ("https://DOCS.GOOGLE.COM" +:+ rest))
        = PyStr.contains "docs.google.com" rest
        /\ SearchResult.is_google_drive (new ("https://DOCS.GOOGLE.COM" +:+ rest))
           = (PyStr.contains "drive.google.com" rest
              || PyStr.contains "docs.google.com" rest)).
Proof.
  intros new.
  assert (Hflags : forall u,
    SearchResult.is_google_doc (new u) = PyStr.contains "docs.google.com" u
    /\ SearchResult.is_google_drive (new u)
       = (PyStr.contains "drive.google.com" u || PyStr.contains "docs.google.com" u)).
  { intros u. apply new_flags. }
  split; [apply Hflags|]. split; [|split; [|split]].
  - intros before after.
    destruct (Hflags (before +:+ "docs.google.com" +:+ after)) as [-> ->].
    rewrite PyStrFacts.contains_app. split; [reflexivity | apply orb_true_r].
  - destruct (Hflags "https://example.org/r?to=docs.google.com/d/1") as [-> ->].
    repeat split; reflexivity.
  - destruct (Hflags "https://DOCS.GOOGLE.COM/document/d/1") as [-> ->].
    repeat split; reflexivity.
  - intros rest.
    destruct (Hflags ("https://DOCS.GOOGLE.COM" +:+ rest)) as [-> ->].
    split; reflexivity.
Qed.

(** ** The parser *)

Section ParserFacts.

Variable page_number : nat.

(** A block is turned into a result exactly when it yields a title and a
    URL, and the result carries them with the position it was given. *)
Lemma parse_article_spec (position : nat) (article : node) :
  match title_and_url article with
  | Some (title, url) =>
      exists r, parse_article position page_number article = Some r
                /\ SearchResult.position r = position
                /\ SearchResult.page_number r = page_number
                /\ SearchResult.title r = title
                /\ SearchResult.url r = url
  | None => parse_article position page_number article = None
  end.
Proof.
  unfold title_and_url, parse_article.
  destruct (Soup.find (Soup.is_tag "h3") article) as [title_link|]; [|reflexivity].
  destruct (Soup.find (Soup.is_tag "a") title_link) as [link_element|]; [|reflexivity].
  cbv zeta.
  destruct (negb _ || negb _); [reflexivity|].
  destruct (_identify_file_type _ _) as [f k].
  eexists. split; [reflexivity|].
  unfold SearchResult.new.
  destruct (if negb _ && _ then _ else _) as [f' k']. repeat split.
Qed.

Lemma parse_article_some (position : nat) (article : node) :
  has_title_and_url article = true ->
  exists r, parse_article position page_number article = Some r
            /\ SearchResult.position r = position.
Proof.
  unfold has_title_and_url. intros H.
  pose proof (parse_article_spec position article) as Hs.
  destruct (title_and_url article) as [[t u]|]; [|discriminate].
  destruct Hs as (r & Hr & Hp & _). now exists r.
Qed.

Lemma parse_article_none (position : nat) (article : node) :
  has_title_and_url article = false ->
  parse_article position page_number article = None.
Proof.
  unfold has_title_and_url. intros H.
  pose proof (parse_article_spec position article) as Hs.
  destruct (title_and_url article) as [[t u]|]; [discriminate | exact Hs].
Qed.

(** The accumulator of the loop only ever grows at its end. *)
Lemma parse_loop_acc (articles : list node) (position : nat) (acc : list SearchResult.t) :
  parse_loop position page_number articles acc
  = acc ++ parse_loop position page_number articles [].
Proof.
  revert position acc.
  induction articles as [|a rest IH]; intros position acc; cbn [parse_loop].
  - now rewrite app_nil_r.
  - destruct (parse_article position page_number a) as [r|].
    + rewrite (IH (S position) (acc ++ [r])), (IH (S position) ([] ++ [r])).
      now rewrite <- app_assoc.
    + apply IH.
Qed.

Lemma filter_seq_shift (f : nat -> bool) (n : nat) :
  List.filter f (seq 1 n) = List.map S (List.filter (fun i => f (S i)) (seq 0 n)).
Proof.
  rewrite <- seq_shift.
  induction (seq 0 n) as [|i l IH]; [reflexivity|].
  cbn [List.map List.filter]. destruct (f (S i)); cbn [List.map]; now rewrite IH.
Qed.

(** The positions handed out by the loop started at [first]: the index
    of every block that yields, counted among all the blocks. *)
Lemma parse_loop_positions (articles : list node) (first : nat) :
  List.map SearchResult.position (parse_loop first page_number articles [])
  = List.map (fun i => first + i)
      (List.filter (fun i => has_title_and_url (nth i articles (NavigableString "")))
                   (seq 0 (length articles))).
Proof.
  revert first.
  induction articles as [|a rest IH]; intros first; [reflexivity|].
  cbn [parse_loop length]. change (seq 0 (S (length rest))) with (0 :: seq 1 (length rest)).
  cbn [List.filter nth]. rewrite filter_seq_shift. cbn [nth].
  assert (Htail :
    List.map (fun i => first + i)
      (List.map S (List.filter
         (fun i => has_title_and_url (nth i rest (NavigableString "")))
         (seq 0 (length rest))))
    = List.map SearchResult.position (parse_loop (S first) page_number rest [])).
  { rewrite IH, List.map_map. apply List.map_ext. intros i. lia. }
  destruct (has_title_and_url a) eqn:E.
  - destruct (parse_article_some first a E) as (r & -> & Hp).
    rewrite parse_loop_acc. cbn [app List.map]. rewrite Hp, Htail.
    f_equal. lia.
  - rewrite (parse_article_none first a E). now rewrite Htail.
Qed.

(** Every result is what [parse_article] makes of the block at its
    position. *)
Lemma parse_loop_results (articles : list node) (first : nat) :
  parse_loop first page_number articles []
  = omap id (imap (fun i a => parse_article (first + i) page_number a) articles).
Proof.
  revert first.
  induction articles as [|a rest IH]; intros first; [reflexivity|].
  cbn [parse_loop]. rewrite imap_cons.
  assert (Htail :
    omap id (imap ((fun i a => parse_article (first + i) page_number a) ∘ S) rest)
    = parse_loop (S first) page_number rest []).
  { rewrite IH. f_equal. apply imap_ext. intros i x _. cbn. f_equal. lia. }
  rewrite Nat.add_0_r.
  change (omap id (?x :: ?l))
    with (match id x with Some y => y :: omap id l | None => omap id l end).
  unfold id at 1. rewrite Htail.
  destruct (parse_article first page_number a) as [r|]; [|reflexivity].
  rewrite parse_loop_acc. reflexivity.
Qed.

End ParserFacts.

(** C1, as stated, fails when the malformed block comes first: the one
    result returned has position 2, not 1. *)
Lemma position_after_malformed_counterexample :
  let results :=
    _parse_results (page_of [malformed_article;
                             well_formed_article "https://example.org/a" "A"]) 1 in
  length results = 1
  /\ List.map SearchResult.position results = [2]
  /\ List.map SearchResult.position results <> seq 1 (length results).
Proof. cbv zeta. repeat split. discriminate. Qed.

(** C1, amended.  For every page, [parse] returns, in document order, one
    result for each block that yields a title and a URL, and gives it the
    1-based index of its block among all the result blocks of the page; a
    block without a title or a URL is skipped, returns nothing, and still
    uses up its number.  A well-formed block followed by a malformed one
    gives one result with position 1; preceded by a malformed one, one
    result with position 2. *)
Theorem parse_positions_count_every_container (soup : node) (page_number : nat) :
  let articles := Soup.find_all is_result_article soup in
  let results := _parse_results soup page_number in
  results = omap id (imap (fun i a => parse_article (i + 1) page_number a) articles)
  /\ List.map SearchResult.position results
     = List.map (fun i => i + 1)
         (List.filter (fun i => has_title_and_url (nth i articles (NavigableString "")))
                      (seq 0 (length articles)))
  /\ List.map SearchResult.position
       (_parse_results (page_of [well_formed_article "https://example.org/a" "A";
                                 malformed_article]) page_number) = [1]
  /\ List.map SearchResult.position
       (_parse_results (page_of [malformed_article;
                                 well_formed_article "https://example.org/a" "A"])
                       page_number) = [2].
Proof.
  cbv zeta. unfold _parse_results. split; [|split; [|split]].
  - rewrite parse_loop_results. f_equal. apply imap_ext. intros i a _. f_equal. lia.
  - rewrite parse_loop_positions. apply List.map_ext. intros i. lia.
  - reflexivity.
  - reflexivity.
Qed.

(** ** The pager *)

(** What a trace shows of its pieces. *)
Lemma yields_app (a b : list event) : yields (a ++ b) = yields a ++ yields b.
Proof. apply omap_app. Qed.

Lemma requested_pagenos_app (a b : list event) :
  requested_pagenos (a ++ b) = requested_pagenos a ++ requested_pagenos b.
Proof. apply omap_app. Qed.

Lemma requests_app (a b : list event) : requests (a ++ b) = requests a + requests b.
Proof. unfold requests. now rewrite List.filter_app, length_app. Qed.

Lemma yields_map_Yield (rs : list SearchResult.t) : yields (List.map Yield rs) = rs.
Proof. induction rs as [|r rs IH]; [reflexivity|]. cbn. now f_equal. Qed.

Lemma requested_pagenos_map_Yield (rs : list SearchResult.t) :
  requested_pagenos (List.map Yield rs) = [].
Proof. induction rs as [|r rs IH]; [reflexivity | exact IH]. Qed.

Lemma requests_map_Yield (rs : list SearchResult.t) : requests (List.map Yield rs) = 0.
Proof. induction rs as [|r rs IH]; [reflexivity | exact IH]. Qed.

(** ** Statistics *)

Lemma stats_of_update (key : string) (f : InstanceStats -> InstanceStats) (st : Stats) :
  stats_of key (update_instance key f st)
  = match instance_stats st !! key with
    | Some s => f s
    | None => new_instance_stats
    end.
Proof.
  unfold stats_of, update_instance, with_instance_stats. cbn [instance_stats].
  rewrite lookup_alter_eq. now destruct (instance_stats st !! key).
Qed.

Lemma lookup_update (key : string) (f : InstanceStats -> InstanceStats) (st : Stats) :
  instance_stats (update_instance key f st) !! key = f <$> instance_stats st !! key.
Proof. unfold update_instance, with_instance_stats. cbn. apply lookup_alter_eq. Qed.

Lemma stats_of_add_total_results (key : string) (n : nat) (st : Stats) :
  stats_of key (add_total_results n st) = stats_of key st.
Proof. reflexivity. Qed.

(** An update that leaves the error counter of an entry alone leaves the
    error counter of the instance alone. *)
Lemma errors_update (key : string) (f : InstanceStats -> InstanceStats) (st : Stats) :
  (forall s, errors (f s) = errors s) ->
  errors (stats_of key (update_instance key f st)) = errors (stats_of key st).
Proof.
  intros Hf. rewrite stats_of_update. unfold stats_of.
  destruct (instance_stats st !! key); [apply Hf | reflexivity].
Qed.

Lemma errors_count_error (key : string) (st : Stats) :
  is_Some (instance_stats st !! key) ->
  errors (stats_of key (update_instance key count_error st)) = errors (stats_of key st) + 1.
Proof.
  intros [s Hs]. rewrite stats_of_update. unfold stats_of. now rewrite Hs.
Qed.

Section PagerFacts.

Variable instance : SearxngInstanceConfig.t.
Variable fetch : nat -> reply.
Variable query : SearchQuery.t.
Variable max_pages : nat.

Let key := instance_key instance.
Let loop := search_loop instance fetch query max_pages.
Let turn_of := page_turn instance fetch query max_pages.
Let request := request_for instance query.

(** The loop, one turn unfolded. *)
Lemma search_loop_body (page : nat) (st : Stats) :
  loop page st =
  if le_dec page max_pages
  then match turn_of page st with
       | Break o => o
       | Continue evs st' => emit evs (loop (page + 1) st')
       end
  else {| trace := []; stats := st; raised := None |}.
Proof.
  unfold loop, turn_of. simp search_loop.
  destruct (le_dec page max_pages); simpl; [|reflexivity].
  destruct (page_turn instance fetch query max_pages page st); reflexivity.
Qed.

Lemma loop_past (page : nat) (st : Stats) :
  max_pages < page -> loop page st = {| trace := []; stats := st; raised := None |}.
Proof.
  intros H. rewrite search_loop_body. destruct (le_dec page max_pages); [lia | reflexivity].
Qed.

Lemma turn_ok (page : nat) (st : Stats) :
  page_ok fetch page = true ->
  turn_of page st = Continue (page_events instance fetch query max_pages page) (after_page instance fetch page st).
Proof.
  unfold page_ok, turn_of, page_turn, page_events, after_page, parsed.
  destruct (fetch page) as [status html rt|e]; [|discriminate].
  intros [Hs Hp]%andb_true_iff. rewrite Hs. cbn [negb].
  destruct (_parse_results html page) as [|r rs]; [discriminate | reflexivity].
Qed.


(** A failing page: the request, one more error, and the end. *)
Lemma turn_fails (page : nat) (st : Stats) :
  page_fails fetch page = true ->
  turn_of page st = Break {| trace := [request page];
                             stats := update_instance key count_error st;
                             raised := None |}.
Proof.
  unfold page_fails, turn_of, page_turn.
  destruct (fetch page) as [status html rt|[]]; try discriminate.
  - now intros ->.
  - reflexivity.
Qed.

(** A page with status 200 and nothing parsed: the request, the query
    counted, and the end. *)
Lemma turn_empty (page : nat) (st : Stats) (html : node) (response_time : float) :
  fetch page = Reply 200 html response_time ->
  _parse_results html page = [] ->
  turn_of page st = Break {| trace := [request page];
                             stats := update_instance key (count_query response_time) st;
                             raised := None |}.
Proof.
  unfold turn_of, page_turn. intros -> ->. reflexivity.
Qed.

Lemma loop_ok (page : nat) (st : Stats) :
  page <= max_pages -> page_ok fetch page = true ->
  loop page st = emit (page_events instance fetch query max_pages page) (loop (page + 1) (after_page instance fetch page st)).
Proof.
  intros Hle Hok. rewrite search_loop_body, (turn_ok _ _ Hok).
  destruct (le_dec page max_pages); [reflexivity | lia].
Qed.

Lemma loop_break (page : nat) (st : Stats) (o : Outcome) :
  page <= max_pages -> turn_of page st = Break o -> loop page st = o.
Proof.
  intros Hle Hb. rewrite search_loop_body, Hb.
  destruct (le_dec page max_pages); [reflexivity | lia].
Qed.

Lemma emit_emit (a b : list event) (o : Outcome) : emit a (emit b o) = emit (a ++ b) o.
Proof. unfold emit. cbn. now rewrite app_assoc. Qed.

(** A run of good pages: their events, then the loop from the page
    after them. *)
Lemma loop_ok_prefix (n first : nat) (st : Stats) :
  first + n <= max_pages + 1 ->
  (forall p, first <= p < first + n -> page_ok fetch p = true) ->
  loop first st
  = emit (pages_events instance fetch query max_pages first n) (loop (first + n) (after_pages instance fetch first n st)).
Proof.
  revert first st. induction n as [|n IH]; intros first st Hle Hok.
  - rewrite Nat.add_0_r. unfold pages_events, emit. cbn.
    now destruct (loop first st).
  - rewrite loop_ok by (try apply Hok; lia).
    rewrite (IH (first + 1) (after_page instance fetch first st)) by (try (intros; apply Hok); lia).
    rewrite emit_emit. unfold pages_events. cbn [seq flat_map after_pages].
    replace (first + 1) with (S first) by lia.
    replace (S first + n) with (first + S n) by lia. reflexivity.
Qed.

Lemma yields_page_events (page : nat) : yields (page_events instance fetch query max_pages page) = parsed fetch page.
Proof.
  unfold page_events. rewrite !yields_app, yields_map_Yield.
  unfold request, request_for.
  destruct (Nat.eqb page 1), (Nat.leb (page + 1) max_pages); cbn; now rewrite ?app_nil_r.
Qed.

Lemma pageno_of_request (page : nat) :
  requested_pagenos [request page] = [PyStr.of_nat page].
Proof. unfold request, request_for. now destruct (Nat.eqb page 1). Qed.

Lemma requests_of_request (page : nat) : requests [request page] = 1.
Proof. unfold request, request_for. now destruct (Nat.eqb page 1). Qed.

Lemma yields_of_request (page : nat) : yields [request page] = [].
Proof. unfold request, request_for. now destruct (Nat.eqb page 1). Qed.

Lemma requested_pagenos_page_events (page : nat) :
  requested_pagenos (page_events instance fetch query max_pages page) = [PyStr.of_nat page].
Proof.
  unfold page_events. rewrite !requested_pagenos_app, requested_pagenos_map_Yield.
  rewrite pageno_of_request. now destruct (Nat.leb (page + 1) max_pages).
Qed.

Lemma requests_page_events (page : nat) : requests (page_events instance fetch query max_pages page) = 1.
Proof.
  unfold page_events. rewrite !requests_app, requests_map_Yield, requests_of_request.
  now destruct (Nat.leb (page + 1) max_pages).
Qed.

Lemma yields_pages_events (first n : nat) :
  yields (pages_events instance fetch query max_pages first n) = flat_map (parsed fetch) (seq first n).
Proof.
  unfold pages_events. induction (seq first n) as [|p l IH]; [reflexivity|].
  cbn [flat_map]. now rewrite yields_app, yields_page_events, IH.
Qed.

Lemma requested_pagenos_pages_events (first n : nat) :
  requested_pagenos (pages_events instance fetch query max_pages first n) = List.map PyStr.of_nat (seq first n).
Proof.
  unfold pages_events. induction (seq first n) as [|p l IH]; [reflexivity|].
  cbn [flat_map List.map]. now rewrite requested_pagenos_app, requested_pagenos_page_events, IH.
Qed.

Lemma requests_pages_events (first n : nat) : requests (pages_events instance fetch query max_pages first n) = n.
Proof.
  unfold pages_events.
  transitivity (length (seq first n)); [|apply length_seq].
  induction (seq first n) as [|p l IH]; [reflexivity|].
  cbn [flat_map length]. now rewrite requests_app, requests_page_events, IH.
Qed.

(** Good pages leave the error counter alone and keep the entry. *)
Lemma errors_after_page (page : nat) (st : Stats) :
  errors (stats_of key (after_page instance fetch page st)) = errors (stats_of key st).
Proof.
  unfold after_page. destruct (fetch page) as [status html rt|e]; [|reflexivity].
  cbv zeta. rewrite errors_update by reflexivity.
  rewrite stats_of_add_total_results. now rewrite errors_update by reflexivity.
Qed.

Lemma has_entry_after_page (page : nat) (st : Stats) :
  is_Some (instance_stats st !! key) ->
  is_Some (instance_stats (after_page instance fetch page st) !! key).
Proof.
  intros [s Hs]. unfold key in *. unfold after_page.
  destruct (fetch page) as [status html rt|e]; [|now exists s].
  cbv zeta. rewrite lookup_update.
  change (instance_stats (add_total_results ?n ?x)) with (instance_stats x).
  rewrite lookup_update, Hs. now eexists.
Qed.

Lemma errors_after_pages (n first : nat) (st : Stats) :
  errors (stats_of key (after_pages instance fetch first n st)) = errors (stats_of key st).
Proof.
  revert first st. induction n as [|n IH]; intros first st; [reflexivity|].
  cbn [after_pages]. now rewrite IH, errors_after_page.
Qed.

Lemma has_entry_after_pages (n first : nat) (st : Stats) :
  is_Some (instance_stats st !! key) ->
  is_Some (instance_stats (after_pages instance fetch first n st) !! key).
Proof.
  revert first st. induction n as [|n IH]; intros first st H; [exact H|].
  cbn [after_pages]. now apply IH, has_entry_after_page.
Qed.

End PagerFacts.

Lemma start_stats_has_entry (key : string) (st : Stats) :
  is_Some (instance_stats (start_stats key st) !! key).
Proof.
  unfold start_stats. destruct (instance_stats st !! key) eqn:E.
  - rewrite E. now eexists.
  - cbn. rewrite lookup_insert_eq. now eexists.
Qed.

Lemma stats_of_start_stats (key : string) (st : Stats) :
  stats_of key (start_stats key st) = stats_of key st.
Proof.
  unfold start_stats, stats_of. destruct (instance_stats st !! key) eqn:E.
  - now rewrite E.
  - cbn. now rewrite lookup_insert_eq.
Qed.

Lemma search_instance_active config_max_pages instance fetch query max_pages st :
  SearxngInstanceConfig.is_active instance = true ->
  search_instance config_max_pages instance fetch query max_pages st
  = search_loop instance fetch query (effective_max_pages max_pages config_max_pages) 1
                (start_stats (instance_key instance) st).
Proof. unfold search_instance. now intros ->. Qed.

(** The run of an active instance whose first [k - 1] pages are good and
    whose page [k] makes the loop stop with outcome [o]. *)
Lemma search_instance_stops_at config_max_pages instance fetch query max_pages st k o :
  SearxngInstanceConfig.is_active instance = true ->
  1 <= k <= effective_max_pages max_pages config_max_pages ->
  (forall p, 1 <= p < k -> page_ok fetch p = true) ->
  page_turn instance fetch query (effective_max_pages max_pages config_max_pages) k
    (after_pages instance fetch 1 (k - 1) (start_stats (instance_key instance) st)) = Break o ->
  search_instance config_max_pages instance fetch query max_pages st
  = emit (pages_events instance fetch query
            (effective_max_pages max_pages config_max_pages) 1 (k - 1)) o.
Proof.
  intros Hact Hk Hok Hturn. rewrite search_instance_active by assumption.
  rewrite (loop_ok_prefix _ _ _ _ (k - 1) 1) by (try (intros; apply Hok); lia).
  replace (1 + (k - 1)) with k by lia.
  now rewrite (loop_break _ _ _ _ _ _ o) by (try assumption; lia).
Qed.

Lemma seq_snoc (k : nat) : 1 <= k -> seq 1 k = seq 1 (k - 1) ++ [k].
Proof.
  intros H. replace k with (S (k - 1)) at 1 by lia.
  rewrite seq_S. do 2 f_equal. lia.
Qed.

(** C3.  Whenever a page comes back with a status other than 200, or
    times out, after any number of good pages, the pager adds exactly one
    to the error counter of the instance, yields nothing from that page,
    issues no further request and lets no exception out; what the earlier
    pages yielded stays yielded.  With HTTP 500 on page 2 the run yields
    all of page 1 and ends with one error more. *)
Theorem pager_stops_on_failure
    config_max_pages instance fetch query max_pages st k :
  SearxngInstanceConfig.is_active instance = true ->
  1 <= k <= effective_max_pages max_pages config_max_pages ->
  (forall p, 1 <= p < k -> page_ok fetch p = true) ->
  page_fails fetch k = true ->
  let o := search_instance config_max_pages instance fetch query max_pages st in
  let key := instance_key instance in
  errors (stats_of key (stats o)) = errors (stats_of key st) + 1
  /\ yields (trace o) = flat_map (parsed fetch) (seq 1 (k - 1))
  /\ requested_pagenos (trace o) = List.map PyStr.of_nat (seq 1 k)
  /\ requests (trace o) = k
  /\ raised o = None.
Proof.
  intros Hact Hk Hok Hfail o key. subst o.
  rewrite (search_instance_stops_at _ _ _ _ _ _ k _ Hact Hk Hok
             (turn_fails _ _ _ _ _ _ Hfail)).
  unfold emit. cbn [trace stats raised].
  rewrite yields_app, requested_pagenos_app, requests_app.
  rewrite yields_pages_events, requested_pagenos_pages_events, requests_pages_events.
  rewrite pageno_of_request, requests_of_request, yields_of_request, app_nil_r.
  repeat split.
  - rewrite errors_count_error
      by apply has_entry_after_pages, start_stats_has_entry.
    now rewrite errors_after_pages, stats_of_start_stats.
  - rewrite (seq_snoc k) by lia. now rewrite List.map_app.
  - lia.
Qed.

Lemma pager_stops_on_failure_witness :
  let o := search_instance 5 instance_A fetch_500_on_page_2 sample_query (Some 3)
                           initial_stats in
  errors (stats_of (instance_key instance_A) (stats o)) = 0 + 1
  /\ yields (trace o) = flat_map (parsed fetch_500_on_page_2) (seq 1 (2 - 1))
  /\ requested_pagenos (trace o) = List.map PyStr.of_nat (seq 1 2)
  /\ requests (trace o) = 2
  /\ raised o = None.
Proof.
  apply (pager_stops_on_failure 5 instance_A fetch_500_on_page_2 sample_query (Some 3)
                                initial_stats 2).
  - reflexivity.
  - cbn. lia.
  - intros p Hp. assert (p = 1) as -> by lia. reflexivity.
  - reflexivity.
Defined.

(** C4.  A page without any result block parses to the empty list,
    whatever its page number; and a page that comes back with status 200
    and parses to nothing ends the pagination without touching the error
    counter and without an exception: the request is made, nothing is
    yielded from it, and no further request follows. *)
Theorem empty_page_ends_pagination
    config_max_pages instance fetch query max_pages st k html response_time :
  SearxngInstanceConfig.is_active instance = true ->
  1 <= k <= effective_max_pages max_pages config_max_pages ->
  (forall p, 1 <= p < k -> page_ok fetch p = true) ->
  fetch k = Reply 200 html response_time ->
  _parse_results html k = [] ->
  let o := search_instance config_max_pages instance fetch query max_pages st in
  let key := instance_key instance in
  (forall soup page_number,
      Soup.find_all is_result_article soup = [] -> _parse_results soup page_number = [])
  /\ errors (stats_of key (stats o)) = errors (stats_of key st)
  /\ raised o = None
  /\ yields (trace o) = flat_map (parsed fetch) (seq 1 (k - 1))
  /\ requested_pagenos (trace o) = List.map PyStr.of_nat (seq 1 k)
  /\ requests (trace o) = k.
Proof.
  intros Hact Hk Hok Hfetch Hparse o key. subst o.
  split.
  { intros soup page_number H. unfold _parse_results. now rewrite H. }
  rewrite (search_instance_stops_at _ _ _ _ _ _ k _ Hact Hk Hok
             (turn_empty _ _ _ _ _ _ _ _ Hfetch Hparse)).
  unfold emit. cbn [trace stats raised].
  rewrite yields_app, requested_pagenos_app, requests_app.
  rewrite yields_pages_events, requested_pagenos_pages_events, requests_pages_events.
  rewrite pageno_of_request, requests_of_request, yields_of_request, app_nil_r.
  repeat split.
  - rewrite errors_update by reflexivity.
    now rewrite errors_after_pages, stats_of_start_stats.
  - rewrite (seq_snoc k) by lia. now rewrite List.map_app.
  - lia.
Qed.

Lemma empty_page_ends_pagination_witness :
  let o := search_instance 5 instance_B fetch_B sample_query (Some 5) initial_stats in
  (forall soup page_number,
      Soup.find_all is_result_article soup = [] -> _parse_results soup page_number = [])
  /\ errors (stats_of (instance_key instance_B) (stats o)) = 0
  /\ raised o = None
  /\ yields (trace o) = flat_map (parsed fetch_B) (seq 1 (2 - 1))
  /\ requested_pagenos (trace o) = List.map PyStr.of_nat (seq 1 2)
  /\ requests (trace o) = 2.
Proof.
  apply (empty_page_ends_pagination 5 instance_B fetch_B sample_query (Some 5)
                                    initial_stats 2 (results_page 0) 1%float).
  - reflexivity.
  - cbn. lia.
  - intros p Hp. assert (p = 1) as -> by lia. reflexivity.
  - reflexivity.
  - reflexivity.
Defined.

Section PagerShape.

Variable instance : SearxngInstanceConfig.t.
Variable fetch : nat -> reply.
Variable query : SearchQuery.t.
Variable max_pages : nat.

Let loop := search_loop instance fetch query max_pages.


End PagerShape.





(** ** The orchestrator *)

Lemma filter_inactive (instances : list SearxngInstanceConfig.t) :
  Forall (fun i => SearxngInstanceConfig.is_active i = false) instances ->
  List.filter SearxngInstanceConfig.is_active instances = [].
Proof.
  induction 1 as [|i l Hi _ IH]; [reflexivity|].
  cbn [List.filter]. now rewrite Hi.
Qed.

(** With an active instance in the list, the call ends in a [TypeError]
    before any generator has been started. *)
Lemma search_multiple_instances_raises
    py config_max_pages network instances query max_pages st :
  List.filter SearxngInstanceConfig.is_active instances <> [] ->
  search_multiple_instances py config_max_pages network instances query max_pages st
  = {| trace := []; stats := st; raised := Some TypeError |}.
Proof.
  unfold search_multiple_instances. intros H.
  destruct (List.filter SearxngInstanceConfig.is_active instances) as [|i l]; [congruence|].
  cbn [List.map]. unfold async_for_as_completed. now destruct py.
Qed.

(** C5.  Run on instance A (two pages of ten results, then an empty page)
    and instance B (one page of three results, then an empty page) with
    [max_pages = 5], the orchestrator yields nothing: iterating
    [asyncio.as_completed] over asynchronous generator objects raises
    [TypeError] before any request is made, and the totals stay as they
    were.  The two generators it has built would yield 20 and 3 results,
    the 23 results that the specification expects, had they been
    iterated. *)
Theorem orchestrator_never_merges (py : python) :
  let run := search_multiple_instances py 5 sample_network [instance_A; instance_B]
                                       sample_query (Some 5) initial_stats in
  let tasks := List.map (search_with_semaphore 5 sample_network sample_query (Some 5))
                        [instance_A; instance_B] in
  (raised run = Some TypeError
   /\ length (yields (trace run)) = 0
   /\ requests (trace run) = 0
   /\ total_queries (stats run) = 0
   /\ total_results (stats run) = 0)
  /\ (length (yields (trace (drain tasks initial_stats))) = 23
      /\ total_results (stats (drain tasks initial_stats)) = 23
      /\ raised (drain tasks initial_stats) = None).
Proof.
  cbv zeta. split.
  - rewrite search_multiple_instances_raises by discriminate. repeat split.
  - vm_compute. repeat split.
Qed.

(** C10.  Called with a list in which no instance is active, the
    orchestrator yields nothing, makes no request, raises nothing and
    leaves the statistics as they were; in particular [total_queries]
    does not receive the increment that ends a completed run. *)
Theorem no_active_instance_changes_nothing
    py config_max_pages network instances query max_pages st :
  Forall (fun i => SearxngInstanceConfig.is_active i = false) instances ->
  let o := search_multiple_instances py config_max_pages network instances query
                                     max_pages st in
  trace o = []
  /\ yields (trace o) = []
  /\ requests (trace o) = 0
  /\ raised o = None
  /\ stats o = st
  /\ total_queries (stats o) = total_queries st
  /\ stats o <> add_total_query st.
Proof.
  intros Hinactive o. subst o. unfold search_multiple_instances.
  rewrite (filter_inactive _ Hinactive). cbn [trace stats raised].
  repeat split. intros H.
  apply (f_equal total_queries) in H. cbn in H. lia.
Qed.

Lemma no_active_instance_changes_nothing_witness :
  let o := search_multiple_instances Python_3_12_or_older 5 sample_network
             [inactive_instance] sample_query (Some 5) initial_stats in
  trace o = []
  /\ yields (trace o) = []
  /\ requests (trace o) = 0
  /\ raised o = None
  /\ stats o = initial_stats
  /\ total_queries (stats o) = total_queries initial_stats
  /\ stats o <> add_total_query initial_stats.
Proof.
  exact (no_active_instance_changes_nothing Python_3_12_or_older 5 sample_network
           [inactive_instance] sample_query (Some 5) initial_stats
           (List.Forall_cons _ inactive_instance [] eq_refl (List.Forall_nil _))).
Defined.

(** * Further properties *)

(** ** The pager in closed form *)

Section PagerClosedFormFacts.

Variable instance : SearxngInstanceConfig.t.
Variable fetch : nat -> reply.
Variable query : SearchQuery.t.
Variable max_pages : nat.

Lemma turn_not_ok_stop (page : nat) (st : Stats) :
  page_ok fetch page = false ->
  page_turn instance fetch query max_pages page st
  = Break (stop_outcome instance fetch query page st).
Proof.
  unfold page_ok, page_turn, stop_outcome.
  destruct (fetch page) as [status html rt|e]; [|now destruct (is_Exception e)].
  destruct (Nat.eqb status 200); cbn [negb andb]; [|reflexivity].
  destruct (_parse_results html page); [reflexivity | discriminate].
Qed.

Lemma good_run_ok (fuel page p : nat) :
  page <= p < page + good_run fetch fuel page -> page_ok fetch p = true.
Proof.
  revert page. induction fuel as [|fuel IH]; intros page Hp; cbn in Hp; [lia|].
  destruct (page_ok fetch page) eqn:E; [|lia].
  destruct (Nat.eq_dec p page) as [->|Hne]; [assumption|].
  apply (IH (S page)). lia.
Qed.

Lemma good_run_le (fuel page : nat) : good_run fetch fuel page <= fuel.
Proof.
  revert page. induction fuel as [|fuel IH]; intros page; cbn; [lia|].
  destruct (page_ok fetch page); [|lia]. specialize (IH (S page)). lia.
Qed.

Lemma good_run_stop (fuel page : nat) :
  good_run fetch fuel page < fuel ->
  page_ok fetch (page + good_run fetch fuel page) = false.
Proof.
  revert page. induction fuel as [|fuel IH]; intros page H; cbn in *; [lia|].
  destruct (page_ok fetch page) eqn:E.
  - replace (page + S (good_run fetch fuel (S page)))
      with (S page + good_run fetch fuel (S page)) by lia.
    apply IH. lia.
  - now rewrite Nat.add_0_r.
Qed.

(** The loop is its closed form. *)
Lemma search_loop_closed_form (page : nat) (st : Stats) :
  page <= max_pages + 1 ->
  search_loop instance fetch query max_pages page st
  = loop_closed_form instance fetch query max_pages page st.
Proof.
  intros Hle. unfold loop_closed_form. cbv zeta.
  set (n := good_run fetch (max_pages + 1 - page) page).
  assert (Hn : n <= max_pages + 1 - page) by apply good_run_le.
  rewrite (loop_ok_prefix instance fetch query max_pages n page st)
    by (try (intros p Hp; apply (good_run_ok (max_pages + 1 - page) page); exact Hp); lia).
  f_equal.
  destruct (Nat.leb (page + n) max_pages) eqn:E.
  - apply Nat.leb_le in E.
    apply loop_break; [assumption|].
    apply turn_not_ok_stop. apply good_run_stop. fold n. lia.
  - apply Nat.leb_gt in E. apply loop_past. lia.
Qed.

End PagerClosedFormFacts.

(** The run of an active instance is the closed form from page 1. *)
Lemma search_instance_closed_form config_max_pages instance fetch query max_pages st :
  SearxngInstanceConfig.is_active instance = true ->
  search_instance config_max_pages instance fetch query max_pages st
  = loop_closed_form instance fetch query
      (effective_max_pages max_pages config_max_pages) 1
      (start_stats (instance_key instance) st).
Proof.
  intros Hact. rewrite search_instance_active by assumption.
  apply search_loop_closed_form. lia.
Qed.

(** ** What a run leaves in its trace *)


Lemma request_events_app (a b : list event) :
  request_events (a ++ b) = request_events a ++ request_events b.
Proof. apply List.filter_app. Qed.


Lemma request_events_map_Yield (rs : list SearchResult.t) :
  request_events (List.map Yield rs) = [].
Proof. induction rs as [|r rs IH]; [reflexivity | exact IH]. Qed.

Lemma requests_length (tr : list event) : requests tr = length (request_events tr).
Proof. reflexivity. Qed.

Section PagerTraceFacts.

Variable instance : SearxngInstanceConfig.t.
Variable fetch : nat -> reply.
Variable query : SearchQuery.t.
Variable max_pages : nat.

Let delay := SearxngInstanceConfig.rate_limit_delay instance.

Lemma request_for_is_request (page : nat) :
  request_events [request_for instance query page] = [request_for instance query page].
Proof. unfold request_for. now destruct (Nat.eqb page 1). Qed.


Lemma trace_stop_outcome (page : nat) (st : Stats) :
  trace (stop_outcome instance fetch query page st) = [request_for instance query page].
Proof.
  unfold stop_outcome. destruct (fetch page) as [status html rt|e].
  - now destruct (negb (Nat.eqb status 200)).
  - now destruct (is_Exception e).
Qed.

Lemma request_events_page_events (page : nat) :
  request_events (page_events instance fetch query max_pages page)
  = [request_for instance query page].
Proof.
  unfold page_events. rewrite !request_events_app, request_events_map_Yield.
  rewrite request_for_is_request. now destruct (Nat.leb (page + 1) max_pages).
Qed.

Lemma request_events_pages_events (first n : nat) :
  request_events (pages_events instance fetch query max_pages first n)
  = List.map (request_for instance query) (seq first n).
Proof.
  unfold pages_events. induction (seq first n) as [|p l IH]; [reflexivity|].
  cbn [flat_map List.map].
  now rewrite request_events_app, request_events_page_events, IH.
Qed.



End PagerTraceFacts.


(** X2.  The first request of a run is a GET that carries the query
    parameters with [pageno] 1; every later request is a POST that
    carries the form fields with the number of its page; all of them go
    to the instance, for pages 1, 2, 3, ... without a gap. *)
Theorem pager_first_get_then_post
    config_max_pages instance fetch query max_pages st :
  let o := search_instance config_max_pages instance fetch query max_pages st in
  request_events (trace o)
  = match requests (trace o) with
    | 0 => []
    | S m =>
        Get (SearxngInstanceConfig.url instance)
            (SearchQuery.to_params (SearchQuery.with_pageno query 1))
        :: List.map (fun page =>
                       Post (SearxngInstanceConfig.url instance)
                            (SearchQuery.to_form_data (SearchQuery.with_pageno query page)))
                    (seq 2 m)
    end.
Proof.
  cbv zeta.
  assert (Hshape : forall k,
    List.map (request_for instance query) (seq 1 k)
    = match k with
      | 0 => []
      | S m =>
          Get (SearxngInstanceConfig.url instance)
              (SearchQuery.to_params (SearchQuery.with_pageno query 1))
          :: List.map (fun page =>
                         Post (SearxngInstanceConfig.url instance)
                              (SearchQuery.to_form_data (SearchQuery.with_pageno query page)))
                      (seq 2 m)
      end).
  { intros [|m]; [reflexivity|]. cbn [seq List.map]. f_equal.
    apply List.map_ext_in. intros p Hp. apply in_seq in Hp.
    unfold request_for. destruct (Nat.eqb_spec p 1); [lia | reflexivity]. }
  destruct (SearxngInstanceConfig.is_active instance) eqn:Hact.
  2: { unfold search_instance. now rewrite Hact. }
  rewrite search_instance_closed_form by assumption.
  unfold loop_closed_form, emit. cbn [trace].
  set (limit := effective_max_pages max_pages config_max_pages).
  set (n := good_run fetch (limit + 1 - 1) 1).
  rewrite request_events_app, requests_app, requests_pages_events.
  rewrite request_events_pages_events.
  destruct (Nat.leb (1 + n) limit).
  - rewrite trace_stop_outcome, request_for_is_request, requests_of_request.
    rewrite <- Hshape. replace (n + 1) with (S n) by lia.
    rewrite seq_S, List.map_app. reflexivity.
  - cbn [trace request_events requests List.filter length].
    rewrite app_nil_r, Nat.add_0_r. apply Hshape.
Qed.

(** ** What a run leaves in the statistics *)

Lemma stats_of_update_present (key : string) (f : InstanceStats -> InstanceStats)
      (st : Stats) :
  is_Some (instance_stats st !! key) ->
  stats_of key (update_instance key f st) = f (stats_of key st).
Proof. intros [s Hs]. rewrite stats_of_update. unfold stats_of. now rewrite Hs. Qed.

Lemma has_entry_update (key : string) (f : InstanceStats -> InstanceStats) (st : Stats) :
  is_Some (instance_stats st !! key) ->
  is_Some (instance_stats (update_instance key f st) !! key).
Proof. intros [s Hs]. rewrite lookup_update, Hs. now eexists. Qed.

Section PagerCounterFacts.

Variable instance : SearxngInstanceConfig.t.
Variable fetch : nat -> reply.
Variable query : SearchQuery.t.
Variable max_pages : nat.

Let key := instance_key instance.

Lemma page_ok_answered (page : nat) :
  page_ok fetch page = true ->
  answered_200 fetch page = true /\ page_errors fetch page = false.
Proof.
  unfold page_ok, answered_200, page_errors.
  destruct (fetch page) as [status html rt|e]; [|discriminate].
  intros [-> _]%andb_true_iff. now split.
Qed.

Lemma stats_of_after_page (page : nat) (st : Stats) :
  is_Some (instance_stats st !! key) ->
  page_ok fetch page = true ->
  results (stats_of key (after_page instance fetch page st))
  = results (stats_of key st) + length (parsed fetch page)
  /\ queries (stats_of key (after_page instance fetch page st))
     = queries (stats_of key st) + 1.
Proof.
  intros Hs. unfold page_ok, after_page, parsed.
  destruct (fetch page) as [status html rt|e]; [|discriminate]. intros _.
  cbv zeta. fold key.
  rewrite stats_of_update_present.
  2: { change (instance_stats (add_total_results ?n ?x)) with (instance_stats x).
       now apply has_entry_update. }
  rewrite stats_of_add_total_results, stats_of_update_present by assumption.
  split; reflexivity.
Qed.

Lemma total_results_after_page (page : nat) (st : Stats) :
  total_results (after_page instance fetch page st)
  = total_results st + length (parsed fetch page).
Proof.
  unfold after_page, parsed.
  destruct (fetch page) as [status html rt|e]; cbn; lia.
Qed.

Lemma counters_after_pages (n first : nat) (st : Stats) :
  is_Some (instance_stats st !! key) ->
  (forall p, first <= p < first + n -> page_ok fetch p = true) ->
  results (stats_of key (after_pages instance fetch first n st))
  = results (stats_of key st) + length (flat_map (parsed fetch) (seq first n))
  /\ queries (stats_of key (after_pages instance fetch first n st))
     = queries (stats_of key st) + n
  /\ total_results (after_pages instance fetch first n st)
     = total_results st + length (flat_map (parsed fetch) (seq first n)).
Proof.
  revert first st. induction n as [|n IH]; intros first st Hs Hok.
  - cbn. repeat split; lia.
  - cbn [after_pages seq flat_map]. rewrite length_app.
    destruct (IH (S first) (after_page instance fetch first st)) as (Hr & Hq & Ht).
    { now apply has_entry_after_page. }
    { intros p Hp. apply Hok. lia. }
    destruct (stats_of_after_page first st Hs) as [Hr1 Hq1]; [apply Hok; lia|].
    rewrite Hr, Hq, Ht, Hr1, Hq1, total_results_after_page. repeat split; lia.
Qed.

Lemma counters_stop_outcome (page : nat) (st : Stats) :
  is_Some (instance_stats st !! key) ->
  let o := stop_outcome instance fetch query page st in
  results (stats_of key (stats o)) = results (stats_of key st)
  /\ total_results (stats o) = total_results st
  /\ queries (stats_of key (stats o))
     = queries (stats_of key st) + (if answered_200 fetch page then 1 else 0)
  /\ errors (stats_of key (stats o))
     = errors (stats_of key st) + (if page_errors fetch page then 1 else 0).
Proof.
  intros Hs. cbv zeta. unfold stop_outcome, answered_200, page_errors. fold key.
  destruct (fetch page) as [status html rt|e].
  - destruct (Nat.eqb status 200); cbn [negb stats];
      rewrite stats_of_update_present by assumption; cbn; repeat split; lia.
  - destruct (is_Exception e); cbn [stats].
    + rewrite stats_of_update_present by assumption. cbn. repeat split; lia.
    + repeat split; lia.
Qed.

Lemma filter_seq_all (f : nat -> bool) (first n : nat) :
  (forall p, first <= p < first + n -> f p = true) ->
  List.filter f (seq first n) = seq first n.
Proof.
  revert first. induction n as [|n IH]; intros first H; [reflexivity|].
  cbn [seq List.filter]. rewrite H by lia. f_equal. apply IH. intros p Hp. apply H. lia.
Qed.

Lemma filter_seq_none (f : nat -> bool) (first n : nat) :
  (forall p, first <= p < first + n -> f p = false) ->
  List.filter f (seq first n) = [].
Proof.
  revert first. induction n as [|n IH]; intros first H; [reflexivity|].
  cbn [seq List.filter]. rewrite H by lia. apply IH. intros p Hp. apply H. lia.
Qed.

End PagerCounterFacts.

(** The counters of a run, read off its closed form. *)
Lemma run_counters config_max_pages instance fetch query max_pages st :
  let o := search_instance config_max_pages instance fetch query max_pages st in
  let key := instance_key instance in
  let pages := seq 1 (requests (trace o)) in
  results (stats_of key (stats o)) = results (stats_of key st) + length (yields (trace o))
  /\ total_results (stats o) = total_results st + length (yields (trace o))
  /\ queries (stats_of key (stats o))
     = queries (stats_of key st) + length (List.filter (answered_200 fetch) pages)
  /\ errors (stats_of key (stats o))
     = errors (stats_of key st) + length (List.filter (page_errors fetch) pages)
  /\ length (List.filter (page_errors fetch) pages) <= 1.
Proof.
  cbv zeta. destruct (SearxngInstanceConfig.is_active instance) eqn:Hact.
  2: { unfold search_instance. rewrite Hact. cbn. repeat split; lia. }
  rewrite search_instance_closed_form by assumption.
  unfold loop_closed_form, emit. cbn [trace stats].
  set (limit := effective_max_pages max_pages config_max_pages).
  set (n := good_run fetch (limit + 1 - 1) 1).
  set (st0 := start_stats (instance_key instance) st).
  assert (Hok : forall p, 1 <= p < 1 + n -> page_ok fetch p = true).
  { intros p Hp. exact (good_run_ok fetch _ 1 p Hp). }
  assert (Hs0 : is_Some (instance_stats st0 !! instance_key instance))
    by apply start_stats_has_entry.
  destruct (counters_after_pages instance fetch n 1 st0 Hs0 Hok) as (Hr & Hq & Ht).
  unfold st0 in Hr, Hq. rewrite stats_of_start_stats in Hr, Hq. fold st0 in Hr, Hq.
  assert (Ht0 : total_results st0 = total_results st).
  { unfold st0, start_stats. now destruct (instance_stats st !! instance_key instance). }
  assert (He : errors (stats_of (instance_key instance)
                         (after_pages instance fetch 1 n st0))
               = errors (stats_of (instance_key instance) st)).
  { unfold st0. now rewrite errors_after_pages, stats_of_start_stats. }
  assert (H200 : List.filter (answered_200 fetch) (seq 1 n) = seq 1 n).
  { apply filter_seq_all. intros p Hp. now apply page_ok_answered, Hok. }
  assert (Herr : List.filter (page_errors fetch) (seq 1 n) = []).
  { apply filter_seq_none. intros p Hp. now apply page_ok_answered, Hok. }
  rewrite yields_app, requests_app, yields_pages_events, requests_pages_events, length_app.
  destruct (Nat.leb (1 + n) limit).
  - rewrite trace_stop_outcome, yields_of_request, requests_of_request.
    destruct (counters_stop_outcome instance fetch query (1 + n)
                (after_pages instance fetch 1 n st0))
      as (Hr' & Ht' & Hq' & He').
    { now apply has_entry_after_pages. }
    rewrite Hr', Ht', Hq', He', Hr, Hq, Ht, He, Ht0.
    replace (n + 1) with (S n) by lia.
    rewrite seq_S, !List.filter_app, H200, Herr, !length_app, length_seq.
    cbn [List.filter app length].
    destruct (answered_200 fetch (1 + n)), (page_errors fetch (1 + n));
      cbn [length]; repeat split; lia.
  - change (trace {| trace := []; stats := after_pages instance fetch 1 n st0;
                     raised := None |}) with (@nil event).
    change (yields []) with (@nil SearchResult.t). change (requests []) with 0.
    cbn [stats length].
    rewrite !Nat.add_0_r, Hr, Hq, Ht, He, Ht0, H200, Herr, length_seq.
    cbn [length]. repeat split; lia.
Qed.


(** X4.  In every run the query counter of the instance grows by the
    number of requested pages that were answered with status 200 (with
    or without results), and the error counter by the number of
    requested pages that came back with another status or raised an
    exception deriving from [Exception]; that number is 0 or 1. *)
Theorem pager_query_and_error_counters
    config_max_pages instance fetch query max_pages st :
  let o := search_instance config_max_pages instance fetch query max_pages st in
  let key := instance_key instance in
  let pages := seq 1 (requests (trace o)) in
  queries (stats_of key (stats o))
  = queries (stats_of key st) + length (List.filter (answered_200 fetch) pages)
  /\ errors (stats_of key (stats o))
     = errors (stats_of key st) + length (List.filter (page_errors fetch) pages)
  /\ length (List.filter (page_errors fetch) pages) <= 1.
Proof.
  cbv zeta.
  destruct (run_counters config_max_pages instance fetch query max_pages st)
    as (_ & _ & Hq & He & Hle).
  repeat split; assumption.
Qed.

(** X5.  A page whose request raises, after any number of good pages: an
    exception that derives from [Exception] (a timeout, a lost
    connection) is swallowed and counted as one error; one that does not
    (a cancellation) is not counted and escapes to the caller.  Either
    way the earlier pages stay yielded and no further request is made. *)
Theorem pager_exception_kinds
    config_max_pages instance fetch query max_pages st k e :
  SearxngInstanceConfig.is_active instance = true ->
  1 <= k <= effective_max_pages max_pages config_max_pages ->
  (forall p, 1 <= p < k -> page_ok fetch p = true) ->
  fetch k = Failure e ->
  let o := search_instance config_max_pages instance fetch query max_pages st in
  let key := instance_key instance in
  yields (trace o) = flat_map (parsed fetch) (seq 1 (k - 1))
  /\ requests (trace o) = k
  /\ raised o = (if is_Exception e then None else Some e)
  /\ errors (stats_of key (stats o))
     = errors (stats_of key st) + (if is_Exception e then 1 else 0).
Proof.
  intros Hact Hk Hok Hfetch o key. subst o key.
  assert (Hnot : page_ok fetch k = false).
  { unfold page_ok. now rewrite Hfetch. }
  rewrite (search_instance_stops_at _ _ _ _ _ _ k _ Hact Hk Hok
             (turn_not_ok_stop _ _ _ _ _ _ Hnot)).
  unfold emit. cbn [trace stats raised].
  rewrite yields_app, requests_app, yields_pages_events, requests_pages_events.
  rewrite trace_stop_outcome, yields_of_request, requests_of_request, app_nil_r.
  split; [reflexivity|]. split; [lia|].
  unfold stop_outcome. rewrite Hfetch.
  destruct (is_Exception e); cbn [raised stats]; split; try reflexivity.
  - rewrite errors_count_error by apply has_entry_after_pages, start_stats_has_entry.
    now rewrite errors_after_pages, stats_of_start_stats.
  - rewrite errors_after_pages, stats_of_start_stats. lia.
Qed.

Lemma pager_exception_kinds_witness :
  (let o := search_instance 5 instance_A fetch_cancelled_on_page_2 sample_query (Some 3)
                            initial_stats in
   yields (trace o) = flat_map (parsed fetch_cancelled_on_page_2) (seq 1 (2 - 1))
   /\ requests (trace o) = 2
   /\ raised o = Some CancelledError
   /\ errors (stats_of (instance_key instance_A) (stats o)) = 0 + 0)
  /\ (let o := search_instance 5 instance_A fetch_connection_lost_on_page_2 sample_query
                               (Some 3) initial_stats in
      yields (trace o) = flat_map (parsed fetch_connection_lost_on_page_2) (seq 1 (2 - 1))
      /\ requests (trace o) = 2
      /\ raised o = None
      /\ errors (stats_of (instance_key instance_A) (stats o)) = 0 + 1).
Proof.
  split.
  - apply (pager_exception_kinds 5 instance_A fetch_cancelled_on_page_2 sample_query
             (Some 3) initial_stats 2 CancelledError).
    + reflexivity.
    + cbn. lia.
    + intros p Hp. assert (p = 1) as -> by lia. reflexivity.
    + reflexivity.
  - apply (pager_exception_kinds 5 instance_A fetch_connection_lost_on_page_2 sample_query
             (Some 3) initial_stats 2 ClientError).
    + reflexivity.
    + cbn. lia.
    + intros p Hp. assert (p = 1) as -> by lia. reflexivity.
    + reflexivity.
Defined.




(** ** What a run leaves alone *)

Lemma same_elsewhere_refl (key : string) (st : Stats) : same_elsewhere key st st.
Proof. repeat split. Qed.

Lemma same_elsewhere_trans (key : string) (a b c : Stats) :
  same_elsewhere key a b -> same_elsewhere key b c -> same_elsewhere key a c.
Proof.
  intros (H1 & H2 & H3 & H4) (H1' & H2' & H3' & H4').
  repeat split; congruence.
Qed.

Lemma same_elsewhere_update (key : string) (f : InstanceStats -> InstanceStats)
      (st : Stats) :
  same_elsewhere key st (update_instance key f st).
Proof.
  unfold same_elsewhere, update_instance, with_instance_stats. cbn.
  repeat split. apply delete_alter_eq.
Qed.

Lemma same_elsewhere_add_total_results (key : string) (n : nat) (st : Stats) :
  same_elsewhere key st (add_total_results n st).
Proof. repeat split. Qed.

Lemma dom_update (key : string) (f : InstanceStats -> InstanceStats) (st : Stats) :
  dom (instance_stats (update_instance key f st)) = dom (instance_stats st).
Proof. unfold update_instance, with_instance_stats. cbn. apply dom_alter_L. Qed.

Section PagerFrameFacts.

Variable instance : SearxngInstanceConfig.t.
Variable fetch : nat -> reply.
Variable query : SearchQuery.t.

Let key := instance_key instance.

Lemma frame_after_page (page : nat) (st : Stats) :
  same_elsewhere key st (after_page instance fetch page st)
  /\ dom (instance_stats (after_page instance fetch page st)) = dom (instance_stats st).
Proof.
  unfold after_page. fold key.
  destruct (fetch page) as [status html rt|e]; [|split; [apply same_elsewhere_refl|reflexivity]].
  cbv zeta. split.
  - eapply same_elsewhere_trans; [apply same_elsewhere_update|].
    eapply same_elsewhere_trans; [apply same_elsewhere_add_total_results|].
    apply same_elsewhere_update.
  - rewrite dom_update.
    change (instance_stats (add_total_results ?n ?x)) with (instance_stats x).
    apply dom_update.
Qed.

Lemma frame_after_pages (n first : nat) (st : Stats) :
  same_elsewhere key st (after_pages instance fetch first n st)
  /\ dom (instance_stats (after_pages instance fetch first n st)) = dom (instance_stats st).
Proof.
  revert first st. induction n as [|n IH]; intros first st.
  - split; [apply same_elsewhere_refl | reflexivity].
  - cbn [after_pages].
    destruct (IH (S first) (after_page instance fetch first st)) as [H1 H2].
    destruct (frame_after_page first st) as [H3 H4].
    split; [eapply same_elsewhere_trans; eassumption | congruence].
Qed.

Lemma frame_stop_outcome (page : nat) (st : Stats) :
  same_elsewhere key st (stats (stop_outcome instance fetch query page st))
  /\ dom (instance_stats (stats (stop_outcome instance fetch query page st)))
     = dom (instance_stats st).
Proof.
  unfold stop_outcome. fold key.
  destruct (fetch page) as [status html rt|e].
  - destruct (negb (Nat.eqb status 200)); cbn [stats];
      (split; [apply same_elsewhere_update | apply dom_update]).
  - destruct (is_Exception e); cbn [stats].
    + split; [apply same_elsewhere_update | apply dom_update].
    + split; [apply same_elsewhere_refl | reflexivity].
Qed.

Lemma frame_start_stats (st : Stats) :
  same_elsewhere key st (start_stats key st)
  /\ dom (instance_stats (start_stats key st)) = {[key]} ∪ dom (instance_stats st).
Proof.
  unfold start_stats. destruct (instance_stats st !! key) eqn:E.
  - split; [apply same_elsewhere_refl|].
    assert (Hin : key ∈ dom (instance_stats st)) by (apply elem_of_dom; eexists; exact E).
    symmetry. apply subseteq_union_1_L. now apply singleton_subseteq_l.
  - unfold same_elsewhere, with_instance_stats. cbn.
    split; [|apply dom_insert_L]. repeat split. apply delete_insert_eq.
Qed.

End PagerFrameFacts.

(** What a run does to the statistics outside the entry of its instance. *)
Lemma run_frame config_max_pages instance fetch query max_pages st :
  let o := search_instance config_max_pages instance fetch query max_pages st in
  let key := instance_key instance in
  same_elsewhere key st (stats o)
  /\ dom (instance_stats (stats o))
     = (if SearxngInstanceConfig.is_active instance
        then {[key]} ∪ dom (instance_stats st)
        else dom (instance_stats st)).
Proof.
  cbv zeta. destruct (SearxngInstanceConfig.is_active instance) eqn:Hact.
  2: { unfold search_instance. rewrite Hact. cbn. split; [apply same_elsewhere_refl|reflexivity]. }
  rewrite search_instance_closed_form by assumption.
  unfold loop_closed_form, emit. cbn [stats].
  set (limit := effective_max_pages max_pages config_max_pages).
  set (n := good_run fetch (limit + 1 - 1) 1).
  set (st0 := start_stats (instance_key instance) st).
  destruct (frame_start_stats instance st) as [Hs0 Hd0]. fold st0 in Hs0, Hd0.
  destruct (frame_after_pages instance fetch n 1 st0) as [Hs1 Hd1].
  assert (Hfinal :
    same_elsewhere (instance_key instance) st
      (stats (if Nat.leb (1 + n) limit
              then stop_outcome instance fetch query (1 + n)
                     (after_pages instance fetch 1 n st0)
              else {| trace := []; stats := after_pages instance fetch 1 n st0;
                      raised := None |}))
    /\ dom (instance_stats
              (stats (if Nat.leb (1 + n) limit
                      then stop_outcome instance fetch query (1 + n)
                             (after_pages instance fetch 1 n st0)
                      else {| trace := []; stats := after_pages instance fetch 1 n st0;
                              raised := None |})))
       = {[instance_key instance]} ∪ dom (instance_stats st)).
  { destruct (Nat.leb (1 + n) limit).
    - destruct (frame_stop_outcome instance fetch query (1 + n)
                  (after_pages instance fetch 1 n st0)) as [Hs2 Hd2].
      split; [|congruence].
      eapply same_elsewhere_trans; [exact Hs0|].
      eapply same_elsewhere_trans; [exact Hs1 | exact Hs2].
    - cbn [stats]. split; [|congruence].
      eapply same_elsewhere_trans; [exact Hs0 | exact Hs1]. }
  exact Hfinal.
Qed.

(** X7.  A run of the pager changes nothing in the statistics but the
    entry of its own instance and the total of results: the entries of
    all other instances, [total_queries], [successful_queries] and
    [failed_queries] are as before.  The run of an active instance leaves
    an entry for it; the run of an inactive one creates none. *)
Theorem pager_touches_only_its_entry
    config_max_pages instance fetch query max_pages st :
  let o := search_instance config_max_pages instance fetch query max_pages st in
  let key := instance_key instance in
  delete key (instance_stats (stats o)) = delete key (instance_stats st)
  /\ dom (instance_stats (stats o))
     = (if SearxngInstanceConfig.is_active instance
        then {[key]} ∪ dom (instance_stats st)
        else dom (instance_stats st))
  /\ total_queries (stats o) = total_queries st
  /\ successful_queries (stats o) = successful_queries st
  /\ failed_queries (stats o) = failed_queries st.
Proof.
  cbv zeta.
  destruct (run_frame config_max_pages instance fetch query max_pages st)
    as [(H1 & H2 & H3 & H4) Hd].
  repeat split; assumption.
Qed.

(** ** What the parser returns *)

Lemma truthy_nonempty (s : string) : PyStr.truthy s = true <-> s <> "".
Proof. destruct s; cbn; split; congruence. Qed.

(** Every result the parser builds comes out of the constructor, from a
    non-empty title and URL, with the domain of the URL and the answer of
    the scraper's file test. *)
Lemma parse_article_shape (position page_number : nat) (article : node)
      (r : SearchResult.t) :
  parse_article position page_number article = Some r ->
  exists title url description engines cached_url,
    PyStr.truthy title = true /\ PyStr.truthy url = true
    /\ r = SearchResult.new title url description (Url.domain_of url) engines cached_url
             position page_number
             (fst (_identify_file_type url title)) (snd (_identify_file_type url title)).
Proof.
  unfold parse_article.
  destruct (Soup.find (Soup.is_tag "h3") article) as [title_link|]; [|discriminate].
  destruct (Soup.find (Soup.is_tag "a") title_link) as [link_element|]; [|discriminate].
  cbv zeta.
  destruct (PyStr.truthy (Soup.get_text_strip link_element)) eqn:Ht; [|discriminate].
  destruct (PyStr.truthy (default "" (Soup.get "href" link_element))) eqn:Hu;
    [|discriminate].
  cbn [negb orb].
  destruct (_identify_file_type _ _) as [f k] eqn:E. intros [= <-].
  do 5 eexists. split; [exact Ht|]. split; [exact Hu|].
  rewrite E. reflexivity.
Qed.

Lemma new_plain_fields title url description domain engines cached_url position
      page_number is_file file_type :
  let r := SearchResult.new title url description domain engines cached_url
                            position page_number is_file file_type in
  SearchResult.title r = title /\ SearchResult.url r = url
  /\ SearchResult.description r = description /\ SearchResult.domain r = domain
  /\ SearchResult.engines r = engines /\ SearchResult.cached_url r = cached_url
  /\ SearchResult.position r = position /\ SearchResult.page_number r = page_number.
Proof.
  unfold SearchResult.new.
  destruct (if negb _ && _ then _ else _) as [f k]. repeat split.
Qed.

(** The classification of a constructed result depends on its title, its
    URL and the answer it was given, and on nothing else. *)
Lemma new_classification title url description domain engines cached_url position
      page_number is_file file_type :
  classification_of (SearchResult.new title url description domain engines cached_url
                                      position page_number is_file file_type)
  = classification_of (SearchResult.new title url "" "" [] None 0 1 is_file file_type).
Proof.
  unfold SearchResult.new.
  destruct (if negb _ && _ then _ else _) as [f k]. reflexivity.
Qed.

Lemma classify_unfold (url title : string) :
  classify url title
  = classification_of
      (SearchResult.new title url "" "" [] None 0 1
         (fst (_identify_file_type url title)) (snd (_identify_file_type url title))).
Proof. unfold classify. now destruct (_identify_file_type url title). Qed.

(** The classification of a parsed result is [classify] on its URL and
    title. *)
Lemma parse_article_classification (position page_number : nat) (article : node)
      (r : SearchResult.t) :
  parse_article position page_number article = Some r ->
  classification_of r = classify (SearchResult.url r) (SearchResult.title r)
  /\ PyStr.truthy (SearchResult.title r) = true
  /\ PyStr.truthy (SearchResult.url r) = true
  /\ SearchResult.position r = position
  /\ SearchResult.page_number r = page_number
  /\ SearchResult.domain r = Url.domain_of (SearchResult.url r).
Proof.
  intros H. destruct (parse_article_shape _ _ _ _ H)
    as (title & url & description & engines & cached_url & Ht & Hu & ->).
  destruct (new_plain_fields title url description (Url.domain_of url) engines cached_url
              position page_number
              (fst (_identify_file_type url title)) (snd (_identify_file_type url title)))
    as (-> & -> & _ & -> & _ & _ & -> & ->).
  rewrite new_classification, classify_unfold. repeat split; assumption.
Qed.

Section ParserInvariants.

Variable page_number : nat.
Variable P : SearchResult.t -> Prop.

(** What holds of every result a block can give holds of all the results
    of the loop. *)
Lemma parse_loop_Forall (articles : list node) (first : nat) :
  (forall i a r, first <= i < first + length articles ->
                 parse_article i page_number a = Some r -> P r) ->
  Forall P (parse_loop first page_number articles []).
Proof.
  revert first. induction articles as [|a rest IH]; intros first H; [constructor|].
  cbn [parse_loop].
  assert (Hrest : Forall P (parse_loop (S first) page_number rest [])).
  { apply IH. intros i a' r Hi. apply H. cbn [length]. lia. }
  destruct (parse_article first page_number a) as [r|] eqn:E; [|exact Hrest].
  rewrite parse_loop_acc. cbn [app]. constructor; [|exact Hrest].
  apply (H first a r); [cbn [length]; lia | exact E].
Qed.

End ParserInvariants.

Lemma parse_loop_length (page_number : nat) (articles : list node) (first : nat) :
  length (parse_loop first page_number articles []) <= length articles.
Proof.
  revert first. induction articles as [|a rest IH]; intros first; [reflexivity|].
  cbn [parse_loop length]. specialize (IH (S first)).
  destruct (parse_article first page_number a); [|lia].
  rewrite parse_loop_acc. cbn [app length]. lia.
Qed.

Lemma parse_loop_sorted (page_number : nat) (articles : list node) (first : nat) :
  StronglySorted lt
    (List.map SearchResult.position (parse_loop first page_number articles [])).
Proof.
  revert first. induction articles as [|a rest IH]; intros first; [constructor|].
  cbn [parse_loop].
  destruct (parse_article first page_number a) as [r|] eqn:E; [|apply IH].
  rewrite parse_loop_acc. cbn [app List.map]. constructor; [apply IH|].
  apply Forall_map.
  apply (parse_loop_Forall page_number
           (fun r' => SearchResult.position r < SearchResult.position r')).
  intros i a' r' Hi Hr'.
  destruct (parse_article_classification _ _ _ _ E) as (_ & _ & _ & -> & _).
  destruct (parse_article_classification _ _ _ _ Hr') as (_ & _ & _ & -> & _).
  lia.
Qed.

(** X8.  Every result of a parsed page has a non-empty title and a
    non-empty URL, carries the page number the parser was given and the
    authority of its URL as domain, and has a position between 1 and the
    number of result blocks of the page; the positions go strictly up, so
    no two results of a page share one; there are no more results than
    blocks. *)
Theorem parsed_results_are_well_formed (soup : node) (page_number : nat) :
  let articles := Soup.find_all is_result_article soup in
  let results := _parse_results soup page_number in
  Forall (fun r =>
            SearchResult.title r <> "" /\ SearchResult.url r <> ""
            /\ SearchResult.page_number r = page_number
            /\ SearchResult.domain r = Url.domain_of (SearchResult.url r)
            /\ 1 <= SearchResult.position r <= length articles) results
  /\ StronglySorted lt (List.map SearchResult.position results)
  /\ length results <= length articles.
Proof.
  cbv zeta. unfold _parse_results. split; [|split].
  - apply parse_loop_Forall. intros i a r Hi Hr.
    destruct (parse_article_classification _ _ _ _ Hr) as (_ & Ht & Hu & Hp & Hn & Hd).
    apply truthy_nonempty in Ht, Hu. repeat split; try assumption; lia.
  - apply parse_loop_sorted.
  - apply parse_loop_length.
Qed.

Lemma parse_results_page_number (soup : node) (page_number : nat) :
  Forall (fun r => SearchResult.page_number r = page_number)
         (_parse_results soup page_number).
Proof.
  unfold _parse_results. apply parse_loop_Forall. intros i a r _ Hr.
  now destruct (parse_article_classification _ _ _ _ Hr) as (_ & _ & _ & _ & Hn & _).
Qed.

Lemma parsed_page_number (fetch : nat -> reply) (page : nat) :
  Forall (fun r => SearchResult.page_number r = page) (parsed fetch page).
Proof.
  unfold parsed. destruct (fetch page) as [status html rt|e]; [|constructor].
  apply parse_results_page_number.
Qed.

Lemma constant_list_sorted (a : nat) (l : list nat) :
  Forall (fun x => x = a) l -> StronglySorted le l.
Proof.
  induction 1 as [|x l Hx Hl IH]; constructor; [exact IH|].
  subst x. eapply Forall_impl; [exact Hl|]. intros y ->. lia.
Qed.

Lemma pages_in_order (fetch : nat -> reply) (n first : nat) :
  StronglySorted le
    (List.map SearchResult.page_number (flat_map (parsed fetch) (seq first n)))
  /\ Forall (fun r => first <= SearchResult.page_number r < first + n)
            (flat_map (parsed fetch) (seq first n)).
Proof.
  revert first. induction n as [|n IH]; intros first.
  - split; constructor.
  - cbn [seq flat_map]. destruct (IH (S first)) as [Hs Hb].
    pose proof (parsed_page_number fetch first) as Hp.
    split.
    + rewrite List.map_app. apply StronglySorted_app_2.
      * intros x1 x2 H1 H2.
        apply list_elem_of_fmap in H1 as (r1 & -> & H1).
        apply list_elem_of_fmap in H2 as (r2 & -> & H2).
        rewrite Forall_forall in Hp, Hb.
        rewrite (Hp r1 H1). specialize (Hb r2 H2). lia.
      * apply (constant_list_sorted first). apply Forall_map.
        eapply Forall_impl; [exact Hp|]. now intros r ->.
      * exact Hs.
    + apply Forall_app. split.
      * eapply Forall_impl; [exact Hp|]. intros r ->. lia.
      * eapply Forall_impl; [exact Hb|]. intros r Hr. cbn beta in Hr. lia.
Qed.

(** X9.  The results of a run come out page by page: the page numbers of
    the yielded results never go down, and each lies between 1 and the
    number of requests made. *)
Theorem pager_yields_in_page_order
    config_max_pages instance fetch query max_pages st :
  let o := search_instance config_max_pages instance fetch query max_pages st in
  StronglySorted le (List.map SearchResult.page_number (yields (trace o)))
  /\ Forall (fun r => 1 <= SearchResult.page_number r <= requests (trace o))
            (yields (trace o)).
Proof.
  cbv zeta. destruct (SearxngInstanceConfig.is_active instance) eqn:Hact.
  2: { unfold search_instance. rewrite Hact. cbn. split; constructor. }
  rewrite search_instance_closed_form by assumption.
  unfold loop_closed_form, emit. cbn [trace].
  set (limit := effective_max_pages max_pages config_max_pages).
  set (n := good_run fetch (limit + 1 - 1) 1).
  rewrite yields_app, requests_app, yields_pages_events, requests_pages_events.
  destruct (pages_in_order fetch n 1) as [Hs Hb].
  assert (Hlast : yields (trace (if Nat.leb (1 + n) limit
                                 then stop_outcome instance fetch query (1 + n)
                                        (after_pages instance fetch 1 n
                                           (start_stats (instance_key instance) st))
                                 else {| trace := [];
                                         stats := after_pages instance fetch 1 n
                                                    (start_stats (instance_key instance) st);
                                         raised := None |})) = []).
  { destruct (Nat.leb (1 + n) limit); [|reflexivity].
    now rewrite trace_stop_outcome, yields_of_request. }
  rewrite Hlast, app_nil_r. split; [exact Hs|].
  eapply Forall_impl; [exact Hb|]. intros r Hr. cbn beta in Hr. lia.
Qed.

(** ** More on the classification *)

Lemma constructor_table_truthy (test : string -> bool) (kind : string) :
  SearchResult.first_extension SearchResult.file_extensions test = Some kind ->
  PyStr.truthy kind = true.
Proof.
  unfold SearchResult.file_extensions. cbn [SearchResult.first_extension].
  repeat (match goal with |- context [if ?b then _ else _] => destruct b end);
    intros [= <-]; reflexivity.
Qed.

Lemma classify_kind_matches_flag (url title : string) :
  kind_matches_flag (c_is_file (classify url title)) (c_file_kind (classify url title)).
Proof.
  pose proof (classify_cases url title) as Hc.
  assert (Hyes : forall k, PyStr.truthy k = true ->
            (c_is_file (classify url title), c_file_kind (classify url title))
            = (true, Some k) ->
            kind_matches_flag (c_is_file (classify url title))
                              (c_file_kind (classify url title))).
  { intros k Hk [= -> ->]. left. split; [reflexivity|].
    exists k. split; [reflexivity | now apply truthy_nonempty]. }
  assert (Hno : (c_is_file (classify url title), c_file_kind (classify url title))
                = (false, None) ->
                kind_matches_flag (c_is_file (classify url title))
                                  (c_file_kind (classify url title))).
  { intros [= -> ->]. now right. }
  destruct (url_extension url) as [k|] eqn:E1.
  { exact (Hyes k (scraper_extension_truthy _ _ E1) Hc). }
  destruct (cloud_kind url) as [k|] eqn:E2.
  { exact (Hyes k (google_kind_truthy _ _ E2) Hc). }
  destruct (has_title_indicator title).
  { exact (Hyes "unknown" eq_refl Hc). }
  destruct (PyStr.truthy url); [|exact (Hno Hc)].
  destruct (constructor_extension url title) as [k|] eqn:E3; [|exact (Hno Hc)].
  exact (Hyes k (constructor_table_truthy _ _ E3) Hc).
Qed.

(** X10.  The file flag and the file kind of a classification always
    agree: a file has a kind, which is never the empty string, and what
    is not a file has none.  This holds for every URL and title, and so
    for every result of the parser. *)
Theorem file_flag_matches_kind (url title : string) (soup : node) (page_number : nat) :
  kind_matches_flag (c_is_file (classify url title)) (c_file_kind (classify url title))
  /\ Forall (fun r => kind_matches_flag (SearchResult.is_file r) (SearchResult.file_type r))
            (_parse_results soup page_number).
Proof.
  split; [apply classify_kind_matches_flag|].
  unfold _parse_results. apply parse_loop_Forall. intros i a r _ Hr.
  destruct (parse_article_classification _ _ _ _ Hr) as (Hc & _).
  change (SearchResult.is_file r) with (c_is_file (classification_of r)).
  change (SearchResult.file_type r) with (c_file_kind (classification_of r)).
  rewrite Hc. apply classify_kind_matches_flag.
Qed.

Lemma contains_trans (a b s : string) :
  PyStr.contains a b = true -> PyStr.contains b s = true -> PyStr.contains a s = true.
Proof.
  intros Hab Hbs.
  destruct (PyStrFacts.contains_elim _ _ Hab) as (b1 & b2 & ->).
  destruct (PyStrFacts.contains_elim _ _ Hbs) as (s1 & s2 & ->).
  rewrite !UrlFacts.append_assoc, <- (UrlFacts.append_assoc s1 b1).
  apply PyStrFacts.contains_app.
Qed.

(** In the table of the constructor the entries [docx], [xlsx] and [pptx]
    come after [doc], [xls] and [ppt], whose tokens they contain: they
    are never reached. *)
Lemma constructor_extension_never_ooxml (url title : string) (kind : string) :
  constructor_extension url title = Some kind ->
  kind <> "DOCX" /\ kind <> "XLSX" /\ kind <> "PPTX".
Proof.
  unfold constructor_extension, SearchResult.file_extensions.
  set (test := fun tok => PyStr.contains tok (PyStr.lower url)
                          || PyStr.contains tok (PyStr.lower title)).
  assert (Hsub : forall short long,
            PyStr.contains short long = true -> test long = true -> test short = true).
  { intros short long Hsl. unfold test. intros [H|H]%orb_true_iff.
    - now rewrite (contains_trans _ _ _ Hsl H).
    - rewrite (contains_trans _ _ _ Hsl H). apply orb_true_r. }
  pose proof (Hsub ".doc" ".docx" eq_refl) as Hdoc.
  pose proof (Hsub ".xls" ".xlsx" eq_refl) as Hxls.
  pose proof (Hsub ".ppt" ".pptx" eq_refl) as Hppt.
  cbn [SearchResult.first_extension].
  change ("." +:+ "doc") with ".doc". change ("." +:+ "docx") with ".docx".
  change ("." +:+ "xls") with ".xls". change ("." +:+ "xlsx") with ".xlsx".
  change ("." +:+ "ppt") with ".ppt". change ("." +:+ "pptx") with ".pptx".
  destruct (test ".docx"); [rewrite (Hdoc eq_refl)|];
  destruct (test ".xlsx"); try rewrite (Hxls eq_refl);
  destruct (test ".pptx"); try rewrite (Hppt eq_refl);
  repeat (match goal with |- context [if ?b then _ else _] => destruct b end);
    intros [= <-]; repeat split; discriminate.
Qed.

Lemma scraper_kind_never_ooxml (test : string -> bool) (kind : string) :
  SearchResult.first_extension file_extensions test = Some kind ->
  kind <> "DOCX" /\ kind <> "XLSX" /\ kind <> "PPTX".
Proof.
  unfold file_extensions. cbn [SearchResult.first_extension].
  repeat (match goal with |- context [if ?b then _ else _] => destruct b end);
    intros [= <-]; repeat split; discriminate.
Qed.

Lemma google_kind_never_ooxml (url_lower kind : string) :
  google_kind url_lower = Some kind ->
  kind <> "DOCX" /\ kind <> "XLSX" /\ kind <> "PPTX".
Proof.
  unfold google_kind.
  repeat (match goal with |- context [if ?b then _ else _] => destruct b end);
    intros [= <-]; repeat split; discriminate.
Qed.

Lemma classify_never_ooxml (url title : string) (kind : string) :
  c_file_kind (classify url title) = Some kind ->
  kind <> "DOCX" /\ kind <> "XLSX" /\ kind <> "PPTX".
Proof.
  pose proof (classify_cases url title) as Hc. intros Hk. rewrite Hk in Hc.
  destruct (url_extension url) as [k|] eqn:E1.
  { injection Hc as _ ->. exact (scraper_kind_never_ooxml _ _ E1). }
  destruct (cloud_kind url) as [k|] eqn:E2.
  { injection Hc as _ ->. exact (google_kind_never_ooxml _ _ E2). }
  destruct (has_title_indicator title).
  { injection Hc as _ ->. repeat split; discriminate. }
  destruct (PyStr.truthy url); [|discriminate].
  destruct (constructor_extension url title) as [k|] eqn:E3; [|discriminate].
  injection Hc as _ ->. exact (constructor_extension_never_ooxml _ _ _ E3).
Qed.

(** X11.  No classification ever has the kind [DOCX], [XLSX] or [PPTX],
    although the table of the result record lists them: a [.docx] name
    is caught by the [.doc] entry before it (and likewise [.xlsx] by
    [.xls], [.pptx] by [.ppt]).  This holds for every URL and title, and so
    for every result of the parser. *)
Theorem ooxml_kinds_are_unreachable
    (url title : string) (soup : node) (page_number : nat) :
  (c_file_kind (classify url title) <> Some "DOCX"
   /\ c_file_kind (classify url title) <> Some "XLSX"
   /\ c_file_kind (classify url title) <> Some "PPTX")
  /\ Forall (fun r => SearchResult.file_type r <> Some "DOCX"
                      /\ SearchResult.file_type r <> Some "XLSX"
                      /\ SearchResult.file_type r <> Some "PPTX")
            (_parse_results soup page_number)
  /\ c_file_kind (classify "https://example.org/get?id=7" "report.docx") = Some "DOC".
Proof.
  assert (Hall : forall u t,
            c_file_kind (classify u t) <> Some "DOCX"
            /\ c_file_kind (classify u t) <> Some "XLSX"
            /\ c_file_kind (classify u t) <> Some "PPTX").
  { intros u t. repeat split; intros H;
      destruct (classify_never_ooxml _ _ _ H) as (H1 & H2 & H3); congruence. }
  split; [apply Hall|]. split; [|reflexivity].
  unfold _parse_results. apply parse_loop_Forall. intros i a r _ Hr.
  destruct (parse_article_classification _ _ _ _ Hr) as (Hc & _).
  change (SearchResult.file_type r) with (c_file_kind (classification_of r)).
  rewrite Hc. apply Hall.
Qed.

Lemma classify_flags (url title : string) :
  c_is_cloud_doc (classify url title) = PyStr.contains "docs.google.com" url
  /\ c_is_cloud_drive (classify url title)
     = (PyStr.contains "drive.google.com" url || PyStr.contains "docs.google.com" url).
Proof.
  rewrite classify_unfold. unfold classification_of, c_is_cloud_doc, c_is_cloud_drive.
  apply new_flags.
Qed.

(** X12.  A link flagged as cloud drive (and so every link flagged as
    cloud document) is always classified as a file; when its URL holds no
    extension token, its kind is the cloud kind of the URL.  The converse
    fails: a host in upper case gives a file of kind [google_doc] without
    either flag. *)
Theorem cloud_flag_implies_file (url title : string) :
  c_is_cloud_drive (classify url title) = true ->
  c_is_file (classify url title) = true
  /\ (url_extension url = None ->
      cloud_kind url <> None /\ c_file_kind (classify url title) = cloud_kind url)
  /\ classify "https://DOCS.GOOGLE.COM/document/d/1" title
     = {| c_is_file := true; c_file_kind := Some "google_doc";
          c_is_cloud_doc := false; c_is_cloud_drive := false |}.
Proof.
  intros Hflag. destruct (classify_flags url title) as [_ Hdrive].
  rewrite Hdrive in Hflag.
  assert (Hcloud : cloud_kind url <> None).
  { unfold cloud_kind, google_kind.
    apply orb_true_iff in Hflag as [H|H];
      apply (PyStrFacts.contains_lower _ _ eq_refl) in H; rewrite H;
      repeat (match goal with |- context [if ?b then _ else _] => destruct b end);
      discriminate. }
  pose proof (classify_cases url title) as Hc.
  split; [|split].
  - destruct (url_extension url); [now injection Hc|].
    destruct (cloud_kind url); [now injection Hc | congruence].
  - intros Hext. rewrite Hext in Hc. split; [exact Hcloud|].
    destruct (cloud_kind url); [now injection Hc | congruence].
  - rewrite classify_unfold. reflexivity.
Qed.

Lemma cloud_flag_implies_file_witness :
  c_is_file (classify "https://drive.google.com/file/d/1/view" "Minutes") = true
  /\ (url_extension "https://drive.google.com/file/d/1/view" = None ->
      cloud_kind "https://drive.google.com/file/d/1/view" <> None
      /\ c_file_kind (classify "https://drive.google.com/file/d/1/view" "Minutes")
         = cloud_kind "https://drive.google.com/file/d/1/view")
  /\ classify "https://DOCS.GOOGLE.COM/document/d/1" "Minutes"
     = {| c_is_file := true; c_file_kind := Some "google_doc";
          c_is_cloud_doc := false; c_is_cloud_drive := false |}.
Proof.
  exact (cloud_flag_implies_file "https://drive.google.com/file/d/1/view" "Minutes"
                                 eq_refl).
Defined.

(** ** The domain of a result *)



(** ** The two shapes of a query *)

(** X14.  Every field of the form of a POST request is a parameter of the
    GET request with the same value; the form never carries the
    [categories] and [engines] filters, which travel with the GET request
    alone; and the [time_range] key is always there, with the empty
    string when no range is set. *)
Theorem form_fields_are_parameters (q : SearchQuery.t) :
  Forall (fun field => Soup.lookup_attr (fst field) (SearchQuery.to_params q)
                       = Some (snd field))
         (SearchQuery.to_form_data q)
  /\ Soup.lookup_attr "categories" (SearchQuery.to_form_data q) = None
  /\ Soup.lookup_attr "engines" (SearchQuery.to_form_data q) = None
  /\ Soup.lookup_attr "categories" (SearchQuery.to_params q)
     = match SearchQuery.categories q with
       | Some (c :: cs) => Some (PyStr.join "," (c :: cs))
       | _ => None
       end
  /\ Soup.lookup_attr "time_range" (SearchQuery.to_params q)
     = Some (default "" (SearchQuery.time_range q))
  /\ Soup.lookup_attr "time_range" (SearchQuery.to_form_data q)
     = Some (default "" (SearchQuery.time_range q)).
Proof.
  assert (Htr : (if SearchResult.truthy_opt (SearchQuery.time_range q)
                 then default "" (SearchQuery.time_range q) else "")
                = default "" (SearchQuery.time_range q)).
  { destruct (SearchQuery.time_range q) as [[|c s]|]; reflexivity. }
  unfold SearchQuery.to_params, SearchQuery.to_form_data. rewrite Htr.
  split; [repeat constructor|].
  split; [reflexivity|]. split; [reflexivity|]. split; [|split; reflexivity].
  cbn. destruct (SearchQuery.categories q) as [[|c cs]|]; cbn;
    destruct (SearchQuery.nonempty (SearchQuery.engines q)); reflexivity.
Qed.

(** ** Results through the endpoint of the API *)

Lemma constructor_identify_shape (url title : string) (doc drive : bool) :
  fst (SearchResult._identify_file_type url title doc drive)
  = match snd (SearchResult._identify_file_type url title doc drive) with
    | Some _ => true
    | None => false
    end.
Proof.
  unfold SearchResult._identify_file_type.
  destruct (SearchResult.first_extension _ _); [reflexivity|].
  destruct doc, drive,
    (PyStr.contains "/document/" url), (PyStr.contains "/spreadsheets/" url),
    (PyStr.contains "/presentation/" url), (PyStr.contains "/forms/" url);
    reflexivity.
Qed.

Lemma scraper_identify_shape (url title : string) :
  SearchResult.truthy_opt (snd (_identify_file_type url title)) = true ->
  fst (_identify_file_type url title) = true.
Proof.
  rewrite identify_file_type_cases.
  destruct (url_extension url); [reflexivity|].
  destruct (cloud_kind url); [reflexivity|].
  destruct (has_title_indicator title); [reflexivity | discriminate].
Qed.

(** Building a result again from its own fields, with the file flag read
    off the kind, gives the same result. *)
Lemma new_again title url description domain engines cached_url position page_number
      is_file file_type :
  (SearchResult.truthy_opt file_type = true -> is_file = true) ->
  PyStr.truthy url = true ->
  let r := SearchResult.new title url description domain engines cached_url
                            position page_number is_file file_type in
  SearchResult.new title url description domain engines cached_url position page_number
    (match SearchResult.file_type r with Some _ => true | None => false end)
    (SearchResult.file_type r)
  = r.
Proof.
  intros Hshape Hurl. unfold SearchResult.new. rewrite Hurl.
  destruct (SearchResult.truthy_opt file_type) eqn:Ek; cbn [negb andb].
  - rewrite (Hshape eq_refl). cbn [SearchResult.file_type]. rewrite Ek. cbn [negb andb].
    destruct file_type; [reflexivity | discriminate].
  - pose proof (constructor_identify_shape url title
                  (PyStr.contains "docs.google.com" url)
                  (PyStr.contains "drive.google.com" url
                   || PyStr.contains "docs.google.com" url)) as Hs.
    destruct (SearchResult._identify_file_type url title _ _) as [f2 k2].
    cbn [fst snd] in Hs. cbn [SearchResult.file_type].
    destruct (SearchResult.truthy_opt k2) eqn:Ek2; cbn [negb andb].
    + rewrite Hs. reflexivity.
    + pose proof (constructor_identify_shape url title
                    (PyStr.contains "docs.google.com" url)
                    (PyStr.contains "drive.google.com" url
                     || PyStr.contains "docs.google.com" url)) as Hs'.
      destruct (SearchResult._identify_file_type url title _ _) as [f3 k3].
      reflexivity.
Qed.

(** What holds of every result of the parser holds of every result a run
    yields. *)
Lemma yields_Forall (P : SearchResult.t -> Prop)
      config_max_pages instance fetch query max_pages st :
  (forall soup page_number, Forall P (_parse_results soup page_number)) ->
  Forall P (yields (trace (search_instance config_max_pages instance fetch query
                                           max_pages st))).
Proof.
  intros HP. destruct (SearxngInstanceConfig.is_active instance) eqn:Hact.
  2: { unfold search_instance. rewrite Hact. constructor. }
  rewrite search_instance_closed_form by assumption.
  unfold loop_closed_form, emit. cbn [trace].
  rewrite yields_app, yields_pages_events. apply Forall_app. split.
  - apply Forall_flat_map. apply Forall_forall. intros p _.
    unfold parsed. destruct (fetch p); [apply HP | constructor].
  - destruct (Nat.leb _ _); [|constructor].
    rewrite trace_stop_outcome, yields_of_request. constructor.
Qed.

Section ApiFacts.

Variable uuid4 : nat -> string.
Variable now : nat -> string.
Variable config_max_pages : nat.
Variable network : SearxngInstanceConfig.t -> nat -> reply.

(** A result of the parser, turned into a dictionary and built again. *)
Lemma rebuild_process_article (position page_number : nat) (article : node)
      (r : SearchResult.t) (call : nat) (instance_name : string) :
  parse_article position page_number article = Some r ->
  rebuild (process uuid4 now call instance_name r) = r.
Proof.
  intros Hr.
  destruct (parse_article_shape _ _ _ _ Hr)
    as (title & url & description & engines & cached_url & Ht & Hu & ->).
  unfold rebuild, process. cbn [ProcessedResult.title ProcessedResult.url
    ProcessedResult.description ProcessedResult.domain ProcessedResult.engines
    ProcessedResult.cached_url ProcessedResult.position ProcessedResult.page_number
    ProcessedResult.file_type].
  destruct (new_plain_fields title url description (Url.domain_of url) engines cached_url
              position page_number
              (fst (_identify_file_type url title)) (snd (_identify_file_type url title)))
    as (-> & -> & -> & -> & -> & -> & -> & ->).
  replace (if PyStr.truthy description then description else "") with description
    by now destruct description.
  apply new_again; [apply scraper_identify_shape | exact Hu].
Qed.

Lemma rebuild_process_parsed (soup : node) (page_number : nat) :
  Forall (fun r => forall call instance_name,
              rebuild (process uuid4 now call instance_name r) = r)
         (_parse_results soup page_number).
Proof.
  unfold _parse_results. apply parse_loop_Forall. intros i a r _ Hr call instance_name.
  exact (rebuild_process_article i page_number a r call instance_name Hr).
Qed.

(** X15.  A result of the parser that the endpoint turns into a
    dictionary and then builds again for storing comes out unchanged:
    nothing is lost on the way, although the dictionary has no file
    flag. *)
Theorem stored_result_is_the_result (soup : node) (page_number : nat) :
  Forall (fun r => forall call instance_name,
              rebuild (process uuid4 now call instance_name r) = r)
         (_parse_results soup page_number).
Proof.
  unfold _parse_results. apply parse_loop_Forall. intros i a r _ Hr call instance_name.
  eapply rebuild_process_article. exact Hr.
Qed.

End ApiFacts.

(** The trace of a run and the exception that escapes it do not depend on
    the statistics the run starts from. *)
Lemma run_independent_of_stats config_max_pages instance fetch query max_pages st st' :
  trace (search_instance config_max_pages instance fetch query max_pages st)
  = trace (search_instance config_max_pages instance fetch query max_pages st')
  /\ raised (search_instance config_max_pages instance fetch query max_pages st)
     = raised (search_instance config_max_pages instance fetch query max_pages st').
Proof.
  destruct (SearxngInstanceConfig.is_active instance) eqn:Hact.
  2: { unfold search_instance. rewrite Hact. now split. }
  rewrite !search_instance_closed_form by assumption.
  unfold loop_closed_form, emit. cbn [trace raised].
  destruct (Nat.leb _ _); [|now split].
  rewrite !trace_stop_outcome. split; [reflexivity|].
  unfold stop_outcome. destruct (fetch _) as [status html rt|e].
  - now destruct (negb (Nat.eqb status 200)).
  - now destruct (is_Exception e).
Qed.

(** An exception that escapes a run was raised by the request of a page
    and does not derive from [Exception]. *)
Lemma raised_escapes config_max_pages instance fetch query max_pages st e :
  raised (search_instance config_max_pages instance fetch query max_pages st) = Some e ->
  is_Exception e = false /\ exists page, fetch page = Failure e.
Proof.
  destruct (SearxngInstanceConfig.is_active instance) eqn:Hact.
  2: { unfold search_instance. rewrite Hact. discriminate. }
  rewrite search_instance_closed_form by assumption.
  unfold loop_closed_form, emit. cbn [raised].
  destruct (Nat.leb _ _); [|discriminate].
  unfold stop_outcome. destruct (fetch _) as [status html rt|e'] eqn:Hfetch.
  - destruct (negb (Nat.eqb status 200)); discriminate.
  - destruct (is_Exception e') eqn:He; [discriminate|].
    cbn [raised]. intros [= <-]. split; [exact He | eauto].
Qed.

Section ApiLoopFacts.

Variable uuid4 : nat -> string.
Variable now : nat -> string.
Variable config_max_pages : nat.
Variable network : SearxngInstanceConfig.t -> nat -> reply.
Variable search_query : SearchQuery.t.
Variable max_pages : nat.

(** The run of one instance on its own, from fresh statistics. *)
Let own (instance_data : InstanceData.t) : Outcome :=
  search_instance config_max_pages (instance_config instance_data)
                  (network (instance_config instance_data)) search_query
                  (Some max_pages) initial_stats.

Lemma append_processed_view (instance_name : string) (rs : list SearchResult.t)
      (all_results : list ProcessedResult.t) :
  Forall (fun r => forall call name, rebuild (process uuid4 now call name r) = r) rs ->
  List.map stored_view (append_processed uuid4 now instance_name rs all_results)
  = List.map stored_view all_results ++ List.map (fun r => (instance_name, r)) rs.
Proof.
  revert all_results. induction rs as [|r rs IH]; intros all_results Hrs.
  - cbn. now rewrite app_nil_r.
  - apply Forall_cons in Hrs as [Hr Hrs]. cbn [append_processed List.map].
    rewrite IH by assumption. rewrite List.map_app. cbn [List.map].
    unfold stored_view at 2. rewrite Hr. cbn [process ProcessedResult.instance].
    now rewrite <- app_assoc.
Qed.

Lemma append_processed_length (instance_name : string) (rs : list SearchResult.t)
      (all_results : list ProcessedResult.t) :
  length (append_processed uuid4 now instance_name rs all_results)
  = length all_results + length rs.
Proof.
  revert all_results. induction rs as [|r rs IH]; intros all_results; cbn; [lia|].
  rewrite IH, length_app. cbn. lia.
Qed.

(** What the run of one instance adds to the list and to the statistics. *)
Lemma search_one_adds (d : InstanceData.t) (all_results : list ProcessedResult.t)
      (st : Stats) :
  let o := search_instance config_max_pages (instance_config d)
                           (network (instance_config d)) search_query (Some max_pages) st in
  let all_results' := append_processed uuid4 now
                        (SearxngInstanceConfig.name (instance_config d))
                        (yields (trace o)) all_results in
  raised o = raised (own d)
  /\ List.map stored_view all_results'
     = List.map stored_view all_results
       ++ List.map (fun r => (InstanceData.name d, r)) (yields (trace (own d)))
  /\ length all_results' = length all_results + length (yields (trace (own d)))
  /\ total_results (stats o) = total_results st + length (yields (trace (own d)))
  /\ total_queries (stats o) = total_queries st.
Proof.
  intros o all_results'.
  destruct (run_independent_of_stats config_max_pages (instance_config d)
              (network (instance_config d)) search_query (Some max_pages)
              st initial_stats) as [Htr Hra].
  fold o in Htr, Hra. fold (own d) in Htr, Hra.
  split; [exact Hra|]. subst all_results'.
  rewrite append_processed_length, Htr. rewrite append_processed_view.
  2: { rewrite <- Htr. apply yields_Forall. intros soup pn.
       apply rebuild_process_parsed. }
  destruct (run_counters config_max_pages (instance_config d)
              (network (instance_config d)) search_query (Some max_pages) st)
    as (_ & Htot1 & _).
  destruct (run_frame config_max_pages (instance_config d)
              (network (instance_config d)) search_query (Some max_pages) st)
    as [(_ & Htq1 & _) _].
  cbv zeta in Htot1, Htq1. fold o in Htot1, Htq1. rewrite Htot1, Htq1, Htr.
  repeat split; reflexivity.
Qed.

(** The loop over the instances, as long as no run is cancelled: it goes
    on with the rest of the instances, the results of the runs appended
    in the order of the instances. *)
Lemma search_each_prefix (pre rest : list InstanceData.t)
      (all_results : list ProcessedResult.t) (st : Stats) :
  Forall (fun d => raised (own d) = None) pre ->
  exists all_results' st',
    search_each uuid4 now config_max_pages network (pre ++ rest) search_query max_pages
                all_results st
    = search_each uuid4 now config_max_pages network rest search_query max_pages
                  all_results' st'
    /\ List.map stored_view all_results'
       = List.map stored_view all_results
         ++ flat_map (fun d => List.map (fun r => (InstanceData.name d, r))
                                        (yields (trace (own d))))
                     pre
    /\ length all_results'
       = length all_results + length (flat_map (fun d => yields (trace (own d))) pre)
    /\ total_results st'
       = total_results st + length (flat_map (fun d => yields (trace (own d))) pre)
    /\ total_queries st' = total_queries st.
Proof.
  revert all_results st.
  induction pre as [|d pre IH]; intros all_results st Hraise.
  - exists all_results, st. cbn. rewrite app_nil_r. repeat split; lia.
  - apply Forall_cons in Hraise as [Hd Hpre].
    cbn [app search_each flat_map].
    destruct (search_one_adds d all_results st) as (Hra & Hview1 & Hlen1 & Htot1 & Htq1).
    cbv zeta in Hra, Hview1, Hlen1, Htot1, Htq1.
    rewrite Hra, Hd.
    set (o := search_instance config_max_pages (instance_config d)
                (network (instance_config d)) search_query (Some max_pages) st) in *.
    destruct (IH (append_processed uuid4 now
                    (SearxngInstanceConfig.name (instance_config d))
                    (yields (trace o)) all_results) (stats o) Hpre)
      as (all' & st' & Heq & Hview & Hlen & Htot & Htq).
    exists all', st'. rewrite Heq. split; [reflexivity|].
    rewrite Hview, Hlen, Htot, Htq, Hview1, Hlen1, Htot1, Htq1.
    rewrite !length_app, <- !app_assoc. repeat split; lia.
Qed.

End ApiLoopFacts.

Section ApiEndpointFacts.

Variable uuid4 : nat -> string.
Variable now : nat -> string.
Variable config_max_pages : nat.
Variable network : SearxngInstanceConfig.t -> nat -> reply.

(** X16.  When no request is cancelled, the endpoint answers [completed]
    with the results of all chosen instances, instance after instance in
    the order of the list and, per instance, in the order its run yields
    them; each entry names its instance and stands for the very result
    that was yielded.  The run-wide total of results grows by the number
    of entries; [total_queries] is not counted up on this path. *)
Theorem endpoint_merges_the_runs
    (db_instances : option (list InstanceData.t)) (instances : list InstanceData.t)
    (search_request : SearchRequest) (st : Stats) :
  select_instances db_instances instances (rq_instance_ids search_request) <> [] ->
  Forall (fun d => forall page e,
              network (instance_config d) page = Failure e -> is_Exception e = true)
         (select_instances db_instances instances (rq_instance_ids search_request)) ->
  let active_instances :=
    select_instances db_instances instances (rq_instance_ids search_request) in
  let own := own_run config_max_pages network search_request in
  let o := api_search uuid4 now config_max_pages network db_instances instances
                      search_request st in
  exists resp,
    response o = Some resp
    /\ api_raised o = None
    /\ status resp = "completed"
    /\ List.map stored_view (response_results resp)
       = flat_map (fun d => List.map (fun r => (InstanceData.name d, r))
                                     (yields (trace (own d))))
                  active_instances
    /\ total_results (api_stats o) = total_results st + length (response_results resp)
    /\ total_queries (api_stats o) = total_queries st.
Proof.
  intros Hne Hnet. cbv zeta. unfold api_search.
  set (active_instances :=
         select_instances db_instances instances (rq_instance_ids search_request)) in *.
  clearbody active_instances.
  set (own := own_run config_max_pages network search_request).
  assert (Forall (fun d => raised (own d) = None) active_instances) as Hraise.
  { eapply Forall_impl; [exact Hnet|]. intros d Hd. cbv beta in Hd.
    destruct (raised (own d)) as [e|] eqn:He; [|reflexivity].
    apply raised_escapes in He as [Hno [page Hpage]].
    apply Hd in Hpage. congruence. }
  destruct (search_each_prefix uuid4 now config_max_pages network
              (search_query_of search_request) (rq_max_pages search_request)
              active_instances [] [] st Hraise)
    as (all' & st' & Heq & Hview & Hlen & Htot & Htq).
  rewrite app_nil_r in Heq. cbn [search_each] in Heq.
  destruct active_instances as [|d rest] eqn:Hact; [congruence|].
  rewrite Heq. eexists. cbn [response]. split; [reflexivity|].
  cbn [api_raised api_stats status response_results].
  split; [reflexivity|]. split; [reflexivity|].
  cbn [List.map app] in Hview. split; [exact Hview|].
  cbn [length] in Hlen. split; [|exact Htq].
  rewrite Htot, Hlen. reflexivity.
Qed.

(** X17.  A cancellation in the run of one instance is not held back by
    the endpoint: the call ends with that exception and without a
    response, the instances later in the list are not searched, and the
    results counted so far (those of the earlier instances and of the
    cancelled run itself) stay counted. *)
Theorem endpoint_cancellation_escapes
    (db_instances : option (list InstanceData.t)) (instances : list InstanceData.t)
    (search_request : SearchRequest) (st : Stats)
    (pre post : list InstanceData.t) (d : InstanceData.t) (e : py_exception) :
  select_instances db_instances instances (rq_instance_ids search_request)
  = pre ++ d :: post ->
  Forall (fun d' => raised (own_run config_max_pages network search_request d') = None)
         pre ->
  raised (own_run config_max_pages network search_request d) = Some e ->
  let own := own_run config_max_pages network search_request in
  let o := api_search uuid4 now config_max_pages network db_instances instances
                      search_request st in
  response o = None
  /\ api_raised o = Some e
  /\ is_Exception e = false
  /\ total_results (api_stats o)
     = total_results st
       + length (flat_map (fun d' => yields (trace (own d'))) (pre ++ [d])).
Proof.
  intros Hsel Hpre Hd. cbv zeta.
  destruct (raised_escapes _ _ _ _ _ _ _ Hd) as [Hno _].
  unfold own_run in *.
  destruct (search_each_prefix uuid4 now config_max_pages network
              (search_query_of search_request) (rq_max_pages search_request)
              pre (d :: post) [] st Hpre)
    as (all' & st' & Heq & _ & _ & Htot & _).
  destruct (search_one_adds uuid4 now config_max_pages network
              (search_query_of search_request) (rq_max_pages search_request)
              d all' st') as (Hra & _ & _ & Htot1 & _).
  cbv zeta beta in Hra, Htot1. rewrite Hd in Hra.
  cbn [search_each] in Heq. rewrite Hra, Hno in Heq.
  unfold api_search. rewrite Hsel.
  destruct (pre ++ d :: post) as [|d0 rest] eqn:Hact.
  { now destruct pre. }
  rewrite Heq. cbn [response api_raised api_stats].
  split; [reflexivity|]. split; [reflexivity|]. split; [exact Hno|].
  rewrite Htot1, Htot, flat_map_app, length_app. cbn [flat_map].
  rewrite app_nil_r. lia.
Qed.

End ApiEndpointFacts.

Lemma endpoint_merges_the_runs_witness :
  let active_instances := select_instances None [instance_data_A; instance_data_B] None in
  let own := own_run 5 sample_network sample_request in
  let o := api_search sample_uuid4 sample_now 5 sample_network None
                      [instance_data_A; instance_data_B] sample_request initial_stats in
  exists resp,
    response o = Some resp
    /\ api_raised o = None
    /\ status resp = "completed"
    /\ List.map stored_view (response_results resp)
       = flat_map (fun d => List.map (fun r => (InstanceData.name d, r))
                                     (yields (trace (own d))))
                  active_instances
    /\ total_results (api_stats o)
       = total_results initial_stats + length (response_results resp)
    /\ total_queries (api_stats o) = total_queries initial_stats.
Proof.
  apply (endpoint_merges_the_runs sample_uuid4 sample_now 5 sample_network None
           [instance_data_A; instance_data_B] sample_request initial_stats).
  - discriminate.
  - repeat constructor; intros [|[|[|page]]] e; discriminate.
Defined.

Lemma endpoint_cancellation_escapes_witness :
  let own := own_run 5 cancelling_network sample_request in
  let o := api_search sample_uuid4 sample_now 5 cancelling_network None
                      [instance_data_A; instance_data_B] sample_request initial_stats in
  response o = None
  /\ api_raised o = Some CancelledError
  /\ is_Exception CancelledError = false
  /\ total_results (api_stats o)
     = total_results initial_stats
       + length (flat_map (fun d' => yields (trace (own d')))
                          ([instance_data_A] ++ [instance_data_B])).
Proof.
  apply (endpoint_cancellation_escapes sample_uuid4 sample_now 5 cancelling_network None
           [instance_data_A; instance_data_B] sample_request initial_stats
           [instance_data_A] [] instance_data_B CancelledError).
  - reflexivity.
  - constructor; [vm_compute; reflexivity | constructor].
  - vm_compute. reflexivity.
Defined.

(** ** Storing the results *)

Lemma batch_size_pos : 1 <= batch_size.
Proof. unfold batch_size. lia. Qed.

Lemma chunks_nonempty {A : Type} (fuel : nat) (l : list A) :
  chunks fuel l <> [] -> l <> [].
Proof. destruct fuel; destruct l; cbn [chunks]; congruence. Qed.

(** The slices of the loop are the batches taken off the front, one after
    the other. *)
Lemma range_from_chunks {A : Type} (data : list A) (fuel i : nat) :
  List.map (fun j => slice data j (j + batch_size))
           (range_from fuel i (length data) batch_size)
  = chunks fuel (skipn i data).
Proof.
  revert i. induction fuel as [|fuel IH]; intros i; [reflexivity|].
  cbn [range_from chunks]. destruct (Nat.ltb i (length data)) eqn:E.
  - apply Nat.ltb_lt in E. cbn [List.map]. rewrite IH.
    unfold slice. replace (i + batch_size - i) with batch_size by lia.
    rewrite <- drop_drop.
    destruct (skipn i data) as [|a rest] eqn:Hs; [|reflexivity].
    apply (f_equal (@length A)) in Hs. rewrite length_drop in Hs. cbn in Hs. lia.
  - apply Nat.ltb_ge in E. now rewrite drop_ge.
Qed.

Lemma batches_chunks {A : Type} (data : list A) :
  batches data = chunks (length data) data.
Proof. unfold batches, range. now rewrite range_from_chunks. Qed.

Lemma concat_chunks {A : Type} (fuel : nat) (l : list A) :
  length l <= fuel -> concat (chunks fuel l) = l.
Proof.
  revert l. induction fuel as [|fuel IH]; intros l Hl.
  - destruct l; [reflexivity | cbn in Hl; lia].
  - cbn [chunks]. destruct l as [|a l']; [reflexivity|].
    cbn [concat]. rewrite IH; [apply take_drop|].
    rewrite length_drop. pose proof batch_size_pos. cbn [length] in *. lia.
Qed.

Lemma chunks_sizes {A : Type} (fuel : nat) (l : list A) :
  Forall (fun b => 1 <= length b <= batch_size) (chunks fuel l).
Proof.
  revert l. induction fuel as [|fuel IH]; intros l; [constructor|].
  cbn [chunks]. destruct l as [|a l']; constructor; [|apply IH].
  rewrite length_take. pose proof batch_size_pos. cbn [length]. lia.
Qed.

Lemma chunks_full {A : Type} (fuel : nat) (l : list A) :
  Forall (fun b => length b = batch_size) (removelast (chunks fuel l)).
Proof.
  revert l. induction fuel as [|fuel IH]; intros l; [constructor|].
  cbn [chunks]. destruct l as [|a l']; [constructor|].
  specialize (IH (skipn batch_size (a :: l'))).
  destruct (chunks fuel (skipn batch_size (a :: l'))) as [|b bs] eqn:Hc; [constructor|].
  change (removelast (firstn batch_size (a :: l') :: b :: bs))
    with (firstn batch_size (a :: l') :: removelast (b :: bs)).
  constructor; [|exact IH].
  assert (skipn batch_size (a :: l') <> []) as Hne.
  { apply (chunks_nonempty fuel). rewrite Hc. discriminate. }
  rewrite length_take.
  destruct (le_lt_dec (length (a :: l')) batch_size) as [Hle|Hlt]; [|lia].
  now apply drop_ge in Hle.
Qed.

Lemma length_chunks {A : Type} (fuel : nat) (l : list A) :
  length l <= fuel -> length (chunks fuel l) = (length l + 99) / 100.
Proof.
  revert l. induction fuel as [|fuel IH]; intros l Hl.
  - destruct l; [reflexivity | cbn in Hl; lia].
  - cbn [chunks]. destruct l as [|a l']; [reflexivity|].
    cbn [length]. rewrite IH by (rewrite length_drop; unfold batch_size; cbn [length] in *; lia).
    rewrite length_drop. unfold batch_size. cbn [length].
    set (n := length l') in *.
    destruct (le_lt_dec (S n) 100) as [Hle|Hlt].
    + replace (S n - 100) with 0 by lia.
      change ((0 + 99) / 100) with 0.
      apply (Nat.div_unique (S n + 99) 100 1 n); lia.
    + replace (S n + 99) with ((S n - 100 + 99) + 1 * 100) by lia.
      rewrite Nat.div_add by lia. lia.
Qed.

Lemma concat_take_chunks {A : Type} (k fuel : nat) (l : list A) :
  length l <= fuel ->
  concat (firstn k (chunks fuel l)) = firstn (batch_size * k) l.
Proof.
  revert fuel l. induction k as [|k IH]; intros fuel l Hl.
  - rewrite Nat.mul_0_r. reflexivity.
  - destruct fuel as [|fuel].
    + destruct l; [now rewrite take_nil | cbn in Hl; lia].
    + cbn [chunks]. destruct l as [|a l']; [now rewrite take_nil|].
      cbn [firstn concat]. rewrite IH.
      * rewrite take_take_drop. f_equal. lia.
      * rewrite length_drop. pose proof batch_size_pos. cbn [length] in *. lia.
Qed.

Lemma batches_concat_length {A : Type} (data : list A) :
  concat (batches data) = data /\ length (batches data) = (length data + 99) / 100.
Proof.
  rewrite batches_chunks. split; [now apply concat_chunks | now apply length_chunks].
Qed.

(** X18.  The batches of [store_search_results] cut the rows into pieces
    without losing, repeating or reordering any: put end to end they are
    the rows again.  No batch is empty, none has more than 100 rows, all
    but the last have exactly 100, and there are [ceil(n / 100)] of them
    for [n] rows (none for no row). *)
Theorem batches_partition_the_rows {A : Type} (data_to_insert : list A) :
  concat (batches data_to_insert) = data_to_insert
  /\ Forall (fun batch => 1 <= length batch <= 100) (batches data_to_insert)
  /\ Forall (fun batch => length batch = 100) (removelast (batches data_to_insert))
  /\ length (batches data_to_insert) = (length data_to_insert + 99) / 100.
Proof.
  rewrite batches_chunks. split; [now apply concat_chunks|].
  split; [apply chunks_sizes|]. split; [apply chunks_full|].
  now apply length_chunks.
Qed.

Section StoreFacts.

Variable insert : nat -> list ResultRow.t -> option py_exception.

(** The loop over the batches stops at the first insert that raises; the
    batches before it are in the table. *)
Lemma insert_each_spec (bs : list (list ResultRow.t)) (call : nat) (table : list ResultRow.t) :
  exists k,
    k <= length bs
    /\ (forall j, j < k -> insert (call + j) (nth j bs []) = None)
    /\ (fst (fst (insert_each insert bs call table)) = table ++ concat (firstn k bs))
    /\ match snd (insert_each insert bs call table) with
       | None => k = length bs /\ snd (fst (insert_each insert bs call table)) = call + k
       | Some e =>
           k < length bs /\ insert (call + k) (nth k bs []) = Some e
           /\ snd (fst (insert_each insert bs call table)) = S (call + k)
       end.
Proof.
  revert call table. induction bs as [|batch rest IH]; intros call table.
  - exists 0. cbn. rewrite app_nil_r. repeat split; try lia.
  - cbn [insert_each]. destruct (insert call batch) as [e|] eqn:Hins.
    + exists 0. cbn. rewrite app_nil_r, Nat.add_0_r.
      repeat split; try lia; try assumption.
    + destruct (IH (S call) (table ++ batch)) as (k & Hk & Hbefore & Htable & Hend).
      exists (S k). split; [cbn; lia|]. split.
      { intros [|j] Hj; [now rewrite Nat.add_0_r|].
        cbn [nth]. rewrite <- Nat.add_succ_comm. apply Hbefore. lia. }
      split; [rewrite Htable; cbn [firstn concat]; now rewrite app_assoc|].
      destruct (snd (insert_each insert rest (S call) (table ++ batch))) as [e|].
      * destruct Hend as (Hlt & Hfail & Hcalls). cbn [length nth].
        rewrite <- Nat.add_succ_comm. repeat split; try assumption; lia.
      * destruct Hend as (-> & Hcalls). cbn [length]. split; [reflexivity|]. lia.
Qed.

(** The three things [store_search_results] reads off the loop. *)
Lemma store_outcome (query_id : string) (results : list SearchResult.t)
      (table : list ResultRow.t) :
  let o := store_search_results insert query_id results table in
  let r := insert_each insert (batches (List.map (result_dict query_id) results)) 0 table in
  db_table o = fst (fst r) /\ db_calls o = snd (fst r)
  /\ db_returned o = match snd r with
                     | None => Some true
                     | Some e => if is_Exception e then Some false else None
                     end
  /\ db_raised o = match snd r with
                   | None => None
                   | Some e => if is_Exception e then None else Some e
                   end.
Proof.
  cbv zeta. unfold store_search_results.
  destruct (insert_each insert _ 0 table) as [[table' calls] [e|]]; cbn [fst snd].
  - destruct (is_Exception e); now repeat split.
  - now repeat split.
Qed.

(** X19.  [store_search_results] returns [True] exactly when every batch
    was inserted without an exception; the table then holds, after what
    it held, one row for each result, in the order of the results, and
    one insert was made for each batch.  Whatever happens, what is added
    to the table is the rows of the first batches: a run of whole batches
    from the front. *)
Theorem store_returns_true_when_all_stored (query_id : string)
    (results : list SearchResult.t) (table : list ResultRow.t) :
  let o := store_search_results insert query_id results table in
  let data_to_insert := List.map (result_dict query_id) results in
  (db_returned o = Some true
   <-> forall k, k < length (batches data_to_insert) ->
                 insert k (nth k (batches data_to_insert) []) = None)
  /\ (db_returned o = Some true ->
      db_table o = table ++ data_to_insert
      /\ db_calls o = (length results + 99) / 100
      /\ db_raised o = None)
  /\ exists k, k <= length (batches data_to_insert)
               /\ db_table o = table ++ firstn (100 * k) data_to_insert.
Proof.
  intros o data_to_insert.
  destruct (store_outcome query_id results table) as (Htable & Hcalls & Hret & Hraised).
  fold o data_to_insert in Htable, Hcalls, Hret, Hraised.
  destruct (insert_each_spec (batches data_to_insert) 0 table)
    as (k & Hk & Hbefore & Hfst & Hend).
  cbn [Nat.add] in Hbefore, Hend.
  rewrite <- Htable in Hfst. rewrite <- Hcalls in Hend.
  assert (concat (firstn k (batches data_to_insert)) = firstn (100 * k) data_to_insert)
    as Hprefix.
  { rewrite batches_chunks. now apply (concat_take_chunks k). }
  destruct (snd (insert_each insert (batches data_to_insert) 0 table)) as [e|].
  - destruct Hend as (Hlt & Hfail & Hc).
    assert (db_returned o <> Some true) as Hno.
    { rewrite Hret. destruct (is_Exception e); discriminate. }
    split; [|split].
    + split; [intros H; now destruct Hno|].
      intros Hall. specialize (Hall k Hlt). congruence.
    + intros H. now destruct Hno.
    + exists k. split; [lia|]. now rewrite Hfst, Hprefix.
  - destruct Hend as (-> & Hc).
    split; [|split].
    + split; [intros _; exact Hbefore | intros _; exact Hret].
    + intros _. rewrite Hfst, Hc, Hraised. rewrite firstn_all.
      destruct (batches_concat_length data_to_insert) as (Hconcat & Hlen).
      rewrite Hconcat, Hlen. unfold data_to_insert. now rewrite length_map.
    + exists (length (batches data_to_insert)). split; [lia|].
      now rewrite Hfst, Hprefix.
Qed.

(** X20.  When the insert of a batch raises, the batches before it stay
    in the table (nothing is taken back), no later batch is tried, and
    the function returns [False] for an exception that derives from
    [Exception]; any other exception escapes. *)
Theorem store_failure_keeps_earlier_batches (query_id : string)
    (results : list SearchResult.t) (table : list ResultRow.t) (k : nat) (e : py_exception) :
  k < length (batches (List.map (result_dict query_id) results)) ->
  (forall j, j < k ->
             insert j (nth j (batches (List.map (result_dict query_id) results)) []) = None) ->
  insert k (nth k (batches (List.map (result_dict query_id) results)) []) = Some e ->
  let o := store_search_results insert query_id results table in
  db_table o = table ++ firstn (100 * k) (List.map (result_dict query_id) results)
  /\ db_calls o = S k
  /\ db_returned o = (if is_Exception e then Some false else None)
  /\ db_raised o = (if is_Exception e then None else Some e).
Proof.
  intros Hk Hbefore Hfail o.
  destruct (store_outcome query_id results table) as (Htable & Hcalls & Hret & Hraised).
  fold o in Htable, Hcalls, Hret, Hraised.
  set (data_to_insert := List.map (result_dict query_id) results) in *.
  destruct (insert_each_spec (batches data_to_insert) 0 table)
    as (k' & Hk' & Hbefore' & Hfst & Hend).
  cbn [Nat.add] in Hbefore', Hend.
  rewrite <- Htable in Hfst. rewrite <- Hcalls in Hend.
  assert (k' = k) as ->.
  { destruct (lt_eq_lt_dec k' k) as [[Hlt|Heq]|Hgt]; [|exact Heq|].
    - destruct (snd (insert_each insert (batches data_to_insert) 0 table)) as [e'|].
      + destruct Hend as (_ & Hfail' & _). rewrite Hbefore in Hfail' by exact Hlt.
        discriminate.
      + destruct Hend as (-> & _). lia.
    - rewrite Hbefore' in Hfail by exact Hgt. discriminate. }
  destruct (snd (insert_each insert (batches data_to_insert) 0 table)) as [e'|].
  - destruct Hend as (_ & Hfail' & Hc).
    assert (e' = e) as -> by congruence.
    rewrite Hfst, Hc, Hret, Hraised, batches_chunks.
    now rewrite (concat_take_chunks k) by reflexivity.
  - destruct Hend as (-> & _). lia.
Qed.

End StoreFacts.

Lemma store_failure_keeps_earlier_batches_witness :
  let o := store_search_results insert_fails_on_third "q-1" (many_results 250) [] in
  db_table o = [] ++ firstn (100 * 2) (List.map (result_dict "q-1") (many_results 250))
  /\ db_calls o = 3
  /\ db_returned o = Some false
  /\ db_raised o = None.
Proof.
  apply (store_failure_keeps_earlier_batches insert_fails_on_third "q-1"
           (many_results 250) [] 2 ClientError).
  - vm_compute. lia.
  - intros [|[|j]] Hj; [reflexivity | reflexivity | lia].
  - reflexivity.
Defined.

(** ** The configuration *)

Section SettingsFacts.
Import Settings.

Lemma url_taken_In (instances : list SearxngInstanceConfig.t) (url : string) :
  url_taken instances url = true <-> In url (urls_of instances).
Proof.
  induction instances as [|i rest IH]; cbn [url_taken urls_of List.map In].
  - split; [discriminate | tauto].
  - destruct (String.eqb (SearxngInstanceConfig.url i) url) eqn:E.
    + apply String.eqb_eq in E. tauto.
    + apply String.eqb_neq in E. rewrite IH. unfold urls_of. tauto.
Qed.

Lemma url_taken_not_In (instances : list SearxngInstanceConfig.t) (url : string) :
  url_taken instances url = false <-> ~ In url (urls_of instances).
Proof.
  rewrite <- url_taken_In. destruct (url_taken instances url); split; congruence.
Qed.

Lemma get_instance_by_url_app (a b : list SearxngInstanceConfig.t) (url : string) :
  url_taken a url = false ->
  get_instance_by_url (a ++ b) url = get_instance_by_url b url.
Proof.
  induction a as [|i a IH]; cbn [url_taken get_instance_by_url app]; [reflexivity|].
  destruct (String.eqb (SearxngInstanceConfig.url i) url); [discriminate | exact IH].
Qed.

Lemma remove_instance_app (a b : list SearxngInstanceConfig.t) (url : string) :
  url_taken a url = false ->
  remove_instance (a ++ b) url
  = (a ++ fst (remove_instance b url), snd (remove_instance b url)).
Proof.
  induction a as [|i a IH]; cbn [url_taken remove_instance app].
  - intros _. now destruct (remove_instance b url).
  - destruct (String.eqb (SearxngInstanceConfig.url i) url); [discriminate|].
    intros H. now rewrite (IH H).
Qed.

Lemma urls_of_app (a b : list SearxngInstanceConfig.t) :
  urls_of (a ++ b) = urls_of a ++ urls_of b.
Proof. apply List.map_app. Qed.

(** X21.  [add_instance] refuses an instance exactly when its URL is
    already in the list.  When it accepts, the instance is the one
    [get_instance_by_url] finds under that URL, [remove_instance] of the
    URL gives back the list as it was, a second [add_instance] of it is
    refused, and a list without two equal URLs stays one. *)
Theorem add_instance_round_trip (instances : list SearxngInstanceConfig.t)
    (instance : SearxngInstanceConfig.t) :
  let url := SearxngInstanceConfig.url instance in
  match add_instance instances instance with
  | inl message =>
      In url (urls_of instances)
      /\ message = "Instance with URL " +:+ url +:+ " already exists"
  | inr instances' =>
      ~ In url (urls_of instances)
      /\ get_instance_by_url instances' url = Some instance
      /\ remove_instance instances' url = (instances, true)
      /\ (exists message, add_instance instances' instance = inl message)
      /\ (NoDup (urls_of instances) -> NoDup (urls_of instances'))
  end.
Proof.
  intros url. unfold add_instance. fold url.
  destruct (url_taken instances url) eqn:Htaken.
  - split; [now apply url_taken_In | reflexivity].
  - assert (String.eqb url url = true) as Hrefl by now apply String.eqb_eq.
    split; [now apply url_taken_not_In|].
    split.
    { rewrite get_instance_by_url_app by assumption.
      cbn [get_instance_by_url]. fold url. now rewrite Hrefl. }
    split.
    { rewrite remove_instance_app by assumption.
      cbn [remove_instance fst snd]. fold url. rewrite Hrefl.
      cbn [fst snd]. now rewrite app_nil_r. }
    split.
    { assert (url_taken (instances ++ [instance]) url = true) as ->.
      { apply url_taken_In. rewrite urls_of_app. apply in_or_app. right. now left. }
      eauto. }
    intros Hnodup. rewrite urls_of_app.
    apply NoDup_app. split; [exact Hnodup|]. split.
    + intros u Hu Hin. cbn in Hin. apply list_elem_of_singleton in Hin. subst u.
      apply url_taken_not_In in Htaken. apply Htaken. now apply list_elem_of_In.
    + cbn. apply NoDup_singleton.
Qed.

Lemma remove_instance_spec (instances : list SearxngInstanceConfig.t) (url : string) :
  (snd (remove_instance instances url) = false
   /\ fst (remove_instance instances url) = instances
   /\ ~ In url (urls_of instances))
  \/ (snd (remove_instance instances url) = true
      /\ exists pre instance post,
           instances = pre ++ instance :: post
           /\ fst (remove_instance instances url) = pre ++ post
           /\ SearxngInstanceConfig.url instance = url
           /\ ~ In url (urls_of pre)).
Proof.
  induction instances as [|i rest IH]; cbn [remove_instance].
  - left. cbn. tauto.
  - destruct (String.eqb (SearxngInstanceConfig.url i) url) eqn:E.
    + apply String.eqb_eq in E. right. split; [reflexivity|].
      exists [], i, rest. cbn. tauto.
    + apply String.eqb_neq in E.
      destruct (remove_instance rest url) as [rest' found]. cbn [fst snd] in *.
      destruct IH as [(Hf & Hrest & Hnot)|(Hf & pre & x & post & Heq & Hrest & Hx & Hnot)].
      * left. subst. cbn [urls_of List.map In]. repeat split; try reflexivity.
        unfold urls_of in Hnot. tauto.
      * right. split; [exact Hf|]. exists (i :: pre), x, post. subst rest rest'.
        cbn [app urls_of List.map In]. repeat split; try assumption.
        unfold urls_of in Hnot. tauto.
Qed.

(** X22.  [remove_instance] answers [True] exactly when the URL is in the
    list, and then takes out the first instance that has it and nothing
    else; otherwise the list is unchanged.  From a list without two
    equal URLs the URL is gone afterwards; with two instances under one
    URL, as a configuration file may hold them, the second one stays and
    is found. *)
Theorem remove_instance_takes_the_first (instances : list SearxngInstanceConfig.t)
    (url : string) :
  let instances' := fst (remove_instance instances url) in
  let found := snd (remove_instance instances url) in
  (found = true <-> In url (urls_of instances))
  /\ (found = false -> instances' = instances)
  /\ (found = true ->
      exists pre instance post,
        instances = pre ++ instance :: post /\ instances' = pre ++ post
        /\ SearxngInstanceConfig.url instance = url /\ ~ In url (urls_of pre))
  /\ (NoDup (urls_of instances) ->
      NoDup (urls_of instances') /\ get_instance_by_url instances' url = None)
  /\ (forall a b, SearxngInstanceConfig.url a = url -> SearxngInstanceConfig.url b = url ->
                  get_instance_by_url (fst (remove_instance [a; b] url)) url = Some b).
Proof.
  intros instances' found. subst instances' found.
  destruct (remove_instance_spec instances url)
    as [(Hf & Hsame & Hnot)|(Hf & pre & x & post & Heq & Hrest & Hx & Hnot)].
  - rewrite Hf, Hsame. split; [split; [discriminate | tauto]|].
    split; [reflexivity|]. split; [discriminate|]. split.
    + intros Hnodup. split; [exact Hnodup|].
      apply url_taken_not_In in Hnot. clear -Hnot.
      induction instances as [|i rest IH]; [reflexivity|].
      cbn [url_taken get_instance_by_url] in *.
      destruct (String.eqb (SearxngInstanceConfig.url i) url); [discriminate | auto].
    + intros a b Ha Hb. cbn [remove_instance]. rewrite Ha.
      rewrite (proj2 (String.eqb_eq url url) eq_refl). cbn [fst get_instance_by_url].
      rewrite Hb. now rewrite (proj2 (String.eqb_eq url url) eq_refl).
  - rewrite Hf, Hrest. split.
    { split; [intros _|reflexivity]. rewrite Heq, urls_of_app.
      apply in_or_app. right. left. exact Hx. }
    split; [discriminate|]. split; [intros _; eauto 10|]. split.
    + rewrite Heq, !urls_of_app. cbn [urls_of List.map]. fold (urls_of post).
      rewrite Hx. intros Hnodup.
      apply NoDup_app in Hnodup as (Hpre & Hdisj & Hpost).
      apply NoDup_cons in Hpost as [Hnotpost Hpost].
      split.
      * apply NoDup_app. split; [exact Hpre|]. split; [|exact Hpost].
        intros u Hu Hin. apply (Hdisj u Hu). now right.
      * rewrite get_instance_by_url_app by now apply url_taken_not_In.
        assert (url_taken post url = false) as Hpost'.
        { apply url_taken_not_In. intros Hin. apply Hnotpost.
          now apply list_elem_of_In. }
        clear -Hpost'. induction post as [|i rest IH]; [reflexivity|].
        cbn [url_taken get_instance_by_url] in *.
        destruct (String.eqb (SearxngInstanceConfig.url i) url); [discriminate | auto].
    + intros a b Ha Hb. cbn [remove_instance]. rewrite Ha.
      rewrite (proj2 (String.eqb_eq url url) eq_refl). cbn [fst get_instance_by_url].
      rewrite Hb. now rewrite (proj2 (String.eqb_eq url url) eq_refl).
Qed.

Lemma issue_if_nil (test : bool) (message : string) (issues : list string) :
  issue_if test message issues = [] <-> test = false /\ issues = [].
Proof.
  unfold issue_if. destruct test.
  - split; [|intros [H _]; discriminate].
    intros H. apply List.app_eq_nil in H as [_ H]. discriminate.
  - tauto.
Qed.

(** One turn of the loop appends to the issues, and appends nothing
    exactly when the instance has a URL and a name and the URL is new. *)
Lemma validate_instance_step (urls : gset string) (issues : list string)
      (instance : SearxngInstanceConfig.t) :
  exists urls' e,
    validate_instance (urls, issues) instance = (urls', issues ++ e)
    /\ (e = [] <-> SearxngInstanceConfig.url instance <> ""
                   /\ SearxngInstanceConfig.name instance <> ""
                   /\ SearxngInstanceConfig.url instance ∉ urls)
    /\ (e = [] -> urls' = {[SearxngInstanceConfig.url instance]} ∪ urls).
Proof.
  unfold validate_instance.
  destruct (PyStr.truthy (SearxngInstanceConfig.url instance)) eqn:Hurl;
    destruct (PyStr.truthy (SearxngInstanceConfig.name instance)) eqn:Hname;
    cbn [negb].
  all: try (apply truthy_nonempty in Hurl).
  all: try (apply truthy_nonempty in Hname).
  all: try (assert (SearxngInstanceConfig.url instance = "") as Hurl'
              by (destruct (SearxngInstanceConfig.url instance); [reflexivity | discriminate])).
  all: try (assert (SearxngInstanceConfig.name instance = "") as Hname'
              by (destruct (SearxngInstanceConfig.name instance); [reflexivity | discriminate])).
  - destruct (bool_decide (SearxngInstanceConfig.url instance ∈ urls)) eqn:Hin.
    + apply bool_decide_eq_true in Hin.
      eexists _, [_]. split; [reflexivity|]. split; [|discriminate].
      split; [discriminate | tauto].
    + apply bool_decide_eq_false in Hin.
      eexists _, []. rewrite app_nil_r. split; [reflexivity|]. tauto.
  - destruct (bool_decide (SearxngInstanceConfig.url instance ∈ urls)) eqn:Hin.
    + eexists _, [_; _]. rewrite <- app_assoc. split; [reflexivity|].
      split; [|discriminate]. split; [discriminate | tauto].
    + eexists _, [_]. split; [reflexivity|].
      split; [|discriminate]. split; [discriminate | tauto].
  - eexists _, [_]. split; [reflexivity|].
    split; [|discriminate]. split; [discriminate | tauto].
  - eexists _, [_; _]. rewrite <- app_assoc. split; [reflexivity|].
    split; [|discriminate]. split; [discriminate | tauto].
Qed.

Lemma validate_loop (instances : list SearxngInstanceConfig.t) (urls : gset string)
      (issues : list string) :
  exists extra,
    snd (fold_left validate_instance instances (urls, issues)) = issues ++ extra
    /\ (extra = []
        <-> Forall (fun instance => SearxngInstanceConfig.url instance <> ""
                                    /\ SearxngInstanceConfig.name instance <> "")
                   instances
            /\ NoDup (urls_of instances)
            /\ forall u, u ∈ urls_of instances -> u ∉ urls).
Proof.
  revert urls issues. induction instances as [|i rest IH]; intros urls issues.
  - exists []. cbn. rewrite app_nil_r. split; [reflexivity|].
    split; [|reflexivity]. intros _. split; [constructor|]. split; [constructor|].
    intros u Hu. now apply elem_of_nil in Hu.
  - cbn [fold_left].
    destruct (validate_instance_step urls issues i) as (urls' & e & Heq & He & Hurls).
    rewrite Heq. destruct (IH urls' (issues ++ e)) as (extra & Hsnd & Hextra).
    exists (e ++ extra). rewrite Hsnd, app_assoc. split; [reflexivity|].
    cbn [urls_of List.map]. fold (urls_of rest). split.
    + intros H. apply List.app_eq_nil in H as [He0 Hx0].
      specialize (Hurls He0). subst urls'.
      apply He in He0 as (Hu & Hn & Hnew).
      apply Hextra in Hx0 as (Hall & Hnodup & Hfresh).
      split; [now constructor|]. split.
      * apply NoDup_cons. split; [|exact Hnodup].
        intros Hin. apply (Hfresh _ Hin).
        apply elem_of_union. left. now apply elem_of_singleton.
      * intros u Hu'. apply elem_of_cons in Hu' as [->|Hu']; [exact Hnew|].
        intros Hin. apply (Hfresh u Hu'). apply elem_of_union. now right.
    + intros (Hall & Hnodup & Hfresh).
      apply Forall_cons in Hall as [[Hu Hn] Hall].
      apply NoDup_cons in Hnodup as [Hnotin Hnodup].
      assert (e = []) as He0.
      { apply He. split; [exact Hu|]. split; [exact Hn|]. apply Hfresh. now left. }
      specialize (Hurls He0). subst urls' e. cbn [app].
      apply Hextra. split; [exact Hall|]. split; [exact Hnodup|].
      intros u Hu'. apply not_elem_of_union. split.
      * apply not_elem_of_singleton. intros ->. contradiction.
      * apply Hfresh. now right.
Qed.

(** X23.  [validate_config] reports no issue exactly for the
    configurations in which the delay is not below 0, the page limit, the
    timeout, the cleanup days, the results per page and the workers are
    at least 1, the port lies between 1 and 65535, every instance has a
    URL and a name, and no two instances share a URL.  The configuration
    that [reset_to_defaults] leaves is one of them. *)
Theorem validate_config_accepts_the_sound (cm : ConfigManager) :
  (validate_config cm = [] <-> sound cm)
  /\ validate_config (reset_to_defaults cm) = [].
Proof.
  split; [|reflexivity].
  unfold validate_config, sound.
  match goal with
  | |- snd (fold_left _ _ (_, ?pre)) = [] <-> _ =>
      destruct (validate_loop (instances cm) ∅ pre) as (extra & -> & Hextra)
  end.
  assert (extra = []
          <-> Forall (fun instance => SearxngInstanceConfig.url instance <> ""
                                      /\ SearxngInstanceConfig.name instance <> "")
                     (instances cm)
              /\ NoDup (urls_of (instances cm))) as Hloop.
  { rewrite Hextra. split; [tauto|]. intros [H1 H2]. split; [exact H1|].
    split; [exact H2|]. intros u _. apply not_elem_of_empty. }
  clear Hextra. split.
  - intros H. apply List.app_eq_nil in H as [Hpre Hx].
    apply Hloop in Hx as [Hall Hnodup].
    repeat (apply issue_if_nil in Hpre as [? Hpre]).
    repeat match goal with
           | H : (_ <? _)%Z = false |- _ => apply Z.ltb_ge in H
           | H : negb _ = false |- _ => apply negb_false_iff, andb_true_iff in H as [? ?]
           | H : (_ <=? _)%Z = true |- _ => apply Z.leb_le in H
           end.
    repeat split; assumption.
  - intros (Hdelay & Hpages & Htimeout & Hdays & Hper & [Hport1 Hport2] & Hworkers
            & Hall & Hnodup).
    rewrite (proj2 Hloop (conj Hall Hnodup)), app_nil_r.
    rewrite Hdelay.
    rewrite (proj2 (Z.ltb_ge _ _) Hpages), (proj2 (Z.ltb_ge _ _) Htimeout),
      (proj2 (Z.ltb_ge _ _) Hdays), (proj2 (Z.ltb_ge _ _) Hper),
      (proj2 (Z.ltb_ge _ _) Hworkers),
      (proj2 (Z.leb_le _ _) Hport1), (proj2 (Z.leb_le _ _) Hport2).
    reflexivity.
Qed.

End SettingsFacts.
